(** * Qwen3-ComputerUse: the agent control loop of [agent.py]

    A shallow embedding of [BrowserAgent] (file [agent.py]) together with
    the abstract [Computer] interface it drives (file
    [computers/computer.py]) and its implementation [PlaywrightComputer]
    (file [computers/playwright/playwright.py]), and the properties of
    the loop that the specification states.

    Conventions of the embedding:
    - Python [int] is [Z]; Python [float] is IEEE 754 binary64, given by the
      Standard Library's [spec_float] with [prec = 53] and [emax = 1024];
    - the objects produced by [json.loads] are the inductive [pyobj];
    - exceptions are values of [exn]; a computation that may raise returns
      [res A]; the agent's methods live in a state-and-exception monad over
      the record [Agent], so that what a method mutated before raising is
      kept, as in Python;
    - the collaborators that are not part of the repository ([json.loads],
      [json.dumps], [time.sleep], PIL's resize, the Ollama server) are
      variables of the section that holds the agent; the Playwright page
      is the class [Page];
    - the console of [rich] is a variable as well: a print returns or
      raises (rich reads the text as markup and raises on a closing tag
      that matches no open tag); what is printed is recorded by its
      place in the code and its data ([printed]), not as text.  The
      prints of a constant text, of a number or of the message of a
      [json.JSONDecodeError] are left out: no tag can arise in them.
      The prints inside [_call_ollama] belong to the call: what they
      raise is what the call raises. *)

From Stdlib Require Import ZArith List String Ascii Bool Lia SpecFloat.
Import ListNotations.
Open Scope string_scope.
Open Scope Z_scope.
Set Warnings "-register-all".

(** ** Exceptions and results *)

Inductive exc_class :=
| ValueError | TypeError | AttributeError | KeyError | OverflowError
| OtherError.

(** [msg] is [Some s] when the raising code supplies the text and [None]
    when the interpreter generates it. *)
Inductive exn :=
| KeyboardInterrupt
| Exc (c : exc_class) (msg : option string).

(** [except Exception] catches everything but [KeyboardInterrupt]. *)
Definition is_Exception (e : exn) : bool :=
  match e with KeyboardInterrupt => false | Exc _ _ => true end.

Inductive res (A : Type) :=
| Ok (a : A)
| Raise (e : exn).
Arguments Ok {A} a.
Arguments Raise {A} e.

Definition res_bind {A B} (r : res A) (k : A -> res B) : res B :=
  match r with Ok a => k a | Raise e => Raise e end.

Definition res_map {A B} (f : A -> B) (r : res A) : res B :=
  match r with Ok a => Ok (f a) | Raise e => Raise e end.

(** ** Python floats *)

Definition prec : Z := 53.
Definition emax : Z := 1024.

(** The integer [n] as an exact, not yet rounded, binary number. *)
Definition exact_of_int (n : Z) : spec_float :=
  match n with
  | Z0 => S754_zero false
  | Zpos p => S754_finite false p 0
  | Zneg p => S754_finite true p 0
  end.

Definition finite_or_overflow (f : spec_float) : res spec_float :=
  match f with
  | S754_infinity _ => Raise (Exc OverflowError None)
  | _ => Ok f
  end.

(** [float(n)] as the interpreter converts an [int] operand of a mixed
    operation: round to nearest even, [OverflowError] beyond the range. *)
Definition float_of_int (n : Z) : res spec_float :=
  finite_or_overflow (binary_normalize prec emax n 0 false).

(** [a / b] on two ints, [b] nonzero: the correctly rounded quotient,
    [OverflowError] if it is too large for a float. *)
Definition int_truediv (a b : Z) : res spec_float :=
  finite_or_overflow (SFdiv prec emax (exact_of_int a) (exact_of_int b)).

(** [int(f)]: truncation toward zero. *)
Definition int_of_float (f : spec_float) : res Z :=
  match f with
  | S754_zero _ => Ok 0
  | S754_finite s m e =>
      let a := match e with
               | Zneg k => Z.shiftr (Zpos m) (Zpos k)
               | _ => Z.shiftl (Zpos m) e
               end in
      Ok (if s then - a else a)
  | S754_infinity _ => Raise (Exc OverflowError None)
  | S754_nan => Raise (Exc ValueError None)
  end.

(** [f * n] with [n] an int. *)
Definition float_mul_int (f : spec_float) (n : Z) : res spec_float :=
  res_map (SFmul prec emax f) (float_of_int n).

(** ** Python objects, as [json.loads] builds them *)

Inductive pyobj :=
| PNone
| PBool (b : bool)
| PInt (n : Z)
| PFloat (f : spec_float)
| PStr (s : string)
| PList (l : list pyobj)
| PDict (kvs : list (string * pyobj)).

Fixpoint assoc (k : string) (kvs : list (string * pyobj)) : option pyobj :=
  match kvs with
  | [] => None
  | (k', v) :: rest => if String.eqb k k' then Some v else assoc k rest
  end.

(** [d.get(k, default)] on a dict. *)
Definition dict_get (k : string) (default : pyobj) (kvs : list (string * pyobj)) : pyobj :=
  match assoc k kvs with Some v => v | None => default end.

(** [v == s] for a string literal [s]. *)
Definition eq_str (v : pyobj) (s : string) : bool :=
  match v with PStr t => String.eqb t s | _ => false end.

Definition is_substring (s t : string) : bool :=
  match String.index 0 s t with Some _ => true | None => false end.

(** [s in v] for a string [s]: key membership in a dict, element
    membership in a list, substring test in a str, [TypeError] otherwise. *)
Definition py_contains (s : string) (v : pyobj) : res bool :=
  match v with
  | PDict kvs => Ok (match assoc s kvs with Some _ => true | None => false end)
  | PList l => Ok (existsb (fun x => eq_str x s) l)
  | PStr t => Ok (is_substring s t)
  | _ => Raise (Exc TypeError None)
  end.

Definition float_is_zero (f : spec_float) : bool :=
  match f with S754_zero _ => true | _ => false end.

(** Truth value of an object. *)
Definition truthy (v : pyobj) : bool :=
  match v with
  | PNone => false
  | PBool b => b
  | PInt n => negb (n =? 0)
  | PFloat f => negb (float_is_zero f)
  | PStr s => negb (String.eqb s EmptyString)
  | PList l => match l with [] => false | _ => true end
  | PDict kvs => match kvs with [] => false | _ => true end
  end.

(** [len(v)]. *)
Definition py_len (v : pyobj) : res Z :=
  match v with
  | PStr s => Ok (Z.of_nat (String.length s))
  | PList l => Ok (Z.of_nat (List.length l))
  | PDict kvs => Ok (Z.of_nat (List.length kvs))
  | _ => Raise (Exc TypeError None)
  end.

(** [v[i]] for a natural index [i]. The keys of a decoded dict are
    strings, so an integer key is never found. *)
Definition py_getitem (v : pyobj) (i : nat) : res pyobj :=
  match v with
  | PList l =>
      match nth_error l i with
      | Some x => Ok x
      | None => Raise (Exc OtherError None)
      end
  | PStr s =>
      match String.get i s with
      | Some c => Ok (PStr (String c EmptyString))
      | None => Raise (Exc OtherError None)
      end
  | PDict _ => Raise (Exc KeyError None)
  | _ => Raise (Exc TypeError None)
  end.

(** [abs(v)]. *)
Definition py_abs (v : pyobj) : res pyobj :=
  match v with
  | PInt n => Ok (PInt (Z.abs n))
  | PBool b => Ok (PInt (if b then 1 else 0))
  | PFloat f => Ok (PFloat (SFabs f))
  | _ => Raise (Exc TypeError None)
  end.

(** [v / d] for a nonzero int [d]. *)
Definition py_truediv (v : pyobj) (d : Z) : res spec_float :=
  match v with
  | PInt n => int_truediv n d
  | PBool b => int_truediv (if b then 1 else 0) d
  | PFloat f => res_map (SFdiv prec emax f) (float_of_int d)
  | _ => Raise (Exc TypeError None)
  end.

(** [v < 0]. *)
Definition py_lt0 (v : pyobj) : res bool :=
  match v with
  | PInt n => Ok (n <? 0)
  | PBool _ => Ok false
  | PFloat f => Ok (SFltb f (S754_zero false))
  | _ => Raise (Exc TypeError None)
  end.

(** Whitespace as [str.strip] sees it, on code points below 256. *)
Definition is_space (c : ascii) : bool :=
  let n := nat_of_ascii c in
  ((9 <=? n) && (n <=? 13) || (28 <=? n) && (n <=? 32)
   || (n =? 133) || (n =? 160))%nat.

Fixpoint lstrip (s : string) : string :=
  match s with
  | String c rest => if is_space c then lstrip rest else s
  | EmptyString => EmptyString
  end.

Fixpoint rstrip (s : string) : string :=
  match s with
  | String c rest =>
      match rstrip rest with
      | EmptyString => if is_space c then EmptyString else String c EmptyString
      | r => String c r
      end
  | EmptyString => EmptyString
  end.

Definition strip (s : string) : string := rstrip (lstrip s).

(** ** The execution environment: [computers/computer.py] *)

(** [EnvState]: the screenshot (PNG bytes) and the URL. *)
Record EnvState := { screenshot : string; url : string }.

(** The abstract class [Computer]. [W] is the state of the browser
    behind it; every operation but [screen_size] may change it and may
    raise. The agent hands [text] and [keys] over as decoded, so they are
    arbitrary objects here. *)
Class Computer (W : Type) := {
  screen_size : W -> Z * Z;
  current_state : W -> W * res EnvState;
  click_at : Z -> Z -> W -> W * res EnvState;
  double_click_at : Z -> Z -> W -> W * res EnvState;
  triple_click_at : Z -> Z -> W -> W * res EnvState;
  right_click_at : Z -> Z -> W -> W * res EnvState;
  middle_click_at : Z -> Z -> W -> W * res EnvState;
  hover_at : Z -> Z -> W -> W * res EnvState;
  drag_to : Z -> Z -> W -> W * res EnvState;
  type_text : pyobj -> W -> W * res EnvState;
  key_combination : pyobj -> W -> W * res EnvState;
  scroll : Z -> W -> W * res EnvState
}.

(** A call of the agent into the environment. *)
Inductive call :=
| CurrentState
| ClickAt (x y : Z)
| DoubleClickAt (x y : Z)
| TripleClickAt (x y : Z)
| RightClickAt (x y : Z)
| MiddleClickAt (x y : Z)
| HoverAt (x y : Z)
| DragTo (x y : Z)
| TypeText (text : pyobj)
| KeyCombination (keys : pyobj)
| Scroll (pixels : Z).

Definition perform {W} `{Computer W} (c : call) : W -> W * res EnvState :=
  match c with
  | CurrentState => current_state
  | ClickAt x y => click_at x y
  | DoubleClickAt x y => double_click_at x y
  | TripleClickAt x y => triple_click_at x y
  | RightClickAt x y => right_click_at x y
  | MiddleClickAt x y => middle_click_at x y
  | HoverAt x y => hover_at x y
  | DragTo x y => drag_to x y
  | TypeText t => type_text t
  | KeyCombination k => key_combination k
  | Scroll p => scroll p
  end.

(** An action dispatch is any call but the state query. *)
Definition is_dispatch (c : call) : bool :=
  match c with CurrentState => false | _ => true end.

(** ** What the agent does to the outside, in order *)

Record message := { role : string; content : string; images : list string }.

Inductive screenshot_name := Initial | Step (n : Z).

Inductive event :=
| EnvCall (c : call)
| Inference (messages : list message)
| Sleep (seconds : pyobj)
| SaveScreenshot (dir : string) (name : screenshot_name).

Definition dispatch_of (ev : event) : option call :=
  match ev with
  | EnvCall c => if is_dispatch c then Some c else None
  | _ => None
  end.

Fixpoint dispatched (tr : list event) : list call :=
  match tr with
  | [] => []
  | ev :: rest =>
      match dispatch_of ev with
      | Some c => c :: dispatched rest
      | None => dispatched rest
      end
  end.

Definition is_inference (ev : event) : bool :=
  match ev with Inference _ => true | _ => false end.

(** What one call of [_call_ollama] gives: the pair (content, thinking),
    or an exception. *)
Inductive reply :=
| Reply (content thinking : string)
| Fails (e : exn).

(** ** The console

    What [console.print] is given, for the prints whose text comes from
    outside: the task line of [run] (line 187), the error line of the
    handler (line 200), the raw response of a turn without action (line
    239, its first 500 characters), the answer line (line 255), the
    object without ['action'] (line 389), the unknown kind (line 449) and
    the table of [_display_action] (lines 462-472). *)
Inductive printed :=
| TaskLine (query : string)
| ErrorLine (e : exn)
| RawResponse (response : string)
| AnswerLine (text : pyobj)
| MissingAction (action : pyobj)
| UnknownAction (action_type : pyobj)
| ActionTable (reasoning : string) (action : pyobj).

(** ** The agent's data *)

Definition NORMALIZED_SIZE : Z := 1000.

Record HistoryEntry := {
  screenshot_b64 : string;
  action : pyobj;
  entry_reasoning : string
}.

(** The attributes of a [BrowserAgent]. [_computer] holds the state of the
    environment object; [inferences] and [trace] are not attributes: they
    record the number of calls to the model so far and the events so far. *)
Record Agent (W : Type) := {
  _computer : W;
  _query : string;
  _max_steps : Z;
  _context_window : Z;
  _screenshot_dir : option string;
  _history : list HistoryEntry;
  _action_count : Z;
  _consecutive_failures : Z;
  _max_consecutive_failures : Z;
  inferences : nat;
  trace : list event
}.
Arguments _computer {W} a.
Arguments _query {W} a.
Arguments _max_steps {W} a.
Arguments _context_window {W} a.
Arguments _screenshot_dir {W} a.
Arguments _history {W} a.
Arguments _action_count {W} a.
Arguments _consecutive_failures {W} a.
Arguments _max_consecutive_failures {W} a.
Arguments inferences {W} a.
Arguments trace {W} a.

Definition set_computer {W} (w : W) (a : Agent W) : Agent W :=
  {| _computer := w; _query := _query a; _max_steps := _max_steps a;
     _context_window := _context_window a; _screenshot_dir := _screenshot_dir a;
     _history := _history a; _action_count := _action_count a;
     _consecutive_failures := _consecutive_failures a;
     _max_consecutive_failures := _max_consecutive_failures a;
     inferences := inferences a; trace := trace a |}.

Definition set_history {W} (h : list HistoryEntry) (a : Agent W) : Agent W :=
  {| _computer := _computer a; _query := _query a; _max_steps := _max_steps a;
     _context_window := _context_window a; _screenshot_dir := _screenshot_dir a;
     _history := h; _action_count := _action_count a;
     _consecutive_failures := _consecutive_failures a;
     _max_consecutive_failures := _max_consecutive_failures a;
     inferences := inferences a; trace := trace a |}.

Definition set_action_count {W} (n : Z) (a : Agent W) : Agent W :=
  {| _computer := _computer a; _query := _query a; _max_steps := _max_steps a;
     _context_window := _context_window a; _screenshot_dir := _screenshot_dir a;
     _history := _history a; _action_count := n;
     _consecutive_failures := _consecutive_failures a;
     _max_consecutive_failures := _max_consecutive_failures a;
     inferences := inferences a; trace := trace a |}.

Definition set_consecutive_failures {W} (n : Z) (a : Agent W) : Agent W :=
  {| _computer := _computer a; _query := _query a; _max_steps := _max_steps a;
     _context_window := _context_window a; _screenshot_dir := _screenshot_dir a;
     _history := _history a; _action_count := _action_count a;
     _consecutive_failures := n;
     _max_consecutive_failures := _max_consecutive_failures a;
     inferences := inferences a; trace := trace a |}.

Definition set_inferences {W} (n : nat) (a : Agent W) : Agent W :=
  {| _computer := _computer a; _query := _query a; _max_steps := _max_steps a;
     _context_window := _context_window a; _screenshot_dir := _screenshot_dir a;
     _history := _history a; _action_count := _action_count a;
     _consecutive_failures := _consecutive_failures a;
     _max_consecutive_failures := _max_consecutive_failures a;
     inferences := n; trace := trace a |}.

Definition log {W} (ev : event) (a : Agent W) : Agent W :=
  {| _computer := _computer a; _query := _query a; _max_steps := _max_steps a;
     _context_window := _context_window a; _screenshot_dir := _screenshot_dir a;
     _history := _history a; _action_count := _action_count a;
     _consecutive_failures := _consecutive_failures a;
     _max_consecutive_failures := _max_consecutive_failures a;
     inferences := inferences a; trace := trace a ++ [ev] |}.

(** [BrowserAgent.__init__], with the defaults left to the caller. *)
Definition new_agent {W} (computer : W) (query : string)
  (max_steps context_window : Z) (screenshot_dir : option string) : Agent W :=
  {| _computer := computer; _query := query; _max_steps := max_steps;
     _context_window := context_window; _screenshot_dir := screenshot_dir;
     _history := []; _action_count := 0; _consecutive_failures := 0;
     _max_consecutive_failures := 3; inferences := 0%nat; trace := [] |}.

(** The dict that [run] returns. [status] and [reasoning] are whatever
    objects the loop puts there; [str(e)] of a caught exception is kept
    symbolic. *)
Inductive reason :=
| Obj (v : pyobj)
| StrOf (e : exn).

Record Result := {
  status : pyobj;
  action_count : Z;
  final_url : string;
  reasoning : reason
}.

(** The dict that [_run_one_step] returns. *)
Inductive step_result :=
| Done (status : pyobj) (reasoning : reason)
| NotDone (state : EnvState).

(** ** The state-and-exception monad of the methods *)

Definition M (W A : Type) : Type := Agent W -> Agent W * res A.

Definition ret {W A} (x : A) : M W A := fun a => (a, Ok x).

Definition raise {W A} (e : exn) : M W A := fun a => (a, Raise e).

Definition bind {W A B} (m : M W A) (k : A -> M W B) : M W B :=
  fun a => match m a with
           | (a', Ok x) => k x a'
           | (a', Raise e) => (a', Raise e)
           end.

Definition lift {W A} (r : res A) : M W A := fun a => (a, r).

Definition modify {W} (f : Agent W -> Agent W) : M W unit :=
  fun a => (f a, Ok tt).

Definition read {W A} (f : Agent W -> A) : M W A := fun a => (a, Ok (f a)).

Declare Scope agent_scope.
Delimit Scope agent_scope with agent.
Notation "x <- m ;; k" := (bind m (fun x => k))
  (at level 61, m at next level, right associativity) : agent_scope.
Notation "m ;;; k" := (bind m (fun _ => k))
  (at level 61, right associativity) : agent_scope.

(** A call into the environment: logged, then performed. *)
Definition env {W} `{Computer W} (c : call) : M W EnvState :=
  fun a =>
    let a1 := log (EnvCall c) a in
    let '(w, r) := perform c (_computer a1) in
    (set_computer w a1, r).

(** ** [BrowserAgent] *)

Section BrowserAgent.

Context {W : Type} `{Computer W}.

(** The collaborators from outside the repository. [json_loads] gives
    [None] for [json.JSONDecodeError]; [time_sleep] gives the exception
    it raises, if any; [prepare_screenshot] is the resize to the
    normalized grid and the base64 encoding; [ollama n] is what the
    [n]-th call of [_call_ollama] gives, the exception being the one that
    leaves the method; [console_print] gives the exception that a print
    raises, if any. *)
Variable json_loads : string -> option pyobj.
Variable json_dumps : pyobj -> string.
Variable time_sleep : pyobj -> option exn.
Variable prepare_screenshot : string -> string.
Variable ollama : nat -> reply.
Variable SYSTEM_PROMPT : string.
Variable console_print : printed -> option exn.

Local Open Scope agent_scope.

(** [console.print(...)]. *)
Definition say (p : printed) : M W unit :=
  fun a => (a, match console_print p with
               | Some e => Raise e
               | None => Ok tt
               end).

Definition newline : string := String "010"%char EmptyString.

(** [_prepare_screenshot], lines 278-285: the resize and the encoding are
    the collaborator's. *)
Definition _prepare_screenshot (screenshot_bytes : string) : M W string :=
  ret (prepare_screenshot screenshot_bytes).

(** [_build_messages], lines 287-309: the system prompt, then one user
    message with the retained actions, the task and the current
    screenshot. *)
Definition _build_messages (current_screenshot_b64 : string) : M W (list message) :=
  history <- read _history ;;
  query <- read _query ;;
  let history_text :=
    match history with
    | [] => EmptyString
    | _ => "Previous actions taken:" ++ newline
           ++ String.concat newline (map (fun turn => json_dumps (action turn)) history)
    end in
  let user_content := "Task: " ++ query in
  let user_content :=
    if String.eqb history_text EmptyString then user_content
    else history_text ++ newline ++ newline ++ user_content in
  ret [ {| role := "system"; content := SYSTEM_PROMPT; images := [] |};
        {| role := "user"; content := user_content;
           images := [current_screenshot_b64] |} ].

(** [_call_ollama], lines 311-375, as the loop sees it: the call is
    recorded, then the pair (content, thinking) is returned or the
    exception raised again. *)
Definition _call_ollama (messages : list message) : M W (string * string) :=
  n <- read inferences ;;
  modify (log (Inference messages)) ;;;
  modify (set_inferences (S n)) ;;;
  match ollama n with
  | Reply content thinking => ret (content, thinking)
  | Fails e => raise e
  end.

(** [_parse_response], lines 377-393; the second component of the
    returned pair, always [None], is left out.  The [try] catches
    [json.JSONDecodeError] only: what the membership test or the print of
    line 389 raises leaves the method. *)
Definition _parse_response (response : string) : res (option pyobj) :=
  let text := strip response in
  if String.eqb text EmptyString then Ok None
  else
    match json_loads text with
    | Some action =>
        res_bind (py_contains "action" action)
          (fun b => if b then Ok (Some action)
                    else match console_print (MissingAction action) with
                         | Some e => Raise e
                         | None => Ok None
                         end)
    | None => Ok None
    end.

(** [action.get(k, default)]: only a dict has [get]. *)
Definition get (action : pyobj) (k : string) (default : pyobj) : res pyobj :=
  match action with
  | PDict kvs => Ok (dict_get k default kvs)
  | _ => Raise (Exc AttributeError None)
  end.

(** [int((v / NORMALIZED_SIZE) * dim)]. *)
Definition denormalize (v : pyobj) (dim : Z) : res Z :=
  res_bind (py_truediv v NORMALIZED_SIZE) (fun q =>
  res_bind (float_mul_int q dim) int_of_float).

(** [_denormalize_x] and [_denormalize_y], lines 452-458. *)
Definition _denormalize_x (self : Agent W) (x : pyobj) : res Z :=
  denormalize x (fst (screen_size (_computer self))).

Definition _denormalize_y (self : Agent W) (y : pyobj) : res Z :=
  denormalize y (snd (screen_size (_computer self))).

(** The scroll amount: the magnitude scaled, then the sign put back. *)
Definition scroll_pixels (pixels : pyobj) (height : Z) : res Z :=
  res_bind (py_abs pixels) (fun m =>
  res_bind (denormalize m height) (fun actual_pixels =>
  res_bind (py_lt0 pixels) (fun neg =>
  Ok (if neg then - actual_pixels else actual_pixels)))).

(** The first statements of [_execute_action], lines 398-402: [x] from
    the first item of [coordinate] unless [coordinate] is falsy, then [y]
    from its second item if [len(coordinate) > 1]. *)
Definition denormalized (self : Agent W) (coordinate : pyobj) : res (Z * Z) :=
  res_bind (if truthy coordinate
            then res_bind (py_getitem coordinate 0) (_denormalize_x self)
            else Ok 0) (fun x =>
  res_bind (res_bind (py_len coordinate) (fun n =>
            if n >? 1
            then res_bind (py_getitem coordinate 1) (_denormalize_y self)
            else Ok 0)) (fun y =>
  Ok (x, y))).

(** [_execute_action], lines 395-450. *)
Definition _execute_action (action : pyobj) : M W EnvState :=
  action_type <- lift (get action "action" PNone) ;;
  coordinate <- lift (get action "coordinate" (PList [PInt 0; PInt 0])) ;;
  xy <- (fun self => (self, denormalized self coordinate)) ;;
  let '(x, y) := xy in
  if eq_str action_type "left_click" then env (ClickAt x y)
  else if eq_str action_type "double_click" then env (DoubleClickAt x y)
  else if eq_str action_type "triple_click" then env (TripleClickAt x y)
  else if eq_str action_type "right_click" then env (RightClickAt x y)
  else if eq_str action_type "middle_click" then env (MiddleClickAt x y)
  else if eq_str action_type "mouse_move" then env (HoverAt x y)
  else if eq_str action_type "left_click_drag" then env (DragTo x y)
  else if eq_str action_type "type" then
    text <- lift (get action "text" (PStr EmptyString)) ;;
    env (TypeText text)
  else if eq_str action_type "key" then
    keys <- lift (get action "keys" (PList [])) ;;
    env (KeyCombination keys)
  else if eq_str action_type "scroll" then
    pixels <- lift (get action "pixels" (PInt 0)) ;;
    actual_pixels <- (fun self =>
      (self, scroll_pixels pixels (snd (screen_size (_computer self))))) ;;
    env (Scroll actual_pixels)
  else if eq_str action_type "wait" then
    wait_time <- lift (get action "time" (PInt 1)) ;;
    match time_sleep wait_time with
    | Some e => raise e
    | None => modify (log (Sleep wait_time)) ;;; env CurrentState
    end
  else
    say (UnknownAction action_type) ;;;
    env CurrentState.

(** [_display_action], lines 460-473: the use of [get] and [items] on
    the action, then the print of the table. *)
Definition _display_action (reasoning : string) (action : pyobj) : M W unit :=
  lift (res_map (fun _ => tt) (get action "action" (PStr "unknown"))) ;;;
  say (ActionTable reasoning action).

(** [_save_screenshot], lines 475-479. *)
Definition _save_screenshot (name : screenshot_name) : M W unit :=
  dir <- read _screenshot_dir ;;
  match dir with
  | Some d => modify (log (SaveScreenshot d name))
  | None => ret tt
  end.

(** The append and the eviction at the end of [_run_one_step]. *)
Definition push_history (context_window : Z) (entry : HistoryEntry)
  (history : list HistoryEntry) : list HistoryEntry :=
  let history := (history ++ [entry])%list in
  if Z.of_nat (List.length history) >? context_window then tl history
  else history.

(** [_run_one_step], lines 221-276. *)
Definition _run_one_step (state : EnvState) : M W step_result :=
  screenshot_b64 <- _prepare_screenshot (screenshot state) ;;
  messages <- _build_messages screenshot_b64 ;;
  r <- _call_ollama messages ;;
  let '(response, thinking) := r in
  parsed <- lift (_parse_response response) ;;
  match parsed with
  | None =>
      say (RawResponse (substring 0 500 response)) ;;;
      raise (Exc ValueError (Some "Failed to parse action"))
  | Some action =>
      _display_action thinking action ;;;
      action_type <- lift (get action "action" PNone) ;;
      if eq_str action_type "terminate" then
        st <- lift (get action "status" (PStr "success")) ;;
        ret (Done st (Obj (PStr thinking)))
      else if eq_str action_type "answer" then
        text <- lift (get action "text" (PStr EmptyString)) ;;
        say (AnswerLine text) ;;;
        ret (Done (PStr "success") (Obj text))
      else
        new_state <- _execute_action action ;;
        n <- read _action_count ;;
        modify (set_action_count (n + 1)) ;;;
        _save_screenshot (Step (n + 1)) ;;;
        cw <- read _context_window ;;
        h <- read _history ;;
        modify (set_history
                  (push_history cw
                     {| screenshot_b64 := screenshot_b64; action := action;
                        entry_reasoning := thinking |} h)) ;;;
        ret (NotDone new_state)
  end.

(** [_make_result], lines 481-488. *)
Definition _make_result (st : pyobj) (final_url : string) (why : reason)
  : M W Result :=
  n <- read _action_count ;;
  ret {| status := st; action_count := n; final_url := final_url;
         reasoning := why |}.

(** One pass through the body of the [while] of [run], lines 194-216:
    either [run] returns (or lets an exception escape), or the loop goes
    on with a new [state].  What the print at the head of the handler
    raises (line 200) is raised inside the handler and leaves [run]. *)
Inductive pass :=
| Returns (r : res Result)
| Goes_on (state : EnvState).

Definition loop_body (state : EnvState) : Agent W -> Agent W * pass :=
  fun a =>
    match _run_one_step state a with
    | (a1, Raise KeyboardInterrupt) =>
        let '(a2, r) := _make_result (PStr "failure") (url state)
                          (Obj (PStr "User interrupted")) a1 in
        (a2, Returns r)
    | (a1, Raise e) =>
        match console_print (ErrorLine e) with
        | Some e' => (a1, Returns (Raise e'))
        | None =>
            let a2 := set_consecutive_failures (_consecutive_failures a1 + 1) a1 in
            if _consecutive_failures a2 >=? _max_consecutive_failures a2 then
              let '(a3, r) := _make_result (PStr "failure") (url state) (StrOf e) a2 in
              (a3, Returns r)
            else
              match env CurrentState a2 with
              | (a3, Ok state') => (a3, Goes_on state')
              | (a3, Raise e') => (a3, Returns (Raise e'))
              end
        end
    | (a1, Ok (Done st why)) =>
        let '(a2, r) := _make_result st (url state) why a1 in
        (a2, Returns r)
    | (a1, Ok (NotDone state')) =>
        (set_consecutive_failures 0 a1, Goes_on state')
    end.

(** The [while] of [run], unfolded at most [fuel] times; [None] when the
    fuel runs out. *)
Fixpoint run_loop (fuel : nat) (state : EnvState) (a : Agent W)
  : Agent W * option (res Result) :=
  match fuel with
  | O => (a, None)
  | S fuel' =>
      if _action_count a <? _max_steps a then
        match loop_body state a with
        | (a1, Returns r) => (a1, Some r)
        | (a1, Goes_on state') => run_loop fuel' state' a1
        end
      else
        let '(a1, r) := _make_result (PStr "failure") (url state)
                          (Obj (PStr "Max steps reached")) a in
        (a1, Some r)
  end.

(** A bound on the passes that the loop can still make: each remaining
    step may take as many passes as failures are tolerated, and one more;
    then the failures that are still tolerated now. *)
Definition passes_left (a : Agent W) : nat :=
  Z.to_nat ((Z.max 1 (_max_consecutive_failures a) + 1)
            * Z.max 0 (_max_steps a - _action_count a)
            + Z.max 0 (_max_consecutive_failures a - _consecutive_failures a)).

(** [run], lines 185-219. *)
Definition run (a : Agent W) : Agent W * option (res Result) :=
  match console_print (TaskLine (_query a)) with
  | Some e => (a, Some (Raise e))
  | None =>
      match env CurrentState a with
      | (a1, Raise e) => (a1, Some (Raise e))
      | (a1, Ok state) =>
          let '(a2, _) := _save_screenshot Initial a1 in
          run_loop (S (passes_left a2)) state a2
      end
  end.

(** *** Notions used to state the properties *)

(** The messages that a turn starting from [state] sends. *)
Definition messages_for (state : EnvState) (a : Agent W) : list message :=
  match _build_messages (prepare_screenshot (screenshot state)) a with
  | (_, Ok messages) => messages
  | (_, Raise _) => []
  end.

(** The agent once it has asked the model, in a turn starting from
    [state]. *)
Definition asked (state : EnvState) (a : Agent W) : Agent W :=
  set_inferences (S (inferences a)) (log (Inference (messages_for state a)) a).

(** The exception that ends the turn when [response] yields no action:
    what [_parse_response] raises, what the print of the raw response
    raises, or the [ValueError] of line 240. *)
Definition parse_error (response : string) : option exn :=
  match _parse_response response with
  | Ok (Some _) => None
  | Ok None =>
      Some (match console_print (RawResponse (substring 0 500 response)) with
            | Some e => e
            | None => Exc ValueError (Some "Failed to parse action")
            end)
  | Raise e => Some e
  end.

(** The bookkeeping of [_run_one_step] after [_execute_action] returned. *)
Definition recorded (state : EnvState) (action : pyobj) (thinking : string)
  (a : Agent W) : Agent W :=
  let n := _action_count a + 1 in
  let a1 := set_action_count n a in
  let a2 := match _screenshot_dir a1 with
            | Some d => log (SaveScreenshot d (Step n)) a1
            | None => a1
            end in
  set_history
    (push_history (_context_window a2)
       {| screenshot_b64 := prepare_screenshot (screenshot state);
          action := action; entry_reasoning := thinking |} (_history a2)) a2.

(** The agent after a turn that failed and that the loop retries: the
    failure is counted and the state is queried again, the environment
    going to [w']. *)
Definition retried (state : EnvState) (w' : W) (a : Agent W) : Agent W :=
  set_computer w'
    (log (EnvCall CurrentState)
       (set_consecutive_failures (_consecutive_failures a + 1) (asked state a))).

(** The agent after a turn that failed for the last time. *)
Definition gave_up (state : EnvState) (a : Agent W) : Agent W :=
  set_consecutive_failures (_consecutive_failures a + 1) (asked state a).

(** The attributes that only [_run_one_step] and [run] write. *)
Definition same_books (a a1 : Agent W) : Prop :=
  _history a1 = _history a
  /\ _context_window a1 = _context_window a
  /\ _action_count a1 = _action_count a
  /\ _max_steps a1 = _max_steps a
  /\ _screenshot_dir a1 = _screenshot_dir a
  /\ _consecutive_failures a1 = _consecutive_failures a
  /\ _max_consecutive_failures a1 = _max_consecutive_failures a.


End BrowserAgent.

(** ** [main.py] *)

Definition SCREEN_SIZE : Z * Z := (1440, 900).

(** What [main] returns, line 101, on the Result of [run]. *)
Definition exit_code (result : Result) : Z :=
  if eq_str (status result) "success" then 0 else 1.

(** ** [PlaywrightComputer]: [computers/playwright/playwright.py] *)

(** What the methods ask of the outside, in the order of the class: the
    calls on [self._page], on its mouse and on its keyboard, and
    [time.sleep(0.5)].  An argument that the caller leaves to its default
    is [None]. *)
Inductive page_call :=
| WaitForLoadState
| SleepHalfSecond
| Screenshot
| Evaluate (x y : Z)
| MouseClick (x y : Z) (button : option string) (click_count : option Z)
| MouseDblclick (x y : Z)
| MouseMove (x y : Z)
| MouseDown
| MouseUp
| MouseWheel (delta_x delta_y : Z)
| KeyboardDown (key : string)
| KeyboardPress (key : string)
| KeyboardUp (key : string)
| KeyboardType (text : pyobj).

(** The Playwright page behind the object. [P] is the state of the
    browser; a call changes it and may raise; [viewport_size] and
    [page_url] are the attributes [viewport_size] and [url] of the page,
    and [page_png] the bytes that a [Screenshot] call has returned. *)
Class Page (P : Type) := {
  viewport_size : P -> option (Z * Z);
  page_url : P -> string;
  page_png : P -> string;
  answer : page_call -> P -> P * option exn
}.

(** The attributes of a [PlaywrightComputer] once [__enter__] has opened
    the page. [page_calls] is not an attribute: it records the calls made
    so far, in order. *)
Record Playwright (P : Type) := {
  _initial_url : string;
  _screen_size : Z * Z;
  _highlight_mouse : bool;
  _last_mouse_pos : Z * Z;
  _page : P;
  page_calls : list page_call
}.
Arguments _initial_url {P} p.
Arguments _screen_size {P} p.
Arguments _highlight_mouse {P} p.
Arguments _last_mouse_pos {P} p.
Arguments _page {P} p.
Arguments page_calls {P} p.

Definition set_last_mouse_pos {P} (pos : Z * Z) (self : Playwright P) : Playwright P :=
  {| _initial_url := _initial_url self; _screen_size := _screen_size self;
     _highlight_mouse := _highlight_mouse self; _last_mouse_pos := pos;
     _page := _page self; page_calls := page_calls self |}.

(** The page after a call, the call recorded. *)
Definition called {P} (c : page_call) (p : P) (self : Playwright P) : Playwright P :=
  {| _initial_url := _initial_url self; _screen_size := _screen_size self;
     _highlight_mouse := _highlight_mouse self;
     _last_mouse_pos := _last_mouse_pos self;
     _page := p; page_calls := page_calls self ++ [c] |}.

(** [PLAYWRIGHT_KEY_MAP], lines 14-53. *)
Definition PLAYWRIGHT_KEY_MAP : list (string * string) :=
  [ ("backspace", "Backspace"); ("tab", "Tab"); ("return", "Enter");
    ("enter", "Enter"); ("shift", "Shift"); ("control", "Control");
    ("ctrl", "Control"); ("alt", "Alt"); ("escape", "Escape");
    ("esc", "Escape"); ("space", "Space"); ("pageup", "PageUp");
    ("pagedown", "PageDown"); ("end", "End"); ("home", "Home");
    ("left", "ArrowLeft"); ("up", "ArrowUp"); ("right", "ArrowRight");
    ("down", "ArrowDown"); ("insert", "Insert"); ("delete", "Delete");
    ("f1", "F1"); ("f2", "F2"); ("f3", "F3"); ("f4", "F4"); ("f5", "F5");
    ("f6", "F6"); ("f7", "F7"); ("f8", "F8"); ("f9", "F9"); ("f10", "F10");
    ("f11", "F11"); ("f12", "F12"); ("command", "Meta"); ("cmd", "Meta");
    ("meta", "Meta"); ("win", "Meta"); ("windows", "Meta") ].

Fixpoint key_map_get (k : string) (m : list (string * string)) : option string :=
  match m with
  | [] => None
  | (k', v) :: rest => if String.eqb k k' then Some v else key_map_get k rest
  end.

(** [str.lower], on code points below 256: the letters A to Z, and the
    Latin-1 capitals 192 to 222 but the sign 215. *)
Definition lower_char (c : ascii) : ascii :=
  let n := nat_of_ascii c in
  if ((65 <=? n) && (n <=? 90) || (192 <=? n) && (n <=? 214)
      || (216 <=? n) && (n <=? 222))%nat
  then ascii_of_nat (n + 32)
  else c.

Fixpoint lower (s : string) : string :=
  match s with
  | EmptyString => EmptyString
  | String c rest => String (lower_char c) (lower rest)
  end.

(** [PLAYWRIGHT_KEY_MAP.get(k.lower(), k)] for a str [k]. *)
Definition normalize_key (k : string) : string :=
  match key_map_get (lower k) PLAYWRIGHT_KEY_MAP with
  | Some v => v
  | None => k
  end.

(** The items that [for k in keys] goes through: the items of a list,
    the characters of a str, the keys of a dict; [TypeError] otherwise. *)
Fixpoint chars (s : string) : list pyobj :=
  match s with
  | EmptyString => []
  | String c rest => PStr (String c EmptyString) :: chars rest
  end.

Definition py_iter (v : pyobj) : res (list pyobj) :=
  match v with
  | PList l => Ok l
  | PStr s => Ok (chars s)
  | PDict kvs => Ok (map (fun kv => PStr (fst kv)) kvs)
  | _ => Raise (Exc TypeError None)
  end.

(** One item of the comprehension of line 203: only a str has [lower]. *)
Definition normalized_item (k : pyobj) : res string :=
  match k with
  | PStr s => Ok (normalize_key s)
  | _ => Raise (Exc AttributeError None)
  end.

Fixpoint normalized_items (items : list pyobj) : res (list string) :=
  match items with
  | [] => Ok []
  | k :: rest =>
      res_bind (normalized_item k) (fun key =>
      res_map (cons key) (normalized_items rest))
  end.

(** [normalized], line 203. *)
Definition normalized_keys (keys : pyobj) : res (list string) :=
  res_bind (py_iter keys) normalized_items.

(** [normalized[-1]]: on the empty list an [IndexError], which is an
    [OtherError] here, as for the index of [py_getitem]. *)
Definition last_item (normalized : list string) : res string :=
  match normalized with
  | [] => Raise (Exc OtherError None)
  | _ => Ok (last normalized EmptyString)
  end.

(** The methods live in a state-and-exception monad over [Playwright]. *)
Definition PM (P A : Type) : Type := Playwright P -> Playwright P * res A.

Definition pret {P A} (x : A) : PM P A := fun self => (self, Ok x).

Definition pbind {P A B} (m : PM P A) (k : A -> PM P B) : PM P B :=
  fun self => match m self with
              | (self', Ok x) => k x self'
              | (self', Raise e) => (self', Raise e)
              end.

Definition plift {P A} (r : res A) : PM P A := fun self => (self, r).

Definition pmodify {P} (f : Playwright P -> Playwright P) : PM P unit :=
  fun self => (f self, Ok tt).

Declare Scope page_scope.
Delimit Scope page_scope with page.
Notation "x <- m ;; k" := (pbind m (fun x => k))
  (at level 61, m at next level, right associativity) : page_scope.
Notation "m ;;; k" := (pbind m (fun _ => k))
  (at level 61, right associativity) : page_scope.

(** [for x in l: f(x)]. *)
Fixpoint for_each {P A} (l : list A) (f : A -> PM P unit) : PM P unit :=
  match l with
  | [] => pret tt
  | x :: rest => pbind (f x) (fun _ => for_each rest f)
  end.

Module PlaywrightComputer.

Section Methods.

Context {P : Type} `{Page P}.

(** [sys.platform]. *)
Variable sys_platform : string.

Local Open Scope page_scope.

(** [__init__], lines 59-68, and the page of [__enter__]. *)
Definition __init__ (screen_size : Z * Z) (initial_url : string)
  (highlight_mouse : bool) (page : P) : Playwright P :=
  {| _initial_url := initial_url; _screen_size := screen_size;
     _highlight_mouse := highlight_mouse; _last_mouse_pos := (0, 0);
     _page := page; page_calls := [] |}.

(** A call on the page: recorded, then answered. *)
Definition page (c : page_call) : PM P unit :=
  fun self =>
    let '(p, r) := answer c (_page self) in
    (called c p self, match r with None => Ok tt | Some e => Raise e end).

(** [screen_size], lines 114-118. *)
Definition screen_size (self : Playwright P) : Z * Z :=
  match viewport_size (_page self) with
  | Some viewport => viewport
  | None => _screen_size self
  end.

(** [current_state], lines 120-124. *)
Definition current_state : PM P EnvState :=
  page WaitForLoadState ;;;
  page SleepHalfSecond ;;;
  page Screenshot ;;;
  (fun self => (self, Ok {| screenshot := page_png (_page self);
                            url := page_url (_page self) |})).

(** [_show_cursor], lines 225-247. *)
Definition _show_cursor (x y : Z) : PM P unit :=
  fun self =>
    if negb (_highlight_mouse self) then (self, Ok tt)
    else (page (Evaluate x y) ;;; page SleepHalfSecond) self.

(** The click actions, lines 127-160. *)
Definition click_at (x y : Z) : PM P EnvState :=
  _show_cursor x y ;;;
  page (MouseClick x y None None) ;;;
  pmodify (set_last_mouse_pos (x, y)) ;;;
  page WaitForLoadState ;;;
  current_state.

Definition double_click_at (x y : Z) : PM P EnvState :=
  _show_cursor x y ;;;
  page (MouseDblclick x y) ;;;
  pmodify (set_last_mouse_pos (x, y)) ;;;
  page WaitForLoadState ;;;
  current_state.

Definition triple_click_at (x y : Z) : PM P EnvState :=
  _show_cursor x y ;;;
  page (MouseClick x y None (Some 3)) ;;;
  pmodify (set_last_mouse_pos (x, y)) ;;;
  page WaitForLoadState ;;;
  current_state.

Definition right_click_at (x y : Z) : PM P EnvState :=
  _show_cursor x y ;;;
  page (MouseClick x y (Some "right") None) ;;;
  pmodify (set_last_mouse_pos (x, y)) ;;;
  page WaitForLoadState ;;;
  current_state.

Definition middle_click_at (x y : Z) : PM P EnvState :=
  _show_cursor x y ;;;
  page (MouseClick x y (Some "middle") None) ;;;
  pmodify (set_last_mouse_pos (x, y)) ;;;
  page WaitForLoadState ;;;
  current_state.

(** [hover_at], lines 163-168. *)
Definition hover_at (x y : Z) : PM P EnvState :=
  _show_cursor x y ;;;
  page (MouseMove x y) ;;;
  pmodify (set_last_mouse_pos (x, y)) ;;;
  page WaitForLoadState ;;;
  current_state.

(** [drag_to], lines 170-183. *)
Definition drag_to (x y : Z) : PM P EnvState :=
  fun self =>
    let '(start_x, start_y) := _last_mouse_pos self in
    (_show_cursor start_x start_y ;;;
     page (MouseMove start_x start_y) ;;;
     page MouseDown ;;;
     page WaitForLoadState ;;;
     _show_cursor x y ;;;
     page (MouseMove x y) ;;;
     page MouseUp ;;;
     pmodify (set_last_mouse_pos (x, y)) ;;;
     current_state) self.

(** [key_combination], lines 200-214. *)
Definition key_combination (keys : pyobj) : PM P EnvState :=
  normalized <- plift (normalized_keys keys) ;;
  for_each (removelast normalized) (fun key => page (KeyboardDown key)) ;;;
  key <- plift (last_item normalized) ;;
  page (KeyboardPress key) ;;;
  for_each (rev (removelast normalized)) (fun key => page (KeyboardUp key)) ;;;
  current_state.

(** [type_text], lines 186-198. *)
Definition type_text (text : pyobj) : PM P EnvState :=
  (if String.eqb sys_platform "darwin"
   then key_combination (PList [PStr "Meta"; PStr "a"])
   else key_combination (PList [PStr "Control"; PStr "a"])) ;;;
  key_combination (PList [PStr "Delete"]) ;;;
  page (KeyboardType text) ;;;
  page WaitForLoadState ;;;
  current_state.

(** [scroll], lines 217-222. *)
Definition scroll (pixels : Z) : PM P EnvState :=
  page (MouseWheel 0 (- pixels)) ;;;
  page WaitForLoadState ;;;
  current_state.

End Methods.

End PlaywrightComputer.

(** [PlaywrightComputer] is a [Computer]. *)
#[export] Instance Playwright_Computer {P : Type} `{Page P} (sys_platform : string)
  : Computer (Playwright P) := {|
  screen_size := PlaywrightComputer.screen_size;
  current_state := PlaywrightComputer.current_state;
  click_at := PlaywrightComputer.click_at;
  double_click_at := PlaywrightComputer.double_click_at;
  triple_click_at := PlaywrightComputer.triple_click_at;
  right_click_at := PlaywrightComputer.right_click_at;
  middle_click_at := PlaywrightComputer.middle_click_at;
  hover_at := PlaywrightComputer.hover_at;
  drag_to := PlaywrightComputer.drag_to;
  type_text := PlaywrightComputer.type_text sys_platform;
  key_combination := PlaywrightComputer.key_combination;
  scroll := PlaywrightComputer.scroll
|}.



(** The environment call of a pointer kind. *)
Definition pointer_call (kind : string) (x y : Z) : option call :=
  if String.eqb kind "left_click" then Some (ClickAt x y)
  else if String.eqb kind "double_click" then Some (DoubleClickAt x y)
  else if String.eqb kind "triple_click" then Some (TripleClickAt x y)
  else if String.eqb kind "right_click" then Some (RightClickAt x y)
  else if String.eqb kind "middle_click" then Some (MiddleClickAt x y)
  else if String.eqb kind "mouse_move" then Some (HoverAt x y)
  else if String.eqb kind "left_click_drag" then Some (DragTo x y)
  else None.

(** The nearest integer to [n / d] for a positive [d], ties to even: the
    [round] of the specification's formula. *)
Definition round_div (n d : Z) : Z :=
  let q := n / d in
  let r := n mod d in
  if 2 * r <? d then q
  else if 2 * r >? d then q + 1
  else if Z.even q then q else q + 1.

(** A float that is not a negative number. *)
Definition not_negative (f : spec_float) : Prop :=
  match f with
  | S754_finite s _ _ => s = false
  | _ => True
  end.

(** What the division by [NORMALIZED_SIZE] gives on a grid coordinate
    [x]: zero for 0, else a positive float [mq * 2 ^ eq], normal, at most
    1 and within half a unit of its last place of [x / 1000]. *)
Definition quotient_ok (x : Z) : bool :=
  match int_truediv x NORMALIZED_SIZE with
  | Ok (S754_zero _) => x =? 0
  | Ok (S754_finite false mq eq) =>
      (0 <? x) && (2 ^ 52 <=? Zpos mq) && (- 62 <=? eq) && (eq <=? - 52)
      && (Z.abs (1000 * Zpos mq - x * 2 ^ (- eq)) <=? 500)
      && (Zpos mq <=? 2 ^ (- eq))
  | _ => false
  end.

(** The normalized grid, 0 to 1000. *)
Definition grid : list Z := map Z.of_nat (seq 0 1001).

(** ** Collaborators for the scenarios *)

(** *** A decoder for a fragment of JSON

    Whitespace, [null], [true], [false], integers, strings with the
    two-character escapes, arrays and objects. Numbers with a fraction or
    an exponent and [\u] escapes are outside the fragment: there the
    function gives [None] although [json.loads] may decode the text. *)

Definition quote : ascii := "034"%char.

Definition is_json_ws (c : ascii) : bool :=
  let n := nat_of_ascii c in
  ((n =? 32) || (n =? 9) || (n =? 10) || (n =? 13))%nat.

Fixpoint skip_ws (s : string) : string :=
  match s with
  | String c rest => if is_json_ws c then skip_ws rest else s
  | EmptyString => EmptyString
  end.

Definition unescape (c : ascii) : option ascii :=
  if Ascii.eqb c quote then Some quote
  else if Ascii.eqb c "\"%char then Some "\"%char
  else if Ascii.eqb c "/"%char then Some "/"%char
  else if Ascii.eqb c "b"%char then Some "008"%char
  else if Ascii.eqb c "f"%char then Some "012"%char
  else if Ascii.eqb c "n"%char then Some "010"%char
  else if Ascii.eqb c "r"%char then Some "013"%char
  else if Ascii.eqb c "t"%char then Some "009"%char
  else None.

Definition cons_char (c : ascii) (r : option (string * string))
  : option (string * string) :=
  match r with
  | Some (body, rest) => Some (String c body, rest)
  | None => None
  end.

(** The body of a string literal, after its opening quote. *)
Fixpoint scan_string (s : string) : option (string * string) :=
  match s with
  | EmptyString => None
  | String c rest =>
      if Ascii.eqb c quote then Some (EmptyString, rest)
      else if Ascii.eqb c "\"%char then
        match rest with
        | String e rest' =>
            match unescape e with
            | Some c' => cons_char c' (scan_string rest')
            | None => None
            end
        | EmptyString => None
        end
      else if (nat_of_ascii c <? 32)%nat then None
      else cons_char c (scan_string rest)
  end.

Definition digit_of (c : ascii) : option Z :=
  let n := nat_of_ascii c in
  if ((48 <=? n) && (n <=? 57))%nat then Some (Z.of_nat n - 48) else None.

(** The digits at the head of [s], most significant first, folded into
    [acc]; the count of digits read comes with the value. *)
Fixpoint scan_digits (s : string) (acc : Z) (count : nat) : Z * nat * string :=
  match s with
  | String c rest =>
      match digit_of c with
      | Some d => scan_digits rest (10 * acc + d) (S count)
      | None => (acc, count, s)
      end
  | EmptyString => (acc, count, s)
  end.

Definition starts_fraction (s : string) : bool :=
  match s with
  | String c _ =>
      Ascii.eqb c "."%char || Ascii.eqb c "e"%char || Ascii.eqb c "E"%char
  | EmptyString => false
  end.

(** An integer literal: no leading zero but for [0] itself. *)
Definition scan_int (s : string) : option (Z * string) :=
  let '(neg, body) :=
    match s with
    | String c rest => if Ascii.eqb c "-"%char then (true, rest) else (false, s)
    | EmptyString => (false, s)
    end in
  let '(n, count, rest) := scan_digits body 0 0 in
  let leading_zero :=
    match body with
    | String c _ => Ascii.eqb c "0"%char && (1 <? count)%nat
    | EmptyString => false
    end in
  if (count =? 0)%nat || leading_zero || starts_fraction rest then None
  else Some (if neg then - n else n, rest).

Fixpoint strip_prefix (p s : string) : option string :=
  match p, s with
  | EmptyString, _ => Some s
  | String a p', String b s' => if Ascii.eqb a b then strip_prefix p' s' else None
  | String _ _, EmptyString => None
  end.

(** [d[k] = v] on the dict under construction: a repeated key keeps its
    place and takes the later value. *)
Fixpoint dict_set (k : string) (v : pyobj) (kvs : list (string * pyobj))
  : list (string * pyobj) :=
  match kvs with
  | [] => [(k, v)]
  | (k', v') :: rest =>
      if String.eqb k k' then (k, v) :: rest else (k', v') :: dict_set k v rest
  end.

Fixpoint parse_value (fuel : nat) (s : string) : option (pyobj * string) :=
  match fuel with
  | O => None
  | S fuel' =>
      match s with
      | EmptyString => None
      | String c rest =>
          if Ascii.eqb c "{"%char then
            match skip_ws rest with
            | String c' rest' =>
                if Ascii.eqb c' "}"%char then Some (PDict [], rest')
                else parse_members fuel' (String c' rest') []
            | EmptyString => None
            end
          else if Ascii.eqb c "["%char then
            match skip_ws rest with
            | String c' rest' =>
                if Ascii.eqb c' "]"%char then Some (PList [], rest')
                else parse_elements fuel' (String c' rest') []
            | EmptyString => None
            end
          else if Ascii.eqb c quote then
            match scan_string rest with
            | Some (body, rest') => Some (PStr body, rest')
            | None => None
            end
          else
            match strip_prefix "null" s, strip_prefix "true" s, strip_prefix "false" s with
            | Some rest', _, _ => Some (PNone, rest')
            | _, Some rest', _ => Some (PBool true, rest')
            | _, _, Some rest' => Some (PBool false, rest')
            | None, None, None =>
                match scan_int s with
                | Some (n, rest') => Some (PInt n, rest')
                | None => None
                end
            end
      end
  end
with parse_elements (fuel : nat) (s : string) (acc : list pyobj)
  : option (pyobj * string) :=
  match fuel with
  | O => None
  | S fuel' =>
      match parse_value fuel' s with
      | Some (v, rest) =>
          match skip_ws rest with
          | String c rest' =>
              if Ascii.eqb c ","%char then
                parse_elements fuel' (skip_ws rest') (acc ++ [v])%list
              else if Ascii.eqb c "]"%char then Some (PList (acc ++ [v])%list, rest')
              else None
          | EmptyString => None
          end
      | None => None
      end
  end
with parse_members (fuel : nat) (s : string) (acc : list (string * pyobj))
  : option (pyobj * string) :=
  match fuel with
  | O => None
  | S fuel' =>
      match s with
      | String c rest =>
          if Ascii.eqb c quote then
            match scan_string rest with
            | Some (k, rest1) =>
                match skip_ws rest1 with
                | String c1 rest2 =>
                    if Ascii.eqb c1 ":"%char then
                      match parse_value fuel' (skip_ws rest2) with
                      | Some (v, rest3) =>
                          match skip_ws rest3 with
                          | String c3 rest4 =>
                              if Ascii.eqb c3 ","%char then
                                parse_members fuel' (skip_ws rest4) (dict_set k v acc)
                              else if Ascii.eqb c3 "}"%char then
                                Some (PDict (dict_set k v acc), rest4)
                              else None
                          | EmptyString => None
                          end
                      | None => None
                      end
                    else None
                | EmptyString => None
                end
            | None => None
            end
          else None
      | EmptyString => None
      end
  end.

Definition json_loads_fragment (s : string) : option pyobj :=
  match parse_value (S (String.length s)) (skip_ws s) with
  | Some (v, rest) =>
      match skip_ws rest with
      | EmptyString => Some v
      | String _ _ => None
      end
  | None => None
  end.

(** *** A stub environment

    It records the calls it receives and always answers with the same
    page; its viewport is the [SCREEN_SIZE] of [main.py]. *)

Record Stub := { received : list call }.

Definition stub_state : EnvState :=
  {| screenshot := "PNG"; url := "https://www.google.com" |}.

Definition stub_answer (c : call) (w : Stub) : Stub * res EnvState :=
  ({| received := received w ++ [c] |}, Ok stub_state).

#[export] Instance StubComputer : Computer Stub := {|
  screen_size := fun _ => (1440, 900);
  current_state := stub_answer CurrentState;
  click_at := fun x y => stub_answer (ClickAt x y);
  double_click_at := fun x y => stub_answer (DoubleClickAt x y);
  triple_click_at := fun x y => stub_answer (TripleClickAt x y);
  right_click_at := fun x y => stub_answer (RightClickAt x y);
  middle_click_at := fun x y => stub_answer (MiddleClickAt x y);
  hover_at := fun x y => stub_answer (HoverAt x y);
  drag_to := fun x y => stub_answer (DragTo x y);
  type_text := fun t => stub_answer (TypeText t);
  key_combination := fun k => stub_answer (KeyCombination k);
  scroll := fun p => stub_answer (Scroll p)
|}.

Definition fresh_stub : Stub := {| received := [] |}.

(** *** A stub model: it replays a script, then fails. *)

Definition scripted (script : list reply) (n : nat) : reply :=
  nth n script (Fails (Exc OtherError (Some "script exhausted"))).

Definition says (content : string) : reply := Reply content "because".

(** *** Texts that a model may emit *)

Definition q (s : string) : string := String quote (s ++ String quote EmptyString).



Definition terminate_json : string :=
  "{" ++ q "action" ++ ":" ++ q "terminate" ++ "," ++ q "status" ++ ":" ++ q "success" ++ "}".



Definition answer_json : string :=
  "{" ++ q "action" ++ ":" ++ q "answer" ++ "," ++ q "text" ++ ":" ++ q "42" ++ "}".

(** A closing tag of rich's markup that nothing opened, as a response and
    as the text of an answer. *)
Definition closing_tag : string := "[/x]".

Definition answer_tag_json : string :=
  "{" ++ q "action" ++ ":" ++ q "answer" ++ "," ++ q "text" ++ ":" ++ q closing_tag ++ "}".




(** The agent of the scenarios: the stub environment, the defaults of
    [__init__], no screenshot directory. *)
Definition stub_agent (max_steps : Z) : Agent Stub :=
  new_agent fresh_stub "click the search box then type hello" max_steps 5 None.

Definition no_sleep (t : pyobj) : option exn := None.
Definition no_resize (png : string) : string := png.
Definition no_dumps (v : pyobj) : string := EmptyString.

(** The console of the scenarios, a stand-in for the one of rich on
    their texts: rich reads a printed text as markup and raises a
    [MarkupError] on a closing tag that matches no open tag; here a print
    raises when its text holds the closing tag [[/x]] and no [[x]].  The
    exception is an [OtherError]; its message is the one of rich without
    the position of the tag.  The texts of a print are the task, the
    message of the exception, the raw response, the reasoning, and the
    keys and the string values of an action. *)
Definition unmatched (s : string) : bool :=
  is_substring "[/x]" s && negb (is_substring "[x]" s).

Definition markup_error : exn :=
  Exc OtherError (Some "closing tag '[/x]' doesn't match any open tag").

Definition text_of (v : pyobj) : string :=
  match v with PStr s => s | _ => EmptyString end.

Definition texts_of (action : pyobj) : list string :=
  match action with
  | PDict kvs => flat_map (fun kv => [fst kv; text_of (snd kv)]) kvs
  | _ => []
  end.

Definition rich_console (p : printed) : option exn :=
  let bad :=
    match p with
    | TaskLine query => unmatched query
    | ErrorLine (Exc _ (Some message)) => unmatched message
    | ErrorLine _ => false
    | RawResponse response => unmatched response
    | AnswerLine text => unmatched (text_of text)
    | MissingAction action => existsb unmatched (texts_of action)
    | UnknownAction action_type => unmatched (text_of action_type)
    | ActionTable reasoning action =>
        unmatched reasoning || existsb unmatched (texts_of action)
    end in
  if bad then Some markup_error else None.


(** [run] and the loop body with the scenario collaborators. *)
Definition stub_run (script : list string) (a : Agent Stub)
  : Agent Stub * option (res Result) :=
  run json_loads_fragment no_dumps no_sleep no_resize
    (scripted (map says script)) EmptyString rich_console a.


(** The left click at the normalized (999, 999) is dispatched at
    ([dx], [dy]). *)
Definition exec_click_999 (dx dy : Z) : Prop :=
  _execute_action no_sleep rich_console
    (PDict [("action", PStr "left_click");
            ("coordinate", PList [PInt 999; PInt 999])]) (stub_agent 50)
  = env (ClickAt dx dy) (stub_agent 50).


(** ** Notions for the further properties *)

(** A [coordinate] that the first statements of [_execute_action] cannot
    handle: anything but a list, an empty string or an empty dict. *)
Definition bad_coordinate (c : pyobj) : bool :=
  match c with
  | PList _ => false
  | PStr s => negb (String.eqb s EmptyString)
  | PDict kvs => match kvs with [] => false | _ => true end
  | _ => true
  end.

(** Events that a turn adds after asking the model: no inference among
    them, and at most one dispatch. *)
Definition quiet (l : list event) : Prop :=
  existsb is_inference l = false /\ (List.length (dispatched l) <= 1)%nat.

(** The requests of [_build_messages]: the system prompt without an
    image, then one user message with exactly one image. *)
Definition request_ok (system_prompt : string) (messages : list message) : Prop :=
  exists content shot,
    messages = [ {| role := "system"; content := system_prompt; images := [] |};
                 {| role := "user"; content := content; images := [shot] |} ].

Definition event_ok (system_prompt : string) (ev : event) : Prop :=
  match ev with
  | Inference messages => request_ok system_prompt messages
  | _ => True
  end.

(** A trace walked with one permit: a model call grants the permit, an
    action dispatch needs it and uses it up, anything else leaves it.
    [None] when a dispatch finds no permit; else the permit at the end. *)
Fixpoint pace (permit : bool) (l : list event) : option bool :=
  match l with
  | [] => Some permit
  | ev :: rest =>
      if is_inference ev then pace true rest
      else match dispatch_of ev with
           | Some _ => if permit then pace false rest else None
           | None => pace permit rest
           end
  end.

(** The model calls of a trace. *)
Definition asks (l : list event) : nat := List.length (filter is_inference l).

(** The passes through the loop that ask the model, at most: for each
    step that is left, as many as failures are tolerated, less the
    failures already counted. *)
Definition asks_left {W} (a : Agent W) : Z :=
  if _action_count a <? _max_steps a
  then _max_consecutive_failures a * (_max_steps a - _action_count a)
       - _consecutive_failures a
  else 0.

(** More texts that a model may emit: a terminate action that reports a
    failure, and a wait of two seconds. *)
Definition give_up_json : string :=
  "{" ++ q "action" ++ ":" ++ q "terminate" ++ "," ++ q "status" ++ ":" ++ q "failure" ++ "}".



(** A type action that carries a number as its coordinate, and a click
    with a one-item coordinate. *)
Definition type_at_5 : list (string * pyobj) :=
  [("action", PStr "type"); ("text", PStr "hello"); ("coordinate", PInt 5)].

Definition click_at_500 : list (string * pyobj) :=
  [("action", PStr "left_click"); ("coordinate", PList [PInt 500])].


(** *** Scripts: what a method of [PlaywrightComputer] does, step by step *)

(** A step is a call on the page or the assignment of
    [_last_mouse_pos]. *)
Inductive step :=
| Call (c : page_call)
| Point (pos : Z * Z).

Definition do_step {P} `{Page P} (st : step) : PM P unit :=
  match st with
  | Call c => PlaywrightComputer.page c
  | Point pos => pmodify (set_last_mouse_pos pos)
  end.

(** The steps of a script in order, up to the first that raises. *)
Definition play {P} `{Page P} (script : list step) : PM P unit :=
  for_each script do_step.

(** The value that [current_state] returns on the page as it is. *)
Definition snapshot {P} `{Page P} : PM P EnvState :=
  fun self => (self, Ok {| screenshot := page_png (_page self);
                           url := page_url (_page self) |}).

Definition then_state {P} `{Page P} (m : PM P unit) : PM P EnvState :=
  pbind m (fun _ => snapshot).

Fixpoint calls_of (script : list step) : list page_call :=
  match script with
  | [] => []
  | Call c :: rest => c :: calls_of rest
  | Point _ :: rest => calls_of rest
  end.

Fixpoint pointer_after (pos : Z * Z) (script : list step) : Z * Z :=
  match script with
  | [] => pos
  | Call _ :: rest => pointer_after pos rest
  | Point pos' :: rest => pointer_after pos' rest
  end.

(** The calls of [current_state]. *)
Definition state_query : list page_call :=
  [WaitForLoadState; SleepHalfSecond; Screenshot].

(** The calls of [_show_cursor]. *)
Definition cursor (highlight : bool) (x y : Z) : list page_call :=
  if highlight then [Evaluate x y; SleepHalfSecond] else [].

(** The calls of a key combination that holds [held] and presses [key]. *)
Definition chord (held : list string) (key : string) : list page_call :=
  (map KeyboardDown held ++ [KeyboardPress key]
   ++ map KeyboardUp (rev held) ++ state_query)%list.

(** The modifier of the select-all of [type_text]. *)
Definition select_all_modifier (sys_platform : string) : string :=
  if String.eqb sys_platform "darwin" then "Meta" else "Control".

Definition script_calls (l : list page_call) : list step := map Call l.

Definition is_call (st : step) : bool :=
  match st with Call _ => true | Point _ => false end.

(** The script of a call of the agent, on the object as it is; [None]
    when the method raises before it reaches the page. *)
Definition script_of {P} (sys_platform : string) (self : Playwright P) (c : call)
  : option (list step) :=
  let h := _highlight_mouse self in
  let pointer x y m :=
    Some (script_calls (cursor h x y) ++ [Call m; Point (x, y); Call WaitForLoadState]
          ++ script_calls state_query)%list in
  match c with
  | CurrentState => Some (script_calls state_query)
  | ClickAt x y => pointer x y (MouseClick x y None None)
  | DoubleClickAt x y => pointer x y (MouseDblclick x y)
  | TripleClickAt x y => pointer x y (MouseClick x y None (Some 3))
  | RightClickAt x y => pointer x y (MouseClick x y (Some "right") None)
  | MiddleClickAt x y => pointer x y (MouseClick x y (Some "middle") None)
  | HoverAt x y => pointer x y (MouseMove x y)
  | DragTo x y =>
      let start := _last_mouse_pos self in
      Some (script_calls (cursor h (fst start) (snd start)
                          ++ [MouseMove (fst start) (snd start); MouseDown;
                              WaitForLoadState]
                          ++ cursor h x y ++ [MouseMove x y; MouseUp])
            ++ [Point (x, y)] ++ script_calls state_query)%list
  | TypeText text =>
      Some (script_calls (chord [select_all_modifier sys_platform] "a"
                          ++ chord [] "Delete"
                          ++ [KeyboardType text; WaitForLoadState]
                          ++ state_query))%list
  | KeyCombination keys =>
      match normalized_keys keys with
      | Ok (k :: ks) =>
          Some (script_calls (chord (removelast (k :: ks)) (last (k :: ks) EmptyString)))
      | _ => None
      end
  | Scroll pixels =>
      Some (script_calls ([MouseWheel 0 (- pixels); WaitForLoadState] ++ state_query))%list
  end.

(** [out] has made the calls of [prog] in order from [self] on, up to
    one that raised, and all of them when it returned. *)
Definition runs_through {P A} (self : Playwright P) (out : Playwright P * res A)
  (prog : list page_call) : Prop :=
  exists made rest,
    prog = (made ++ rest)%list
    /\ page_calls (fst out) = (page_calls self ++ made)%list
    /\ (forall v, snd out = Ok v -> rest = []).

Definition is_evaluate (c : page_call) : bool :=
  match c with Evaluate _ _ => true | _ => false end.

(** The exception of [key_combination] when [keys] gives no key to
    press: the one of the comprehension, or the [IndexError] of the empty
    list. *)
Definition keys_error (keys : pyobj) : option exn :=
  match normalized_keys keys with
  | Ok [] => Some (Exc OtherError None)
  | Ok _ => None
  | Raise e => Some e
  end.

(** The values of [PLAYWRIGHT_KEY_MAP] are names that it leaves alone. *)
Definition key_map_is_closed : bool :=
  forallb (fun kv => String.eqb (normalize_key (snd kv)) (snd kv))
    PLAYWRIGHT_KEY_MAP.

(** *** A page for the scenarios: it answers every call and never raises;
    its viewport is the [SCREEN_SIZE] of [main.py]. *)
#[export] Instance still_page : Page unit := {|
  viewport_size := fun _ => Some (1440, 900);
  page_url := fun _ => "https://www.google.com";
  page_png := fun _ => "PNG";
  answer := fun _ p => (p, None)
|}.

Definition browser : Playwright unit :=
  PlaywrightComputer.__init__ SCREEN_SIZE "https://www.google.com" false tt.

(** The agent of [main.py] on that browser, on Linux, and two actions: a
    key action without keys and a scroll up by half the grid. *)
Definition linux : Computer (Playwright unit) := Playwright_Computer "linux".

Definition browser_agent : Agent (Playwright unit) :=
  new_agent browser "scroll up" 50 5 None.

Definition key_without_keys : list (string * pyobj) :=
  [("action", PStr "key")].

Definition scroll_up_500 : list (string * pyobj) :=
  [("action", PStr "scroll"); ("pixels", PInt 500)].

(** * Properties *)

Lemma dispatched_app (l1 l2 : list event) :
  dispatched (l1 ++ l2) = (dispatched l1 ++ dispatched l2)%list.
Proof.
  induction l1 as [|ev l1 IH]; simpl; [reflexivity|].
  destruct (dispatch_of ev); simpl; rewrite IH; reflexivity.
Qed.

(** ** Signs of the float operations *)

Lemma binary_round_aux_sign s m e l :
  match binary_round_aux prec emax s m e l with
  | S754_finite s' _ _ => s' = s
  | _ => True
  end.
Proof.
  unfold binary_round_aux.
  destruct (shr_fexp prec emax m e l) as [mrs' e'].
  destruct (shr_fexp prec emax _ e' loc_Exact) as [mrs'' e''].
  destruct (shr_m mrs''); [exact I| |exact I].
  destruct (e'' <=? emax - prec); [reflexivity|exact I].
Qed.

Lemma SFmul_not_negative f g :
  not_negative f -> not_negative g -> not_negative (SFmul prec emax f g).
Proof.
  destruct f as [sf|sf| |sf mf ef], g as [sg|sg| |sg mg eg]; simpl;
    try (intros; exact I).
  intros F G. subst sf sg.
  pose proof (binary_round_aux_sign (xorb false false) (Zpos (mf * mg)) (ef + eg) loc_Exact) as S.
  destruct (binary_round_aux _ _ _ _ _ _); try exact I. exact S.
Qed.

Lemma SFdiv_not_negative f g :
  not_negative f -> not_negative g -> not_negative (SFdiv prec emax f g).
Proof.
  destruct f as [sf|sf| |sf mf ef], g as [sg|sg| |sg mg eg]; simpl;
    try (intros; exact I).
  intros F G. subst sf sg.
  destruct (SFdiv_core_binary prec emax (Zpos mf) ef (Zpos mg) eg) as [[mz ez] lz].
  pose proof (binary_round_aux_sign (xorb false false) mz ez lz) as S.
  destruct (binary_round_aux _ _ _ _ _ _); try exact I. exact S.
Qed.

Lemma exact_of_int_not_negative n : 0 <= n -> not_negative (exact_of_int n).
Proof.
  destruct n; simpl; intros L; try exact I; [reflexivity|lia].
Qed.

Lemma finite_or_overflow_Ok f g :
  finite_or_overflow f = Ok g -> g = f.
Proof.
  destruct f; simpl; intros E; inversion E; reflexivity.
Qed.

Lemma float_of_int_not_negative n f :
  0 <= n -> float_of_int n = Ok f -> not_negative f.
Proof.
  intros L E. apply finite_or_overflow_Ok in E. subst f.
  destruct n as [|p|p]; simpl; [exact I| |lia].
  unfold binary_round.
  destruct (shl_align p 0 _) as [mz ez].
  pose proof (binary_round_aux_sign false (Zpos mz) ez loc_Exact) as S.
  destruct (binary_round_aux _ _ _ _ _ _); try exact I. exact S.
Qed.

Lemma int_of_float_not_negative f r :
  not_negative f -> int_of_float f = Ok r -> 0 <= r.
Proof.
  destruct f as [s|s| |s m e]; simpl; intros N E; inversion E; subst.
  - lia.
  - destruct e.
    + simpl. lia.
    + apply Z.shiftl_nonneg. lia.
    + apply Z.shiftr_nonneg. lia.
Qed.

Lemma denormalize_not_negative n dim r :
  0 <= n -> 0 <= dim -> denormalize (PInt n) dim = Ok r -> 0 <= r.
Proof.
  intros N D. unfold denormalize, py_truediv, int_truediv, float_mul_int.
  destruct (finite_or_overflow (SFdiv _ _ _ _)) as [q|e] eqn:Q; [|discriminate].
  apply finite_or_overflow_Ok in Q. simpl res_bind.
  destruct (float_of_int dim) as [d|e] eqn:F; [|discriminate].
  simpl. apply int_of_float_not_negative.
  apply SFmul_not_negative.
  - subst q. apply SFdiv_not_negative.
    + apply exact_of_int_not_negative. exact N.
    + reflexivity.
  - apply (float_of_int_not_negative dim d D F).
Qed.

(** C8. The scroll amount is odd in the pixel count: for a nonzero [p],
    the amount for [- p] is the opposite of the amount for [p] (and one
    raises when the other does). It is the magnitude [abs(p)]
    denormalized by the height, with the sign of [p] put back: it is
    never of the sign opposite to [p]'s. *)
Theorem scroll_denormalization_is_odd (p height : Z) :
  p <> 0 ->
  scroll_pixels (PInt (- p)) height
  = res_map Z.opp (scroll_pixels (PInt p) height)
  /\ scroll_pixels (PInt p) height
     = res_map (fun magnitude => if p <? 0 then - magnitude else magnitude)
         (denormalize (PInt (Z.abs p)) height)
  /\ (forall r, 0 <= height -> scroll_pixels (PInt p) height = Ok r ->
        (0 < p -> 0 <= r) /\ (p < 0 -> r <= 0)).
Proof.
  intros NZ.
  assert (M : forall p', scroll_pixels (PInt p') height
     = res_map (fun magnitude => if p' <? 0 then - magnitude else magnitude)
         (denormalize (PInt (Z.abs p')) height)).
  { intros p'. unfold scroll_pixels. simpl.
    destruct (denormalize (PInt (Z.abs p')) height); reflexivity. }
  split; [|split].
  - rewrite !M, Z.abs_opp.
    destruct (denormalize (PInt (Z.abs p)) height) as [m|e]; cbn [res_map];
      [|reflexivity].
    destruct (Z.ltb_spec (- p) 0), (Z.ltb_spec p 0).
    + exfalso. lia.
    + reflexivity.
    + f_equal. lia.
    + exfalso. lia.
  - apply M.
  - intros r H E. rewrite M in E.
    destruct (denormalize (PInt (Z.abs p)) height) as [m|e] eqn:D; [|discriminate].
    cbn [res_map] in E. inversion E; subst r.
    assert (0 <= m)
      by (apply (denormalize_not_negative (Z.abs p) height m); [lia|exact H|exact D]).
    destruct (Z.ltb_spec p 0); lia.
Qed.

(** ** The grid *)

Lemma in_grid x : 0 <= x <= 1000 -> In x grid.
Proof.
  intros B. unfold grid. apply in_map_iff. exists (Z.to_nat x).
  split; [lia|]. apply in_seq. lia.
Qed.

(** ** Rounding to 53 bits *)

Lemma digits2_bounds (p : positive) :
  2 ^ (Zpos (digits2_pos p) - 1) <= Zpos p < 2 ^ Zpos (digits2_pos p).
Proof.
  induction p as [p IH|p IH|]; cbn [digits2_pos].
  - rewrite Pos2Z.inj_succ, Z.pow_succ_r by lia.
    replace (Z.succ (Zpos (digits2_pos p)) - 1) with (Z.succ (Zpos (digits2_pos p) - 1)) by lia.
    rewrite Z.pow_succ_r by lia. lia.
  - rewrite Pos2Z.inj_succ, Z.pow_succ_r by lia.
    replace (Z.succ (Zpos (digits2_pos p)) - 1) with (Z.succ (Zpos (digits2_pos p) - 1)) by lia.
    rewrite Z.pow_succ_r by lia. lia.
  - simpl. lia.
Qed.

Lemma digits2_unique (p : positive) (k : Z) :
  2 ^ (k - 1) <= Zpos p < 2 ^ k -> Zpos (digits2_pos p) = k.
Proof.
  intros [L U]. destruct (digits2_bounds p) as [L' U'].
  assert (0 < k).
  { destruct (Z.ltb_spec 0 k); [assumption|].
    destruct (Z.eq_dec k 0) as [->|NZ]; [simpl in U; lia|].
    rewrite Z.pow_neg_r in U by lia. lia. }
  assert (k - 1 < Zpos (digits2_pos p)).
  { apply (Z.pow_lt_mono_r_iff 2); lia. }
  assert (Zpos (digits2_pos p) - 1 < k).
  { apply (Z.pow_lt_mono_r_iff 2); lia. }
  lia.
Qed.

Lemma iter_pos_nat {A} (f : A -> A) (n : positive) (x : A) :
  iter_pos f n x = Nat.iter (Pos.to_nat n) f x.
Proof.
  revert x. induction n as [n IH|n IH|]; intros x; cbn [iter_pos].
  - rewrite !IH, Pos2Nat.inj_xI. rewrite Nat.iter_succ_r.
    replace (2 * Pos.to_nat n)%nat with (Pos.to_nat n + Pos.to_nat n)%nat by lia.
    rewrite Nat.iter_add. reflexivity.
  - rewrite !IH, Pos2Nat.inj_xO.
    replace (2 * Pos.to_nat n)%nat with (Pos.to_nat n + Pos.to_nat n)%nat by lia.
    rewrite Nat.iter_add. reflexivity.
  - reflexivity.
Qed.

Lemma shr_1_nonneg m r s :
  0 <= m ->
  shr_1 {| shr_m := m; shr_r := r; shr_s := s |}
  = {| shr_m := m / 2; shr_r := Z.odd m; shr_s := r || s |}.
Proof.
  intros N. rewrite <- Z.div2_div.
  destruct m as [|[p|p|]|p]; try reflexivity. lia.
Qed.

(** The low part of [m] below bit [k] is zero when it is below bit
    [k - 1] and that bit is not set. *)
Lemma sticky_step m k :
  0 <= m -> 0 <= k ->
  Z.odd (m / 2 ^ k) || negb (m mod 2 ^ k =? 0)
  = negb (m mod 2 ^ (k + 1) =? 0).
Proof.
  intros M K.
  assert (P : 0 < 2 ^ k) by (apply Z.pow_pos_nonneg; lia).
  rewrite Z.pow_add_r, Z.pow_1_r by lia.
  rewrite Z.rem_mul_r by lia.
  pose proof (Z.mod_pos_bound m (2 ^ k) P) as B1.
  rewrite (Zmod_odd (m / 2 ^ k)).
  destruct (Z.odd (m / 2 ^ k)); cbn [orb].
  - symmetry. apply negb_true_iff. apply Z.eqb_neq. lia.
  - rewrite Z.mul_0_r, Z.add_0_r. reflexivity.
Qed.

Lemma shr_iter m (k : nat) :
  0 <= m ->
  Nat.iter (S k) shr_1 {| shr_m := m; shr_r := false; shr_s := false |}
  = {| shr_m := m / 2 ^ Z.of_nat (S k);
       shr_r := Z.odd (m / 2 ^ Z.of_nat k);
       shr_s := negb (m mod 2 ^ Z.of_nat k =? 0) |}.
Proof.
  intros M. induction k as [|k IH].
  - cbn [Nat.iter]. rewrite shr_1_nonneg by exact M.
    change (Z.of_nat 1) with 1. change (Z.of_nat 0) with 0.
    rewrite Z.pow_1_r, Z.pow_0_r, Z.div_1_r, Z.mod_1_r. reflexivity.
  - change (Nat.iter (S (S k)) shr_1 ?x) with (shr_1 (Nat.iter (S k) shr_1 x)).
    rewrite IH, shr_1_nonneg.
    + rewrite (sticky_step m (Z.of_nat k)) by lia.
      replace (Z.of_nat k + 1) with (Z.of_nat (S k)) by lia.
      rewrite Z.div_div by (try apply Z.pow_pos_nonneg; lia).
      replace (2 ^ Z.of_nat (S k) * 2) with (2 ^ Z.of_nat (S (S k))).
      * reflexivity.
      * rewrite (Nat2Z.inj_succ (S k)), Z.pow_succ_r by lia. lia.
    + apply Z.div_pos; [exact M|apply Z.pow_pos_nonneg; lia].
Qed.

Lemma shr_exact m e (p : positive) :
  0 <= m ->
  shr {| shr_m := m; shr_r := false; shr_s := false |} e (Zpos p)
  = ({| shr_m := m / 2 ^ Zpos p;
        shr_r := Z.odd (m / 2 ^ (Zpos p - 1));
        shr_s := negb (m mod 2 ^ (Zpos p - 1) =? 0) |}, e + Zpos p).
Proof.
  intros M. unfold shr. rewrite iter_pos_nat.
  destruct (Pos2Nat.is_succ p) as [k K]. rewrite K, shr_iter by exact M.
  replace (Z.of_nat (S k)) with (Zpos p) by lia.
  replace (Z.of_nat k) with (Zpos p - 1) by lia.
  reflexivity.
Qed.

(** Rounding [m] to a multiple of [2 ^ n], to nearest, ties to even, is
    off by at most half of [2 ^ n]. *)
Lemma round_nearest_even_error m n :
  0 <= m -> 0 < n ->
  let m2 :=
    round_nearest_even (m / 2 ^ n)
      (loc_of_shr_record
         {| shr_m := m / 2 ^ n;
            shr_r := Z.odd (m / 2 ^ (n - 1));
            shr_s := negb (m mod 2 ^ (n - 1) =? 0) |}) in
  m / 2 ^ n <= m2 <= m / 2 ^ n + 1
  /\ m2 * 2 ^ n - 2 ^ (n - 1) <= m <= m2 * 2 ^ n + 2 ^ (n - 1).
Proof.
  intros M N.
  assert (P : 0 < 2 ^ (n - 1)) by (apply Z.pow_pos_nonneg; lia).
  assert (D : 2 ^ n = 2 ^ (n - 1) * 2).
  { replace n with (n - 1 + 1) at 1 by lia.
    rewrite Z.pow_add_r, Z.pow_1_r by lia. reflexivity. }
  pose proof (Z.div_mod m (2 ^ n) ltac:(lia)) as E.
  pose proof (Z.mod_pos_bound m (2 ^ (n - 1)) P) as B.
  assert (R : m mod 2 ^ n
              = m mod 2 ^ (n - 1)
                + 2 ^ (n - 1) * (if Z.odd (m / 2 ^ (n - 1)) then 1 else 0)).
  { rewrite D at 1. rewrite Z.rem_mul_r by lia. rewrite Zmod_odd. reflexivity. }
  cbn zeta. unfold loc_of_shr_record, round_nearest_even.
  destruct (Z.odd (m / 2 ^ (n - 1)));
    destruct (Z.eqb_spec (m mod 2 ^ (n - 1)) 0) as [Z0|NZ]; cbn [negb];
    try destruct (Z.even (m / 2 ^ n)); nia.
Qed.

Lemma fexp_normal (k : Z) : -1074 <= k - 53 -> fexp prec emax k = k - 53.
Proof.
  intros L. unfold fexp, emin, prec, emax. lia.
Qed.

(** What [binary_round_aux] gives on an exact number of more than 53
    bits, in the normal range of binary64: a 53-bit mantissa, off the
    number by at most half a unit of its last place. *)
Lemma binary_round_aux_normal (s : bool) (pm : positive) (e : Z) :
  53 < Zpos (digits2_pos pm) ->
  -1074 <= Zpos (digits2_pos pm) + e - 53 ->
  Zpos (digits2_pos pm) + e - 53 < 971 ->
  exists m' e',
    binary_round_aux prec emax s (Zpos pm) e loc_Exact = S754_finite s m' e'
    /\ Zpos (digits2_pos pm) + e - 53 <= e' <= Zpos (digits2_pos pm) + e - 52
    /\ Zpos m' * 2 ^ (e' - e) - 2 ^ (Zpos (digits2_pos pm) - 54)
       <= Zpos pm
       <= Zpos m' * 2 ^ (e' - e) + 2 ^ (Zpos (digits2_pos pm) - 54)
    /\ 2 ^ 52 <= Zpos m' < 2 ^ 53.
Proof.
  intros D L U. set (d := Zpos (digits2_pos pm)) in *.
  destruct (digits2_bounds pm) as [B1 B2]. fold d in B1, B2.
  assert (N : exists pn, d - 53 = Zpos pn).
  { destruct (d - 53) as [|pn|pn] eqn:E; try lia. exists pn. reflexivity. }
  destruct N as [pn N].
  assert (P : 0 < 2 ^ (d - 53)) by (apply Z.pow_pos_nonneg; lia).
  assert (Pd : 2 ^ d = 2 ^ 53 * 2 ^ (d - 53)).
  { rewrite <- Z.pow_add_r by lia. f_equal. lia. }
  assert (Pd1 : 2 ^ (d - 1) = 2 ^ 52 * 2 ^ (d - 53)).
  { rewrite <- Z.pow_add_r by lia. f_equal. lia. }
  assert (M1 : 2 ^ 52 <= Zpos pm / 2 ^ (d - 53) < 2 ^ 53).
  { split.
    - apply Z.div_le_lower_bound; [exact P|]. rewrite Z.mul_comm, <- Pd1. exact B1.
    - apply Z.div_lt_upper_bound; [exact P|]. rewrite Z.mul_comm, <- Pd. exact B2. }
  pose proof (round_nearest_even_error (Zpos pm) (d - 53) ltac:(lia) ltac:(lia)) as R.
  cbn zeta in R. destruct R as [R1 R2].
  unfold binary_round_aux, shr_fexp at 1. cbn [Zdigits2 shr_record_of_loc].
  fold d. rewrite (fexp_normal (d + e)) by lia.
  replace (d + e - 53 - e) with (Zpos pn) by lia.
  rewrite shr_exact by lia. rewrite <- N. cbn [shr_m].
  replace (d - 53 - 1) with (d - 54) in * by lia.
  remember (round_nearest_even _ _) as m2 eqn:Hm2. clear Hm2.
  destruct m2 as [|pm2|pm2]; try lia.
  unfold shr_fexp. cbn [Zdigits2 shr_record_of_loc].
  destruct (Z.eq_dec (Zpos pm2) (2 ^ 53)) as [E53|N53].
  - (* the rounding carried into a 54th bit *)
    assert (Dg : Zpos (digits2_pos pm2) = 54).
    { apply digits2_unique. rewrite E53. simpl. lia. }
    rewrite Dg, (fexp_normal (54 + (e + (d - 53)))) by lia.
    replace (54 + (e + (d - 53)) - 53 - (e + (d - 53))) with 1 by lia.
    inversion E53 as [E53']. cbn [shr iter_pos shr_1 shr_m].
    replace (e + (d - 53) + 1 <=? emax - prec) with true
      by (symmetry; apply Z.leb_le; unfold emax, prec; lia).
    eexists _, _. split; [reflexivity|]. split; [lia|]. split; [|simpl; lia].
    replace (e + (d - 53) + 1 - e) with (d - 53 + 1) by lia.
    rewrite Z.pow_add_r, Z.pow_1_r by lia.
    rewrite E53 in R2. change (2 ^ 53) with (4503599627370496 * 2) in R2. lia.
  - assert (Dg : Zpos (digits2_pos pm2) = 53).
    { apply digits2_unique. lia. }
    rewrite Dg, (fexp_normal (53 + (e + (d - 53)))) by lia.
    replace (53 + (e + (d - 53)) - 53 - (e + (d - 53))) with 0 by lia.
    cbn [shr shr_m].
    replace (e + (d - 53) <=? emax - prec) with true
      by (symmetry; apply Z.leb_le; unfold emax, prec; lia).
    eexists _, _. split; [reflexivity|]. split; [lia|]. split; [|lia].
    replace (e + (d - 53) - e) with (d - 53) by lia. exact R2.
Qed.

Lemma binary_round_aux_53 (s : bool) (pm : positive) (e : Z) :
  Zpos (digits2_pos pm) = 53 -> -1074 <= e <= 971 ->
  binary_round_aux prec emax s (Zpos pm) e loc_Exact = S754_finite s pm e.
Proof.
  intros D B. unfold binary_round_aux, shr_fexp.
  cbn [Zdigits2 shr_record_of_loc]. rewrite D, (fexp_normal (53 + e)) by lia.
  replace (53 + e - 53 - e) with 0 by lia.
  cbn [shr shr_m loc_of_shr_record round_nearest_even Zdigits2].
  rewrite D, (fexp_normal (53 + e)) by lia.
  replace (53 + e - 53 - e) with 0 by lia. cbn [shr shr_m].
  replace (e <=? emax - prec) with true
    by (symmetry; apply Z.leb_le; unfold emax, prec; lia).
  reflexivity.
Qed.

Lemma iter_xO (p k : positive) : Zpos (Pos.iter xO p k) = Zpos p * 2 ^ Zpos k.
Proof.
  rewrite Pos2Nat.inj_iter. rewrite <- (positive_nat_Z k).
  induction (Pos.to_nat k) as [|n IH].
  - simpl. lia.
  - cbn [nat_rect].
    rewrite Pos2Z.inj_xO, IH, Nat2Z.inj_succ, Z.pow_succ_r by lia.
    lia.
Qed.

(** [float(n)] is exact below [2 ^ 53]. *)
Lemma float_of_int_exact (n : Z) :
  0 < n < 2 ^ 53 ->
  exists mw k,
    float_of_int n = Ok (S754_finite false mw (- k))
    /\ 0 <= k <= 52
    /\ Zpos mw = n * 2 ^ k
    /\ 2 ^ 52 <= Zpos mw < 2 ^ 53.
Proof.
  intros [L U]. destruct n as [|p|p]; try lia.
  destruct (digits2_bounds p) as [B1 B2].
  set (d := Zpos (digits2_pos p)) in *.
  assert (D : 0 < d <= 53).
  { split; [unfold d; lia|].
    assert (d - 1 < 53) by (apply (Z.pow_lt_mono_r_iff 2); lia). lia. }
  unfold float_of_int, binary_normalize, binary_round.
  fold d. rewrite (fexp_normal (d + 0)) by lia.
  unfold shl_align. replace (d + 0 - 53 - 0) with (d - 53) by lia.
  destruct (d - 53) as [|pk|pk] eqn:K; try lia.
  - assert (d = 53) by lia.
    rewrite binary_round_aux_53 by (fold d; lia).
    exists p, 0. split; [reflexivity|]. split; [lia|].
    rewrite Z.pow_0_r, Z.mul_1_r. split; [reflexivity|].
    replace 52 with (d - 1) by lia. lia.
  - assert (Dg : Zpos (digits2_pos (Pos.iter xO p pk)) = 53).
    { apply digits2_unique. rewrite iter_xO.
      assert (E52 : 2 ^ 52 = 2 ^ (d - 1) * 2 ^ Zpos pk)
        by (rewrite <- Z.pow_add_r by lia; f_equal; lia).
      assert (E53 : 2 ^ 53 = 2 ^ d * 2 ^ Zpos pk)
        by (rewrite <- Z.pow_add_r by lia; f_equal; lia).
      assert (0 < 2 ^ Zpos pk) by (apply Z.pow_pos_nonneg; lia).
      change (53 - 1) with 52. rewrite E52, E53. nia. }
    replace (d + 0 - 53) with (Z.neg pk) by lia.
    rewrite binary_round_aux_53 by (try exact Dg; lia).
    exists (Pos.iter xO p pk), (Zpos pk). split; [reflexivity|]. split; [lia|].
    split; [apply iter_xO|].
    pose proof (digits2_bounds (Pos.iter xO p pk)) as B. rewrite Dg in B.
    exact B.
Qed.

Lemma quotients_ok : forallb quotient_ok grid = true.
Proof. vm_compute. reflexivity. Qed.

Lemma int_of_float_finite (m : positive) (t : positive) :
  int_of_float (S754_finite false m (Z.neg t)) = Ok (Zpos m / 2 ^ Zpos t).
Proof.
  cbn [int_of_float]. rewrite Z.shiftr_div_pow2 by lia. reflexivity.
Qed.

(** The arithmetic of the bound: [mq / a] is [x / 1000] to half a unit,
    [m'] times [n] is [mq * w * k] to half of [n], and [d] is [m'] cut
    to a multiple of [t]; then [d] is [x * w / 1000] cut to an integer,
    or one less. *)
Lemma truncation_bound (x w d mq a k m' n t h : Z) :
  0 <= x -> 0 < w < 2 ^ 32 ->
  0 < k -> 2 ^ 52 <= a ->
  Z.abs (1000 * mq - x * a) <= 500 ->
  0 < h -> 2 * h <= n -> 2 ^ 20 <= t ->
  t * n = a * k ->
  m' * n - h <= mq * (w * k) <= m' * n + h ->
  d = m' / t ->
  1000 * d <= x * w <= 1000 * d + 1000.
Proof.
  intros X W K A Q H N T S M D.
  assert (T0 : 0 < t) by lia.
  pose proof (Z.div_mod m' t ltac:(lia)) as E.
  pose proof (Z.mod_pos_bound m' t T0) as B. rewrite <- D in E.
  set (s := a * k) in *.
  assert (S0 : 0 < s) by (unfold s; nia).
  assert (P : 0 < w * k) by nia.
  (* 1000 * (mq * (w * k)) is (x * w) * s to 500 * (w * k) *)
  assert (Q1 : (x * w) * s - 500 * (w * k) <= 1000 * (mq * (w * k))
               <= (x * w) * s + 500 * (w * k)).
  { replace ((x * w) * s) with ((x * a) * (w * k)) by (unfold s; ring).
    replace (1000 * (mq * (w * k))) with ((1000 * mq) * (w * k)) by ring.
    assert (L : (x * a - 500) * (w * k) <= 1000 * mq * (w * k))
      by (apply Z.mul_le_mono_nonneg_r; lia).
    assert (U : 1000 * mq * (w * k) <= (x * a + 500) * (w * k))
      by (apply Z.mul_le_mono_nonneg_r; lia).
    lia. }
  (* m' * n is between d * s and (d + 1) * s - n *)
  assert (N0 : 0 < n) by lia.
  assert (M1 : d * s <= m' * n <= (d + 1) * s - n).
  { rewrite <- S.
    assert (L : d * t * n <= m' * n) by (apply Z.mul_le_mono_nonneg_r; lia).
    assert (U : m' * n <= ((d + 1) * t - 1) * n)
      by (apply Z.mul_le_mono_nonneg_r; lia).
    lia. }
  (* the two errors are each less than half of s *)
  assert (E1 : 2000 * h < s).
  { rewrite <- S.
    assert (2 ^ 20 * n <= t * n) by (apply Z.mul_le_mono_nonneg_r; lia).
    change (2 ^ 20) with 1048576 in *. lia. }
  assert (E2 : 1000 * (w * k) < s).
  { unfold s. change (2 ^ 32) with 4294967296 in W.
    change (2 ^ 52) with 4503599627370496 in A.
    assert (1000 * w * k < a * k) by (apply Z.mul_lt_mono_pos_r; lia).
    lia. }
  split.
  - assert (C : (1000 * d - x * w) * s < 1 * s) by lia.
    apply Z.mul_lt_mono_pos_r in C; [lia|exact S0].
  - assert (C : (x * w - 1000 * (d + 1)) * s < 1 * s) by lia.
    apply Z.mul_lt_mono_pos_r in C; [lia|exact S0].
Qed.

(** On a dimension below [2 ^ 32], a grid coordinate is denormalized to
    the exact product cut to an integer, or to one less. *)
Lemma denormalize_bound (x dim : Z) :
  0 <= x <= 1000 -> 0 <= dim < 2 ^ 32 ->
  exists d, denormalize (PInt x) dim = Ok d
            /\ 1000 * d <= x * dim <= 1000 * d + 1000.
Proof.
  intros X W.
  pose proof (proj1 (forallb_forall _ _) quotients_ok x (in_grid x X)) as Q.
  unfold quotient_ok in Q. unfold denormalize, py_truediv.
  destruct (int_truediv x NORMALIZED_SIZE) as [[sq|sq| |sq mq eq]|] eqn:Eq;
    try discriminate Q.
  - (* x = 0 *)
    apply Z.eqb_eq in Q. subst x. cbn [res_bind]. unfold float_mul_int.
    destruct (Z.eq_dec dim 0) as [->|NZ].
    + exists 0. split; [reflexivity|lia].
    + destruct (float_of_int_exact dim) as (mw & k & F & _).
      { change (2 ^ 53) with 9007199254740992.
        change (2 ^ 32) with 4294967296 in W. lia. }
      rewrite F. exists 0. split; [reflexivity|lia].
  - destruct sq; [discriminate Q|].
    repeat (apply andb_prop in Q; destruct Q as [Q ?Q]).
    apply Z.ltb_lt in Q. apply Z.leb_le in Q0, Q1, Q2, Q3, Q4.
    cbn [res_bind]. unfold float_mul_int.
    destruct (Z.eq_dec dim 0) as [->|NZ].
    + exists 0. split; [reflexivity|lia].
    + destruct (float_of_int_exact dim) as (mw & k & F & K & Mw & Bw).
      { change (2 ^ 53) with 9007199254740992.
        change (2 ^ 32) with 4294967296 in W. lia. }
      rewrite F. cbn [res_map res_bind SFmul xorb].
      set (a := 2 ^ (- eq)) in *. set (k2 := 2 ^ k) in *.
      assert (A0 : 2 ^ 52 <= a) by (apply Z.pow_le_mono_r; lia).
      assert (K0 : 0 < k2) by (apply Z.pow_pos_nonneg; lia).
      assert (S : 2 ^ (- (eq + - k)) = a * k2).
      { unfold a, k2. rewrite <- Z.pow_add_r by lia. f_equal. lia. }
      destruct (digits2_bounds (mq * mw)) as [D1 D2].
      set (dg := Zpos (digits2_pos (mq * mw))) in *.
      rewrite Pos2Z.inj_mul in D1, D2.
      assert (Dl : 104 < dg).
      { apply (Z.pow_lt_mono_r_iff 2); [lia|unfold dg; lia|].
        change (2 ^ 104) with (2 ^ 52 * 2 ^ 52). nia. }
      assert (Du : dg + (eq + - k) <= 32).
      { assert (dg - 1 < 32 - (eq + - k)); [|lia].
        apply (Z.pow_lt_mono_r_iff 2); [lia|lia|].
        replace (32 - (eq + - k)) with (32 + - (eq + - k)) by lia.
        rewrite Z.pow_add_r, S by lia.
        assert (L1 : Zpos mq * Zpos mw <= a * Zpos mw)
          by (apply Z.mul_le_mono_nonneg_r; lia).
        assert (L2 : a * (dim * k2) < a * (2 ^ 32 * k2)).
        { apply Z.mul_lt_mono_pos_l; [lia|].
          apply Z.mul_lt_mono_pos_r; lia. }
        rewrite Mw in L1. lia. }
      destruct (binary_round_aux_normal false (mq * mw) (eq + - k))
        as (m' & e' & R & Be & Bm & Bm'); fold dg; try lia.
      fold dg in Be, Bm. rewrite R. destruct e' as [|pe|pe]; try lia.
      rewrite int_of_float_finite. eexists. split; [reflexivity|].
      rewrite Pos2Z.inj_mul, Mw in Bm.
      apply (truncation_bound x dim _ (Zpos mq) a k2 (Zpos m')
               (2 ^ (Z.neg pe - (eq + - k))) (2 ^ Zpos pe) (2 ^ (dg - 54))).
      * lia.
      * lia.
      * exact K0.
      * exact A0.
      * exact Q1.
      * apply Z.pow_pos_nonneg; lia.
      * replace (Z.neg pe - (eq + - k)) with (1 + (dg - 54) + (Z.neg pe - (eq + - k) - (dg - 53))) by lia.
        rewrite !Z.pow_add_r by lia. rewrite Z.pow_1_r.
        apply Z.le_mul_diag_r.
        -- assert (0 < 2 ^ (dg - 54)) by (apply Z.pow_pos_nonneg; lia). lia.
        -- apply (Z.pow_le_mono_r 2 0); lia.
      * apply Z.pow_le_mono_r; lia.
      * rewrite <- S, <- Z.pow_add_r by lia. f_equal. lia.
      * exact Bm.
      * reflexivity.
Qed.

Lemma round_div_above (n : Z) : n / 1000 <= round_div n 1000.
Proof.
  unfold round_div.
  destruct (2 * (n mod 1000) <? 1000); [lia|].
  destruct (2 * (n mod 1000) >? 1000); [lia|].
  destruct (Z.even (n / 1000)); lia.
Qed.

(** The same bound, read on the quotient. *)
Lemma denormalize_cut (x dim : Z) :
  0 <= x <= 1000 -> 0 <= dim < 2 ^ 32 ->
  exists d, denormalize (PInt x) dim = Ok d
            /\ (d = x * dim / 1000
                \/ d = x * dim / 1000 - 1 /\ (x * dim) mod 1000 = 0)
            /\ d <= round_div (x * dim) 1000.
Proof.
  intros X W. destruct (denormalize_bound x dim X W) as (d & D & L & U).
  exists d. split; [exact D|].
  pose proof (round_div_above (x * dim)) as R.
  pose proof (Z.div_mod (x * dim) 1000 ltac:(lia)) as E.
  pose proof (Z.mod_pos_bound (x * dim) 1000 ltac:(lia)) as B.
  split; lia.
Qed.

Lemma denormalize_zero (dim : Z) :
  0 <= dim < 2 ^ 32 -> denormalize (PInt 0) dim = Ok 0.
Proof.
  intros B. destruct (denormalize_bound 0 dim ltac:(lia) B) as (d & D & L & U).
  pose proof (denormalize_not_negative 0 dim d ltac:(lia) ltac:(lia) D).
  rewrite D. f_equal. lia.
Qed.

Lemma denormalize_full (dim : Z) :
  0 <= dim < 2 ^ 32 -> denormalize (PInt 1000) dim = Ok dim.
Proof.
  intros W. unfold denormalize, py_truediv.
  assert (Q : int_truediv 1000 NORMALIZED_SIZE
              = Ok (S754_finite false 4503599627370496 (-52)))
    by (vm_compute; reflexivity).
  rewrite Q. cbn [res_bind]. unfold float_mul_int.
  destruct (Z.eq_dec dim 0) as [->|NZ]; [reflexivity|].
  destruct (float_of_int_exact dim) as (mw & k & F & K & Mw & Bw).
  { change (2 ^ 53) with 9007199254740992.
    change (2 ^ 32) with 4294967296 in W. lia. }
  rewrite F. cbn [res_map res_bind SFmul xorb].
  assert (P52 : Zpos 4503599627370496 = 2 ^ 52) by reflexivity.
  assert (Dg : Zpos (digits2_pos (4503599627370496 * mw)) = 105).
  { apply digits2_unique. rewrite Pos2Z.inj_mul, P52.
    change (2 ^ (105 - 1)) with (2 ^ 52 * 2 ^ 52).
    change (2 ^ 105) with (2 ^ 52 * 2 ^ 53).
    split; [apply Z.mul_le_mono_nonneg_l; lia|apply Z.mul_lt_mono_pos_l; lia]. }
  destruct (binary_round_aux_normal false (4503599627370496 * mw) (-52 + - k))
    as (m' & e' & R & Be & Bm & Bm'); rewrite ?Dg; try lia.
  rewrite Dg in Be, Bm. rewrite R.
  rewrite Pos2Z.inj_mul, P52 in Bm.
  change (2 ^ (105 - 54)) with (2 ^ 51) in Bm.
  assert (E : e' = - k \/ e' = 1 - k) by lia.
  destruct E as [-> | ->].
  - replace (- k - (-52 + - k)) with 52 in Bm by lia.
    assert (M : Zpos m' = Zpos mw).
    { change (2 ^ 52) with (2 * 2 ^ 51) in Bm.
      assert (0 < 2 ^ 51) by reflexivity. nia. }
    destruct k as [|pk|pk]; try lia.
    cbn [Z.opp]. rewrite int_of_float_finite, M, Mw.
    rewrite Z.div_mul; [reflexivity|]. apply Z.pow_nonzero; lia.
  - exfalso. replace (1 - k - (-52 + - k)) with 53 in Bm by lia.
    change (2 ^ 53) with (2 ^ 52 * 2) in Bm.
    change (2 ^ 51) with 2251799813685248 in Bm.
    change (2 ^ 52) with 4503599627370496 in *.
    change (2 ^ 53) with 9007199254740992 in *. lia.
Qed.

Lemma denormalize_on_screen (x dim : Z) :
  0 <= x <= 1000 -> 0 <= dim < 2 ^ 32 ->
  exists d, denormalize (PInt x) dim = Ok d
            /\ 0 <= d <= dim
            /\ (x = 1000 -> d = dim)
            /\ (x < 1000 -> 0 < dim -> d < dim).
Proof.
  intros X W. destruct (denormalize_bound x dim X W) as (d & D & B).
  exists d. split; [exact D|].
  pose proof (denormalize_not_negative x dim d (proj1 X) (proj1 W) D) as N.
  assert (U : x * dim <= 1000 * dim) by (apply Z.mul_le_mono_nonneg_r; lia).
  split; [lia|]. split.
  - intros ->. rewrite (denormalize_full dim W) in D. congruence.
  - intros L P. assert (x * dim <= 999 * dim)
      by (apply Z.mul_le_mono_nonneg_r; lia). lia.
Qed.


Section Properties.

Context {W : Type} `{Computer W}.
Variable json_loads : string -> option pyobj.
Variable json_dumps : pyobj -> string.
Variable time_sleep : pyobj -> option exn.
Variable prepare_screenshot : string -> string.
Variable ollama : nat -> reply.
Variable SYSTEM_PROMPT : string.
Variable console_print : printed -> option exn.

Local Abbreviation parse := (_parse_response json_loads console_print).
Local Abbreviation perr := (parse_error json_loads console_print).
Local Abbreviation exec := (_execute_action time_sleep console_print).
Local Abbreviation step :=
  (_run_one_step json_loads json_dumps time_sleep prepare_screenshot ollama
     SYSTEM_PROMPT console_print).
Local Abbreviation body :=
  (loop_body json_loads json_dumps time_sleep prepare_screenshot ollama
     SYSTEM_PROMPT console_print).
Local Abbreviation loop :=
  (run_loop json_loads json_dumps time_sleep prepare_screenshot ollama
     SYSTEM_PROMPT console_print).
Local Abbreviation run' :=
  (run json_loads json_dumps time_sleep prepare_screenshot ollama
     SYSTEM_PROMPT console_print).
Local Abbreviation asked' := (asked json_dumps prepare_screenshot SYSTEM_PROMPT).
Local Abbreviation messages := (messages_for json_dumps prepare_screenshot SYSTEM_PROMPT).
Local Abbreviation recorded' := (recorded prepare_screenshot).
Local Abbreviation retried' := (retried json_dumps prepare_screenshot SYSTEM_PROMPT).
Local Abbreviation gave_up' := (gave_up json_dumps prepare_screenshot SYSTEM_PROMPT).

Local Arguments _execute_action : simpl never.
Local Arguments denormalize : simpl never.

Ltac run_monad :=
  cbv [bind ret raise lift modify read say _prepare_screenshot _build_messages
       _call_ollama _display_action _save_screenshot _make_result].

Ltac open_step :=
  unfold _run_one_step, asked, messages_for; run_monad; cbn.

(** ** One step, case by case *)

Lemma step_fails state a e :
  ollama (inferences a) = Fails e ->
  step state a = (asked' state a, Raise e).
Proof.
  intros E. open_step. rewrite E. reflexivity.
Qed.

Lemma step_no_action state a c t e :
  ollama (inferences a) = Reply c t ->
  perr c = Some e ->
  step state a = (asked' state a, Raise e).
Proof.
  intros E P. unfold parse_error in P. open_step. rewrite E.
  destruct (parse c) as [[action|]|e']; try discriminate;
    inversion P; subst; cbn; try destruct (console_print _); reflexivity.
Qed.

Lemma step_terminate state a c t kvs :
  ollama (inferences a) = Reply c t ->
  parse c = Ok (Some (PDict kvs)) ->
  console_print (ActionTable t (PDict kvs)) = None ->
  eq_str (dict_get "action" PNone kvs) "terminate" = true ->
  step state a
  = (asked' state a,
     Ok (Done (dict_get "status" (PStr "success") kvs) (Obj (PStr t)))).
Proof.
  intros E P T K. open_step. rewrite E, P. cbn. rewrite T. cbn. rewrite K.
  reflexivity.
Qed.

Lemma step_answer state a c t kvs :
  ollama (inferences a) = Reply c t ->
  parse c = Ok (Some (PDict kvs)) ->
  console_print (ActionTable t (PDict kvs)) = None ->
  console_print (AnswerLine (dict_get "text" (PStr EmptyString) kvs)) = None ->
  eq_str (dict_get "action" PNone kvs) "terminate" = false ->
  eq_str (dict_get "action" PNone kvs) "answer" = true ->
  step state a
  = (asked' state a,
     Ok (Done (PStr "success") (Obj (dict_get "text" (PStr EmptyString) kvs)))).
Proof.
  intros E P T L K1 K2. open_step. rewrite E, P. cbn. rewrite T. cbn.
  rewrite K1, K2. cbn. rewrite L. reflexivity.
Qed.

Lemma step_execute state a c t kvs :
  ollama (inferences a) = Reply c t ->
  parse c = Ok (Some (PDict kvs)) ->
  console_print (ActionTable t (PDict kvs)) = None ->
  eq_str (dict_get "action" PNone kvs) "terminate" = false ->
  eq_str (dict_get "action" PNone kvs) "answer" = false ->
  step state a
  = match exec (PDict kvs) (asked' state a) with
    | (a1, Ok state') => (recorded' state (PDict kvs) t a1, Ok (NotDone state'))
    | (a1, Raise e) => (a1, Raise e)
    end.
Proof.
  intros E P T K1 K2. open_step. rewrite E, P. cbn. rewrite T. cbn.
  rewrite K1, K2.
  match goal with
  | |- context [exec ?x ?y] => destruct (exec x y) as [a1 [st|e]]
  end; try reflexivity.
  unfold recorded. cbn [_screenshot_dir set_action_count].
  destruct (_screenshot_dir a1); reflexivity.
Qed.

(** Asking the model changes the trace by one inference and nothing else
    of what the properties below look at. *)
Lemma asked_trace state (a : Agent W) :
  trace (asked' state a) = (trace a ++ [Inference (messages state a)])%list.
Proof. reflexivity. Qed.

Lemma asked_dispatched state (a : Agent W) :
  dispatched (trace (asked' state a)) = dispatched (trace a).
Proof.
  rewrite asked_trace, dispatched_app. simpl. apply app_nil_r.
Qed.



(** ** The loop body, case by case *)

Lemma body_done state a st why a1 :
  step state a = (a1, Ok (Done st why)) ->
  body state a
  = (a1, Returns (Ok {| status := st; action_count := _action_count a1;
                        final_url := url state; reasoning := why |})).
Proof.
  intros E. unfold loop_body. rewrite E. reflexivity.
Qed.


Lemma body_failed state a e a1 :
  step state a = (a1, Raise e) ->
  is_Exception e = true ->
  console_print (ErrorLine e) = None ->
  body state a
  = let a2 := set_consecutive_failures (_consecutive_failures a1 + 1) a1 in
    if _consecutive_failures a1 + 1 >=? _max_consecutive_failures a1 then
      (a2, Returns (Ok {| status := PStr "failure";
                          action_count := _action_count a1;
                          final_url := url state; reasoning := StrOf e |}))
    else
      match env CurrentState a2 with
      | (a3, Ok state') => (a3, Goes_on state')
      | (a3, Raise e') => (a3, Returns (Raise e'))
      end.
Proof.
  intros E X L. unfold loop_body. rewrite E.
  destruct e as [|c m]; [discriminate|]. rewrite L. cbn.
  destruct (_consecutive_failures a1 + 1 >=? _max_consecutive_failures a1);
    reflexivity.
Qed.

(** When the print at the head of the handler raises, the exception
    leaves [run]: nothing is counted. *)
Lemma body_handler_raises state a e e' a1 :
  step state a = (a1, Raise e) ->
  is_Exception e = true ->
  console_print (ErrorLine e) = Some e' ->
  body state a = (a1, Returns (Raise e')).
Proof.
  intros E X L. unfold loop_body. rewrite E.
  destruct e as [|c m]; [discriminate|]. rewrite L. reflexivity.
Qed.

Lemma eq_str_get (kvs : list (string * pyobj)) (kind s : string) :
  assoc "action" kvs = Some (PStr kind) ->
  eq_str (dict_get "action" PNone kvs) s = String.eqb kind s.
Proof.
  intros E. unfold dict_get. rewrite E. reflexivity.
Qed.


(** X23 (C10 on a console that prints the lines of the turn). When the
    parsed action has the kind "answer", and the console prints the
    table of the action and the answer line, the loop ends at once with a
    Result of status "success" whose reasoning is the action's [text]
    (the empty string when there is none); nothing is dispatched, the
    action counter and the history are left as they were. *)
Theorem answer_ends_the_loop
  (state : EnvState) (a : Agent W) (fuel : nat) (c t : string)
  (kvs : list (string * pyobj)) :
  _action_count a < _max_steps a ->
  ollama (inferences a) = Reply c t ->
  parse c = Ok (Some (PDict kvs)) ->
  console_print (ActionTable t (PDict kvs)) = None ->
  console_print (AnswerLine (dict_get "text" (PStr EmptyString) kvs)) = None ->
  assoc "action" kvs = Some (PStr "answer") ->
  loop (S fuel) state a
  = (asked' state a,
     Some (Ok {| status := PStr "success"; action_count := _action_count a;
                 final_url := url state;
                 reasoning := Obj (match assoc "text" kvs with
                                   | Some text => text
                                   | None => PStr EmptyString
                                   end) |}))
  /\ dispatched (trace (asked' state a)) = dispatched (trace a)
  /\ _action_count (asked' state a) = _action_count a
  /\ _history (asked' state a) = _history a.
Proof.
  intros B E P T L K. split; [|split; [|split]].
  - simpl. apply Z.ltb_lt in B. rewrite B.
    rewrite (body_done state a (PStr "success")
               (Obj (dict_get "text" (PStr EmptyString) kvs)) (asked' state a)).
    + reflexivity.
    + rewrite (step_answer state a c t kvs E P T L).
      * reflexivity.
      * rewrite (eq_str_get kvs "answer" "terminate" K). reflexivity.
      * rewrite (eq_str_get kvs "answer" "answer" K). reflexivity.
  - apply asked_dispatched.
  - reflexivity.
  - reflexivity.
Qed.

Lemma body_no_action_retry state (a : Agent W) c t e w' state' :
  ollama (inferences a) = Reply c t ->
  perr c = Some e ->
  is_Exception e = true ->
  console_print (ErrorLine e) = None ->
  _consecutive_failures a + 1 < _max_consecutive_failures a ->
  current_state (_computer a) = (w', Ok state') ->
  body state a = (retried' state w' a, Goes_on state').
Proof.
  intros E P X R L Q.
  rewrite (body_failed state a e (asked' state a)
             (step_no_action state a c t e E P) X R).
  cbn. apply Z.ltb_lt in L. rewrite Z.geb_leb, Z.leb_antisym, L. cbn.
  unfold env. cbn. rewrite Q. reflexivity.
Qed.

Lemma body_no_action_final state (a : Agent W) c t e :
  ollama (inferences a) = Reply c t ->
  perr c = Some e ->
  is_Exception e = true ->
  console_print (ErrorLine e) = None ->
  _max_consecutive_failures a <= _consecutive_failures a + 1 ->
  body state a
  = (gave_up' state a,
     Returns (Ok {| status := PStr "failure"; action_count := _action_count a;
                    final_url := url state; reasoning := StrOf e |})).
Proof.
  intros E P X R L.
  rewrite (body_failed state a e (asked' state a)
             (step_no_action state a c t e E P) X R).
  cbn. apply Z.leb_le in L. rewrite Z.geb_leb, L. reflexivity.
Qed.

(** X22 (C3 on a console that prints the error lines). Three turns in a
    row whose response yields no action, starting with no failure
    counted, each ending with an exception (that of [_parse_response],
    that of the print of the raw response, or the [ValueError] of line
    240) whose error line the console prints: the loop returns a Result of status "failure" (its
    reasoning is the text of the third exception); the action counter
    and the history are as before; the state was queried again before the
    second and before the third turn; and the three inference calls and
    the two state queries are all that happened, so nothing was
    dispatched. *)
Theorem three_parse_failures_end_the_run
  (state : EnvState) (a : Agent W) (fuel : nat)
  (c1 t1 c2 t2 c3 t3 : string) (e1 e2 e3 : exn)
  (w1 w2 : W) (state1 state2 : EnvState) :
  _action_count a < _max_steps a ->
  _consecutive_failures a = 0 ->
  _max_consecutive_failures a = 3 ->
  ollama (inferences a) = Reply c1 t1 -> perr c1 = Some e1 ->
  ollama (S (inferences a)) = Reply c2 t2 -> perr c2 = Some e2 ->
  ollama (S (S (inferences a))) = Reply c3 t3 -> perr c3 = Some e3 ->
  is_Exception e1 = true -> console_print (ErrorLine e1) = None ->
  is_Exception e2 = true -> console_print (ErrorLine e2) = None ->
  is_Exception e3 = true -> console_print (ErrorLine e3) = None ->
  current_state (_computer a) = (w1, Ok state1) ->
  current_state w1 = (w2, Ok state2) ->
  let a1 := retried' state w1 a in
  let a2 := retried' state1 w2 a1 in
  let a3 := gave_up' state2 a2 in
  loop (S (S (S fuel))) state a
  = (a3, Some (Ok {| status := PStr "failure"; action_count := _action_count a;
                     final_url := url state2; reasoning := StrOf e3 |}))
  /\ _action_count a1 = _action_count a
  /\ _action_count a2 = _action_count a
  /\ _action_count a3 = _action_count a
  /\ _history a3 = _history a
  /\ trace a3
     = (trace a ++ [Inference (messages state a); EnvCall CurrentState;
                    Inference (messages state1 a1); EnvCall CurrentState;
                    Inference (messages state2 a2)])%list
  /\ dispatched (trace a3) = dispatched (trace a).
Proof.
  intros B F M E1 P1 E2 P2 E3 P3 X1 R1 X2 R2 X3 R3 Q1 Q2 a1 a2 a3.
  assert (T : trace a3
     = (trace a ++ [Inference (messages state a); EnvCall CurrentState;
                    Inference (messages state1 a1); EnvCall CurrentState;
                    Inference (messages state2 a2)])%list).
  { subst a3 a2 a1. cbn. repeat rewrite <- app_assoc. reflexivity. }
  repeat split; try reflexivity; try exact T.
  - apply Z.ltb_lt in B.
    change (loop (S (S (S fuel))) state a)
      with (if _action_count a <? _max_steps a
            then match body state a with
                 | (x, Returns r) => (x, Some r)
                 | (x, Goes_on state') => loop (S (S fuel)) state' x
                 end
            else let '(x, r) := _make_result (PStr "failure") (url state)
                                  (Obj (PStr "Max steps reached")) a in
                 (x, Some r)).
    rewrite B.
    rewrite (body_no_action_retry state a c1 t1 e1 w1 state1 E1 P1 X1 R1);
      [|lia|exact Q1].
    fold a1.
    change (loop (S (S fuel)) state1 a1)
      with (if _action_count a1 <? _max_steps a1
            then match body state1 a1 with
                 | (x, Returns r) => (x, Some r)
                 | (x, Goes_on state') => loop (S fuel) state' x
                 end
            else let '(x, r) := _make_result (PStr "failure") (url state1)
                                  (Obj (PStr "Max steps reached")) a1 in
                 (x, Some r)).
    change (_action_count a1) with (_action_count a).
    change (_max_steps a1) with (_max_steps a). rewrite B.
    rewrite (body_no_action_retry state1 a1 c2 t2 e2 w2 state2);
      [|exact E2|exact P2|exact X2|exact R2|cbn; lia|exact Q2].
    fold a2.
    change (loop (S fuel) state2 a2)
      with (if _action_count a2 <? _max_steps a2
            then match body state2 a2 with
                 | (x, Returns r) => (x, Some r)
                 | (x, Goes_on state') => loop fuel state' x
                 end
            else let '(x, r) := _make_result (PStr "failure") (url state2)
                                  (Obj (PStr "Max steps reached")) a2 in
                 (x, Some r)).
    change (_action_count a2) with (_action_count a).
    change (_max_steps a2) with (_max_steps a). rewrite B.
    rewrite (body_no_action_final state2 a2 c3 t3 e3);
      [reflexivity|exact E3|exact P3|exact X3|exact R3|cbn; lia].
  - rewrite T, dispatched_app. cbn. apply app_nil_r.
Qed.


(** ** [_execute_action], kind by kind *)

Lemma exec_pointer kvs (a : Agent W) kind x y c :
  assoc "action" kvs = Some (PStr kind) ->
  denormalized a (dict_get "coordinate" (PList [PInt 0; PInt 0]) kvs) = Ok (x, y) ->
  pointer_call kind x y = Some c ->
  exec (PDict kvs) a = env c a.
Proof.
  intros K D P. unfold _execute_action. run_monad. cbn [get]. rewrite D.
  unfold dict_get at 1 2 3 4 5 6 7. rewrite K. cbn [eq_str].
  unfold pointer_call in P.
  repeat match type of P with
         | (if ?b then _ else _) = _ => destruct b
         end; inversion P; reflexivity.
Qed.



Lemma loop_step fuel state (a : Agent W) :
  _action_count a < _max_steps a ->
  loop (S fuel) state a
  = match body state a with
    | (x, Returns r) => (x, Some r)
    | (x, Goes_on state') => loop fuel state' x
    end.
Proof.
  intros B. apply Z.ltb_lt in B. simpl. rewrite B. reflexivity.
Qed.






(** An action without a coordinate gets the default one, which is
    denormalized to the origin. *)
Lemma denormalized_default (a : Agent W) (width height : Z) :
  screen_size (_computer a) = (width, height) ->
  0 <= width < 2 ^ 32 -> 0 <= height < 2 ^ 32 ->
  denormalized a (PList [PInt 0; PInt 0]) = Ok (0, 0).
Proof.
  intros S Bw Bh. unfold denormalized, _denormalize_x, _denormalize_y.
  rewrite S. cbn [truthy py_getitem nth_error py_len List.length res_bind fst snd].
  rewrite (denormalize_zero width Bw). cbn [res_bind Z.of_nat Z.gtb Z.compare
    Pos.of_succ_nat Pos.succ Pos.compare Pos.compare_cont].
  rewrite (denormalize_zero height Bh). reflexivity.
Qed.



(** ** What a turn leaves alone *)

Lemma same_books_refl (a : Agent W) : same_books a a.
Proof. repeat split. Qed.

Lemma env_same_books c (a : Agent W) : same_books a (fst (env c a)).
Proof.
  unfold env. destruct (perform c _) as [w r]. repeat split.
Qed.

Lemma save_same_books name (a : Agent W) :
  same_books a (fst (_save_screenshot name a)).
Proof.
  unfold _save_screenshot. run_monad. destruct (_screenshot_dir a); repeat split.
Qed.

Lemma exec_same_books action (a : Agent W) : same_books a (fst (exec action a)).
Proof.
  unfold _execute_action. run_monad.
  destruct (get action "action" PNone) as [kind|e]; [|apply same_books_refl].
  destruct (get action "coordinate" _) as [coordinate|e]; [|apply same_books_refl].
  destruct (denormalized a coordinate) as [[x y]|e]; [|apply same_books_refl].
  repeat match goal with
         | |- context [if eq_str kind ?s then _ else _] =>
             destruct (eq_str kind s); [try apply env_same_books|]
         end; try apply env_same_books.
  - destruct (get action "text" _); [apply env_same_books|apply same_books_refl].
  - destruct (get action "keys" _); [apply env_same_books|apply same_books_refl].
  - destruct (get action "pixels" _) as [pixels|]; [|apply same_books_refl].
    destruct (scroll_pixels pixels _); [apply env_same_books|apply same_books_refl].
  - destruct (get action "time" _) as [wait_time|]; [|apply same_books_refl].
    destruct (time_sleep wait_time); [apply same_books_refl|].
    apply (env_same_books CurrentState (log (Sleep wait_time) a)).
  - destruct (console_print _); [apply same_books_refl|apply env_same_books].
Qed.

(** ** The sliding window *)










(** ** The loop returns *)

Lemma step_books state (a : Agent W) :
  let a1 := fst (step state a) in
  _max_steps a1 = _max_steps a
  /\ _max_consecutive_failures a1 = _max_consecutive_failures a
  /\ _consecutive_failures a1 = _consecutive_failures a
  /\ _action_count a1
     = match snd (step state a) with
       | Ok (NotDone _) => _action_count a + 1
       | _ => _action_count a
       end.
Proof.
  open_step.
  destruct (ollama (inferences a)) as [c t|e]; [|repeat split].
  destruct (parse c) as [[action|]|e]; cbn; try (repeat split; fail).
  2: { destruct (console_print _); repeat split. }
  destruct (get action "action" (PStr "unknown")); cbn; [|repeat split].
  destruct (console_print (ActionTable t action)); cbn; [repeat split|].
  destruct (get action "action" PNone) as [kind|]; cbn; [|repeat split].
  destruct (eq_str kind "terminate").
  { destruct (get action "status" _); cbn; repeat split. }
  destruct (eq_str kind "answer").
  { destruct (get action "text" _); cbn; [|repeat split].
    destruct (console_print _); repeat split. }
  match goal with
  | |- context [exec action ?x] =>
      pose proof (exec_same_books action x) as F;
      destruct (exec action x) as [a1 [state'|e]]
  end; destruct F as (_ & _ & Fc & Fm & _ & Ff & Fx); cbn in Fc, Fm, Ff, Fx;
    cbn [fst snd].
  - destruct (_screenshot_dir _); cbn; rewrite Fc, Fm, Ff, Fx; repeat split.
  - rewrite Fc, Fm, Ff, Fx. repeat split.
Qed.





(** ** Interruption and failed inference *)

(** X2. A [KeyboardInterrupt] during a turn ends the run at once with a
    Result of status "failure" and the reasoning "User interrupted": the
    failure counter is left alone and the state is not queried again. *)
Theorem interruption_ends_the_run
  (state : EnvState) (a : Agent W) (fuel : nat) :
  _action_count a < _max_steps a ->
  ollama (inferences a) = Fails KeyboardInterrupt ->
  loop (S fuel) state a
  = (asked' state a,
     Some (Ok {| status := PStr "failure"; action_count := _action_count a;
                 final_url := url state;
                 reasoning := Obj (PStr "User interrupted") |}))
  /\ _consecutive_failures (asked' state a) = _consecutive_failures a
  /\ trace (asked' state a) = (trace a ++ [Inference (messages state a)])%list.
Proof.
  intros B E. split; [|split; reflexivity].
  rewrite loop_step by exact B. unfold loop_body.
  rewrite (step_fails state a KeyboardInterrupt E). reflexivity.
Qed.

(** X3. An exception of the inference call whose error line the console
    prints is counted as a failed turn: below the threshold the state is
    queried again and the loop goes on with the same action counter; at
    the threshold the run returns a Result of status "failure" whose
    reasoning is the text of that exception.  When the print of the error
    line raises, that exception leaves [run] from inside the handler:
    nothing is counted and the state is not queried. *)
Theorem failed_inference_is_counted
  (state : EnvState) (a : Agent W) (e : exn) (w' : W) (state' : EnvState) :
  ollama (inferences a) = Fails e ->
  is_Exception e = true ->
  current_state (_computer a) = (w', Ok state') ->
  (console_print (ErrorLine e) = None ->
   _consecutive_failures a + 1 < _max_consecutive_failures a ->
   body state a = (retried' state w' a, Goes_on state')
   /\ _consecutive_failures (retried' state w' a) = _consecutive_failures a + 1
   /\ _action_count (retried' state w' a) = _action_count a)
  /\ (console_print (ErrorLine e) = None ->
      _max_consecutive_failures a <= _consecutive_failures a + 1 ->
      body state a
      = (gave_up' state a,
         Returns (Ok {| status := PStr "failure";
                        action_count := _action_count a;
                        final_url := url state; reasoning := StrOf e |})))
  /\ (forall e', console_print (ErrorLine e) = Some e' ->
        body state a = (asked' state a, Returns (Raise e'))
        /\ _consecutive_failures (asked' state a) = _consecutive_failures a
        /\ trace (asked' state a)
           = (trace a ++ [Inference (messages state a)])%list).
Proof.
  intros E X Q.
  assert (F : console_print (ErrorLine e) = None ->
              body state a
              = (if _consecutive_failures a + 1 >=? _max_consecutive_failures a
                 then (gave_up' state a,
                       Returns (Ok {| status := PStr "failure";
                                      action_count := _action_count a;
                                      final_url := url state;
                                      reasoning := StrOf e |}))
                 else match env CurrentState (gave_up' state a) with
                      | (a3, Ok state1) => (a3, Goes_on state1)
                      | (a3, Raise e1) => (a3, Returns (Raise e1))
                      end)).
  { intros L.
    apply (body_failed state a e (asked' state a) (step_fails state a e E) X L). }
  split; [|split].
  - intros P L. split; [|split; reflexivity]. rewrite (F P).
    apply Z.ltb_lt in L. rewrite Z.geb_leb, Z.leb_antisym, L. cbn [negb].
    unfold env. cbn. rewrite Q. reflexivity.
  - intros P L. rewrite (F P). apply Z.leb_le in L. rewrite Z.geb_leb, L.
    reflexivity.
  - intros e' P. split; [|split; reflexivity].
    apply (body_handler_raises state a e e' (asked' state a)
             (step_fails state a e E) X P).
Qed.

(** C1, as the code has it. A pointer action with the coordinate
    [[x, y]] is dispatched at the two denormalized coordinates, [x] on
    the width and [y] on the height, each on its own. For [x] and [y] on
    the grid and a viewport below [2 ^ 32] pixels each way, a
    denormalized coordinate is not the rounded product but the product
    cut to an integer, [x * dim / 1000] in integer division, or one less
    than it when the product is a multiple of 1000 (the float product may
    fall just below the integer); it is never above the rounded value. *)
Theorem pointer_coordinates_are_truncated
  (a : Agent W) (kind : string) (x y width height : Z)
  (kvs : list (string * pyobj)) :
  assoc "action" kvs = Some (PStr kind) ->
  assoc "coordinate" kvs = Some (PList [PInt x; PInt y]) ->
  screen_size (_computer a) = (width, height) ->
  0 <= width < 2 ^ 32 ->
  0 <= height < 2 ^ 32 ->
  0 <= x <= 1000 ->
  0 <= y <= 1000 ->
  exists dx dy,
    _denormalize_x a (PInt x) = Ok dx
    /\ _denormalize_y a (PInt y) = Ok dy
    /\ (dx = x * width / 1000
        \/ dx = x * width / 1000 - 1 /\ (x * width) mod 1000 = 0)
    /\ dx <= round_div (x * width) 1000
    /\ (dy = y * height / 1000
        \/ dy = y * height / 1000 - 1 /\ (y * height) mod 1000 = 0)
    /\ dy <= round_div (y * height) 1000
    /\ (forall c, pointer_call kind dx dy = Some c ->
          exec (PDict kvs) a = env c a).
Proof.
  intros K C S Bw Bh X Y.
  destruct (denormalize_cut x width X Bw) as (dx & Dx & Cx & Rx).
  destruct (denormalize_cut y height Y Bh) as (dy & Dy & Cy & Ry).
  exists dx, dy. unfold _denormalize_x, _denormalize_y. rewrite S. cbn [fst snd].
  split; [exact Dx|]. split; [exact Dy|]. split; [exact Cx|]. split; [exact Rx|].
  split; [exact Cy|]. split; [exact Ry|].
  intros c P. apply (exec_pointer kvs a kind dx dy c K); [|exact P].
  unfold dict_get. rewrite C. unfold denormalized, _denormalize_x, _denormalize_y.
  rewrite S. cbn [truthy py_getitem nth_error py_len List.length res_bind fst snd].
  rewrite Dx. cbn [res_bind Z.of_nat Z.gtb Z.compare Pos.of_succ_nat Pos.succ Pos.compare Pos.compare_cont].
  rewrite Dy. reflexivity.
Qed.

(** ** Further properties of a turn *)

(** X4. A terminate action of which the console prints the table ends
    the loop with its [status] as the status of the Result, as decoded
    and whatever it is, "success" when the action has none; the reasoning
    is the model's thinking and nothing is dispatched. *)
Theorem terminate_status_is_carried
  (state : EnvState) (a : Agent W) (fuel : nat) (c t : string)
  (kvs : list (string * pyobj)) :
  _action_count a < _max_steps a ->
  ollama (inferences a) = Reply c t ->
  parse c = Ok (Some (PDict kvs)) ->
  console_print (ActionTable t (PDict kvs)) = None ->
  assoc "action" kvs = Some (PStr "terminate") ->
  loop (S fuel) state a
  = (asked' state a,
     Some (Ok {| status := match assoc "status" kvs with
                           | Some st => st
                           | None => PStr "success"
                           end;
                 action_count := _action_count a;
                 final_url := url state; reasoning := Obj (PStr t) |}))
  /\ dispatched (trace (asked' state a)) = dispatched (trace a).
Proof.
  intros B E P T K. split; [|apply asked_dispatched].
  rewrite loop_step by exact B.
  rewrite (body_done state a (dict_get "status" (PStr "success") kvs)
             (Obj (PStr t)) (asked' state a)).
  - reflexivity.
  - apply (step_terminate state a c t kvs E P T).
    rewrite (eq_str_get kvs "terminate" "terminate" K). reflexivity.
Qed.

Lemma exec_raises kvs (a : Agent W) e :
  denormalized a (dict_get "coordinate" (PList [PInt 0; PInt 0]) kvs) = Raise e ->
  exec (PDict kvs) a = (a, Raise e).
Proof.
  intros D. unfold _execute_action. run_monad. cbn [get]. rewrite D. reflexivity.
Qed.

(** X5. The coordinate is preprocessed before the kind is looked at: when
    an action carries a [coordinate] that is a number, a boolean, null, a
    non-empty string or a non-empty object, [_execute_action] raises a
    [TypeError] or a [KeyError] whatever the kind, also for the kinds
    that use no coordinate; nothing is dispatched, and the turn, once the
    console has printed the table of the action, ends with that
    exception. *)
Theorem malformed_coordinate_fails_any_action
  (state : EnvState) (a : Agent W) (c t : string)
  (kvs : list (string * pyobj)) (coordinate : pyobj) :
  assoc "coordinate" kvs = Some coordinate ->
  bad_coordinate coordinate = true ->
  exists cls,
    (cls = TypeError \/ cls = KeyError)
    /\ exec (PDict kvs) a = (a, Raise (Exc cls None))
    /\ (ollama (inferences a) = Reply c t ->
        parse c = Ok (Some (PDict kvs)) ->
        console_print (ActionTable t (PDict kvs)) = None ->
        eq_str (dict_get "action" PNone kvs) "terminate" = false ->
        eq_str (dict_get "action" PNone kvs) "answer" = false ->
        step state a = (asked' state a, Raise (Exc cls None))
        /\ dispatched (trace (asked' state a)) = dispatched (trace a)).
Proof.
  intros C B.
  assert (X : forall a0 : Agent W, exists cls,
             (cls = TypeError \/ cls = KeyError)
             /\ forall a1 : Agent W, denormalized a1 coordinate = Raise (Exc cls None)).
  { intros _. unfold denormalized, _denormalize_x.
    destruct coordinate as [|b|n|f|s|l|kvs']; cbn [bad_coordinate] in B;
      try discriminate B.
    - exists TypeError. split; [left; reflexivity|reflexivity].
    - exists TypeError. split; [left; reflexivity|]. destruct b; reflexivity.
    - exists TypeError. split; [left; reflexivity|]. intros a1. cbn [truthy].
      destruct (negb (n =? 0)); reflexivity.
    - exists TypeError. split; [left; reflexivity|]. intros a1. cbn [truthy].
      destruct (negb (float_is_zero f)); reflexivity.
    - destruct s as [|ch s]; [discriminate B|].
      exists TypeError. split; [left; reflexivity|reflexivity].
    - destruct kvs' as [|kv kvs']; [discriminate B|].
      exists KeyError. split; [right; reflexivity|reflexivity]. }
  destruct (X a) as (cls & Cls & D). exists cls. split; [exact Cls|].
  assert (R : forall a1 : Agent W, exec (PDict kvs) a1 = (a1, Raise (Exc cls None))).
  { intros a1. apply exec_raises. unfold dict_get. rewrite C. apply D. }
  split; [apply R|].
  intros E P T K1 K2. split; [|apply asked_dispatched].
  rewrite (step_execute state a c t kvs E P T K1 K2), R. reflexivity.
Qed.

Ltac decide_kinds :=
  repeat match goal with
         | |- context [eq_str (PStr ?k) ?s] =>
             let v := eval vm_compute in (eq_str (PStr k) s) in
             change (eq_str (PStr k) s) with v
         end;
  cbv beta iota.

Lemma kind_of kvs kind :
  assoc "action" kvs = Some (PStr kind) ->
  dict_get "action" PNone kvs = PStr kind.
Proof.
  intros K. unfold dict_get. rewrite K. reflexivity.
Qed.

Lemma exec_key kvs (a : Agent W) x y :
  assoc "action" kvs = Some (PStr "key") ->
  denormalized a (dict_get "coordinate" (PList [PInt 0; PInt 0]) kvs) = Ok (x, y) ->
  exec (PDict kvs) a = env (KeyCombination (dict_get "keys" (PList []) kvs)) a.
Proof.
  intros K D. unfold _execute_action. run_monad. cbn [get]. rewrite D.
  rewrite (kind_of kvs "key" K). decide_kinds. reflexivity.
Qed.

Lemma exec_scroll kvs (a : Agent W) x y :
  assoc "action" kvs = Some (PStr "scroll") ->
  denormalized a (dict_get "coordinate" (PList [PInt 0; PInt 0]) kvs) = Ok (x, y) ->
  exec (PDict kvs) a
  = match scroll_pixels (dict_get "pixels" (PInt 0) kvs)
            (snd (screen_size (_computer a))) with
    | Ok actual_pixels => env (Scroll actual_pixels) a
    | Raise e => (a, Raise e)
    end.
Proof.
  intros K D. unfold _execute_action. run_monad. cbn [get]. rewrite D.
  rewrite (kind_of kvs "scroll" K). decide_kinds.
  destruct (scroll_pixels _ _); reflexivity.
Qed.


(** X6. Only the first two items of [coordinate] are used, and a missing
    item is 0: a pointer action with the one-item coordinate [[x]] is
    dispatched at ([dx], 0), one with the empty list at the origin, and
    items after the second change nothing. *)
Theorem short_coordinate_defaults_to_zero
  (a : Agent W) (kind : string) (kvs : list (string * pyobj))
  (items : list pyobj) :
  assoc "action" kvs = Some (PStr kind) ->
  assoc "coordinate" kvs = Some (PList items) ->
  match items with
  | [] =>
      forall c, pointer_call kind 0 0 = Some c -> exec (PDict kvs) a = env c a
  | [cx] =>
      forall dx c, _denormalize_x a cx = Ok dx ->
                   pointer_call kind dx 0 = Some c ->
                   exec (PDict kvs) a = env c a
  | cx :: cy :: rest =>
      denormalized a (PList items) = denormalized a (PList [cx; cy])
  end.
Proof.
  intros K C. destruct items as [|cx [|cy rest]].
  - intros c P. apply (exec_pointer kvs a kind 0 0 c K); [|exact P].
    unfold dict_get. rewrite C. reflexivity.
  - intros dx c D P. apply (exec_pointer kvs a kind dx 0 c K); [|exact P].
    unfold dict_get. rewrite C. unfold denormalized. cbn [truthy py_getitem nth_error res_bind].
    rewrite D. reflexivity.
  - unfold denormalized. cbn [truthy py_getitem nth_error py_len List.length res_bind].
    replace (Z.of_nat (S (S (List.length rest))) >? 1) with true
      by (symmetry; rewrite Z.gtb_ltb; apply Z.ltb_lt; lia).
    reflexivity.
Qed.


(** ** What a run adds to the trace *)

Lemma quiet_nil : quiet [].
Proof. split; [reflexivity|simpl; lia]. Qed.

Lemma quiet_call c : quiet [EnvCall c].
Proof.
  split; [reflexivity|]. cbn [dispatched dispatch_of].
  destruct (is_dispatch c); simpl; lia.
Qed.

Lemma quiet_snoc l ev :
  quiet l -> is_inference ev = false -> dispatch_of ev = None -> quiet (l ++ [ev]).
Proof.
  intros [Q1 Q2] I D. split.
  - rewrite existsb_app, Q1. cbn [existsb]. rewrite I. reflexivity.
  - rewrite dispatched_app. cbn [dispatched]. rewrite D, app_nil_r. exact Q2.
Qed.

Lemma env_trace c (a : Agent W) :
  trace (fst (env c a)) = (trace a ++ [EnvCall c])%list
  /\ inferences (fst (env c a)) = inferences a.
Proof.
  unfold env. destruct (perform c _) as [w r]. split; reflexivity.
Qed.

Lemma exec_trace action (a : Agent W) :
  exists l, trace (fst (exec action a)) = (trace a ++ l)%list
            /\ inferences (fst (exec action a)) = inferences a
            /\ quiet l.
Proof.
  assert (Q0 : exists l, trace a = (trace a ++ l)%list
                         /\ inferences a = inferences a /\ quiet l).
  { exists []. rewrite app_nil_r. split; [reflexivity|]. split; [reflexivity|apply quiet_nil]. }
  assert (Q1 : forall c, exists l, trace (fst (env c a)) = (trace a ++ l)%list
                                   /\ inferences (fst (env c a)) = inferences a
                                   /\ quiet l).
  { intros c. destruct (env_trace c a) as [T I]. exists [EnvCall c].
    split; [exact T|]. split; [exact I|apply quiet_call]. }
  unfold _execute_action. run_monad.
  destruct (get action "action" PNone) as [kind|e]; [|exact Q0].
  destruct (get action "coordinate" _) as [coordinate|e]; [|exact Q0].
  destruct (denormalized a coordinate) as [[x y]|e]; [|exact Q0].
  repeat match goal with
         | |- context [if eq_str kind ?s then _ else _] =>
             destruct (eq_str kind s); [try apply Q1|]
         end; try apply Q1.
  - destruct (get action "text" _); [apply Q1|exact Q0].
  - destruct (get action "keys" _); [apply Q1|exact Q0].
  - destruct (get action "pixels" _) as [pixels|]; [|exact Q0].
    destruct (scroll_pixels pixels _); [apply Q1|exact Q0].
  - destruct (get action "time" _) as [wait_time|]; [|exact Q0].
    destruct (time_sleep wait_time); [exact Q0|].
    destruct (env_trace CurrentState (log (Sleep wait_time) a)) as [T I].
    exists [Sleep wait_time; EnvCall CurrentState]. split; [|split].
    + rewrite T. cbn [trace log]. rewrite <- app_assoc. reflexivity.
    + exact I.
    + split; [reflexivity|simpl; lia].
  - destruct (console_print _); [exact Q0|apply Q1].
Qed.

Lemma step_trace state (a : Agent W) :
  exists l, trace (fst (step state a))
            = (trace a ++ Inference (messages state a) :: l)%list
            /\ inferences (fst (step state a)) = S (inferences a)
            /\ quiet l.
Proof.
  assert (Q0 : exists l, trace (asked' state a)
                         = (trace a ++ Inference (messages state a) :: l)%list
                         /\ inferences (asked' state a) = S (inferences a)
                         /\ quiet l).
  { exists []. split; [reflexivity|]. split; [reflexivity|apply quiet_nil]. }
  open_step. fold (messages state a). fold (asked' state a).
  destruct (ollama (inferences a)) as [c t|e]; [|exact Q0].
  destruct (parse c) as [[action|]|e]; cbn; try exact Q0.
  2: { destruct (console_print _); exact Q0. }
  destruct (get action "action" (PStr "unknown")); cbn; [|exact Q0].
  destruct (console_print (ActionTable t action)); cbn; [exact Q0|].
  destruct (get action "action" PNone) as [kind|]; cbn; [|exact Q0].
  destruct (eq_str kind "terminate").
  { destruct (get action "status" _); cbn; exact Q0. }
  destruct (eq_str kind "answer").
  { destruct (get action "text" _); cbn; [|exact Q0].
    destruct (console_print _); exact Q0. }
  match goal with
  | |- context [exec action ?x] =>
      destruct (exec_trace action x) as (l & T & I & Q);
      destruct (exec action x) as [a1 [state'|e]]
  end; cbn [fst] in T, I; cbn [fst].
  - destruct (_screenshot_dir _) as [d|]; cbn.
    + exists (l ++ [SaveScreenshot d (Step (_action_count a1 + 1))])%list.
      rewrite T, I. cbn. rewrite <- !app_assoc. split; [reflexivity|].
      split; [reflexivity|]. apply quiet_snoc; [exact Q|reflexivity|reflexivity].
    + exists l. rewrite T, I. cbn. rewrite <- !app_assoc.
      split; [reflexivity|]. split; [reflexivity|exact Q].
  - exists l. rewrite T, I. cbn. rewrite <- !app_assoc.
    split; [reflexivity|]. split; [reflexivity|exact Q].
Qed.

Lemma body_trace state (a : Agent W) :
  exists l, trace (fst (body state a))
            = (trace a ++ Inference (messages state a) :: l)%list
            /\ inferences (fst (body state a)) = S (inferences a)
            /\ quiet l.
Proof.
  destruct (step_trace state a) as (l & T & I & Q). unfold loop_body.
  destruct (step state a) as [a1 [[st why|state']|[|c m]]]; cbn [fst] in T, I.
  - exists l. split; [exact T|]. split; [exact I|exact Q].
  - exists l. split; [exact T|]. split; [exact I|exact Q].
  - exists l. split; [exact T|]. split; [exact I|exact Q].
  - destruct (console_print _);
      [exists l; split; [exact T|]; split; [exact I|exact Q]|].
    cbn [_consecutive_failures _max_consecutive_failures set_consecutive_failures].
    destruct (_ >=? _).
    + exists l. split; [exact T|]. split; [exact I|exact Q].
    + match goal with
      | |- context [env CurrentState ?x] =>
          destruct (env_trace CurrentState x) as [T' I'];
          destruct (env CurrentState x) as [a3 [state'|e']]
      end; cbn [fst] in T', I'; cbn [fst];
        exists (l ++ [EnvCall CurrentState])%list;
        (split; [rewrite T'; cbn [trace set_consecutive_failures]; rewrite T;
                 rewrite <- app_assoc; reflexivity|]);
        (split; [rewrite I'; exact I|]);
        apply quiet_snoc; [exact Q|reflexivity|reflexivity
                          |exact Q|reflexivity|reflexivity].
Qed.

Lemma pace_app c l1 l2 :
  pace c (l1 ++ l2)
  = match pace c l1 with Some c' => pace c' l2 | None => None end.
Proof.
  revert c. induction l1 as [|ev l1 IH]; intros c; [reflexivity|].
  cbn [app pace]. destruct (is_inference ev); [apply IH|].
  destruct (dispatch_of ev); [destruct c; [apply IH|reflexivity]|apply IH].
Qed.

Lemma pace_quiet l : quiet l -> exists c', pace true l = Some c'.
Proof.
  intros [Q1 Q2].
  assert (G : (dispatched l = [] -> forall c, pace c l = Some c)
              /\ exists c', pace true l = Some c').
  { induction l as [|ev l IH]; [split; [reflexivity|exists true; reflexivity]|].
    cbn [existsb] in Q1. apply orb_false_iff in Q1. destruct Q1 as [I Q1].
    cbn [dispatched] in Q2. cbn [dispatched pace]. rewrite I.
    destruct (dispatch_of ev).
    - split; [discriminate|]. cbn [List.length] in Q2.
      destruct IH as [IH _]; [exact Q1|lia|].
      exists false. apply IH. destruct (dispatched l); [reflexivity|simpl in Q2; lia].
    - destruct (IH Q1 Q2) as [IH1 IH2]. split; [|exact IH2].
      intros D c. apply IH1. exact D. }
  apply G.
Qed.

Lemma asks_app l1 l2 : asks (l1 ++ l2) = (asks l1 + asks l2)%nat.
Proof. unfold asks. rewrite filter_app, length_app. reflexivity. Qed.

Lemma quiet_asks l : quiet l -> asks l = 0%nat.
Proof.
  intros [Q _]. unfold asks. induction l as [|ev l IH]; [reflexivity|].
  cbn [existsb] in Q. apply orb_false_iff in Q. destruct Q as [I Q].
  cbn [filter]. rewrite I. apply IH. exact Q.
Qed.

Lemma quiet_events l : quiet l -> Forall (event_ok SYSTEM_PROMPT) l.
Proof.
  intros [Q _]. induction l as [|ev l IH]; constructor.
  - cbn [existsb] in Q. apply orb_false_iff in Q. destruct ev; try exact I.
    destruct Q as [Q _]. discriminate.
  - apply IH. cbn [existsb] in Q. apply orb_false_iff in Q. apply Q.
Qed.

Lemma messages_ok state (a : Agent W) : request_ok SYSTEM_PROMPT (messages state a).
Proof.
  unfold messages_for. run_monad. eexists _, _. reflexivity.
Qed.

(** What a part [l] of the trace must satisfy. *)
Local Abbreviation orderly l :=
  ((forall c, exists c', pace c l = Some c')
   /\ Forall (event_ok SYSTEM_PROMPT) l).

Lemma body_orderly state (a : Agent W) :
  exists l, trace (fst (body state a)) = (trace a ++ l)%list
            /\ inferences (fst (body state a)) = (inferences a + asks l)%nat
            /\ orderly l.
Proof.
  destruct (body_trace state a) as (l & T & I & Q).
  exists (Inference (messages state a) :: l). split; [exact T|]. split; [|split].
  - rewrite I. change (Inference (messages state a) :: l)
      with ([Inference (messages state a)] ++ l)%list.
    rewrite asks_app, (quiet_asks l Q). cbn. lia.
  - intros c. cbn [pace is_inference]. apply pace_quiet. exact Q.
  - constructor; [apply messages_ok|apply quiet_events; exact Q].
Qed.

Lemma orderly_app l1 l2 : orderly l1 -> orderly l2 -> orderly (l1 ++ l2).
Proof.
  intros [P1 F1] [P2 F2]. split.
  - intros c. rewrite pace_app. destruct (P1 c) as [c1 E]. rewrite E. apply P2.
  - apply Forall_app. split; assumption.
Qed.

Lemma loop_orderly fuel state (a : Agent W) :
  exists l, trace (fst (loop fuel state a)) = (trace a ++ l)%list
            /\ inferences (fst (loop fuel state a)) = (inferences a + asks l)%nat
            /\ orderly l.
Proof.
  assert (Q0 : exists l, trace a = (trace a ++ l)%list
                         /\ inferences a = (inferences a + asks l)%nat
                         /\ orderly l).
  { exists []. rewrite app_nil_r. split; [reflexivity|]. split; [cbn; lia|].
    split; [intros c; exists c; reflexivity|constructor]. }
  revert state a Q0. induction fuel as [|fuel IH]; intros state a Q0; [exact Q0|].
  cbn [run_loop]. destruct (_ <? _); [|exact Q0].
  destruct (body_orderly state a) as (l & T & I & O).
  destruct (body state a) as [a1 [r|state']]; cbn [fst] in T, I.
  - exists l. split; [exact T|]. split; [exact I|exact O].
  - destruct (IH state' a1) as (l' & T' & I' & O').
    { exists []. rewrite app_nil_r. split; [reflexivity|]. split; [cbn; lia|].
      split; [intros c; exists c; reflexivity|constructor]. }
    exists (l ++ l')%list. split; [|split].
    + rewrite T', T, app_assoc. reflexivity.
    + rewrite I', I, asks_app. lia.
    + apply orderly_app; assumption.
Qed.

Lemma run_orderly (a : Agent W) :
  exists l, trace (fst (run' a)) = (trace a ++ l)%list
            /\ inferences (fst (run' a)) = (inferences a + asks l)%nat
            /\ orderly l.
Proof.
  unfold run. destruct (console_print _).
  { exists []. rewrite app_nil_r. split; [reflexivity|]. split; [cbn; lia|].
    split; [intros c; exists c; reflexivity|constructor]. }
  destruct (env_trace CurrentState a) as [T I].
  assert (O : orderly [EnvCall CurrentState]).
  { split; [intros c; exists c; reflexivity|repeat constructor]. }
  destruct (env CurrentState a) as [a1 [state|e]]; cbn [fst] in T, I.
  - unfold _save_screenshot. run_monad.
    destruct (_screenshot_dir a1) as [d|].
    + match goal with
      | |- context [loop ?f state ?x] =>
          destruct (loop_orderly f state x) as (l & T' & I' & O')
      end.
      cbn [trace inferences log] in T', I'.
      exists ([EnvCall CurrentState] ++ [SaveScreenshot d Initial] ++ l)%list.
      split; [|split].
      * rewrite T', T, <- !app_assoc. reflexivity.
      * rewrite I', I, !asks_app. cbn. lia.
      * apply orderly_app; [exact O|]. apply orderly_app; [|exact O'].
        split; [intros c; exists c; reflexivity|repeat constructor].
    + match goal with
      | |- context [loop ?f state ?x] =>
          destruct (loop_orderly f state x) as (l & T' & I' & O')
      end.
      exists ([EnvCall CurrentState] ++ l)%list. split; [|split].
      * rewrite T', T, <- !app_assoc. reflexivity.
      * rewrite I', I, !asks_app. cbn. lia.
      * apply orderly_app; [exact O|exact O'].
  - exists [EnvCall CurrentState]. split; [exact T|].
    split; [cbn [fst]; rewrite I; cbn; lia|exact O].
Qed.

(** X8. The environment is never driven without the model: in what a run
    adds to the trace, every action dispatch comes after a model call of
    its own, so that no reply of the model is acted on twice and nothing
    is dispatched before the first call. *)
Theorem every_dispatch_follows_its_own_inference (a : Agent W) :
  exists l, trace (fst (run' a)) = (trace a ++ l)%list
            /\ (exists permit, pace false l = Some permit)
            /\ (List.length (dispatched l) <= asks l)%nat.
Proof.
  destruct (run_orderly a) as (l & T & _ & P & _).
  exists l. split; [exact T|]. split; [apply P|].
  assert (G : forall l c c', pace c l = Some c' ->
                (List.length (dispatched l) + (if c' then 1 else 0)
                 <= asks l + (if c then 1 else 0))%nat).
  { clear. induction l as [|ev l IH]; intros c c' E.
    - cbn in E. inversion E. cbn. lia.
    - cbn [pace] in E. unfold asks in *. cbn [dispatched filter].
      destruct (is_inference ev) eqn:I.
      + destruct ev; try discriminate. cbn [dispatch_of List.length].
        specialize (IH _ _ E). destruct c, c'; cbn [List.length] in *; lia.
      + destruct (dispatch_of ev).
        * destruct c; [|discriminate]. specialize (IH _ _ E).
          destruct c'; cbn [List.length] in *; lia.
        * apply IH. exact E. }
  destruct (P false) as [c' E]. specialize (G l false c' E). destruct c'; lia.
Qed.


(** ** The budgets of a run *)

Lemma body_books state (a : Agent W) :
  let a1 := fst (body state a) in
  _max_steps a1 = _max_steps a
  /\ _max_consecutive_failures a1 = _max_consecutive_failures a
  /\ match snd (body state a) with
     | Goes_on _ =>
         (_consecutive_failures a1 = _consecutive_failures a + 1
          /\ _consecutive_failures a + 1 < _max_consecutive_failures a
          /\ _action_count a1 = _action_count a)
         \/ (_consecutive_failures a1 = 0
             /\ _action_count a1 = _action_count a + 1)
     | Returns r =>
         _action_count a1 = _action_count a
         /\ match r with
            | Ok result => action_count result = _action_count a
            | Raise _ => True
            end
     end.
Proof.
  unfold loop_body.
  pose proof (step_books state a) as S. cbn zeta in S.
  destruct (step state a) as [a0 [[st why|state0]|[|c m]]];
    cbn [fst snd] in S; destruct S as (Sm & Sx & Sf & Sc); cbn [fst snd].
  - cbn. repeat split; assumption.
  - cbn. split; [exact Sm|]. split; [exact Sx|]. right. split; [reflexivity|exact Sc].
  - cbn. repeat split; assumption.
  - destruct (console_print _); [cbn; repeat split; assumption|].
    cbn [_consecutive_failures _max_consecutive_failures set_consecutive_failures].
    destruct (_ >=? _) eqn:G.
    + cbn. repeat split; assumption.
    + rewrite Z.geb_leb in G. apply Z.leb_gt in G.
      unfold env. destruct (perform CurrentState _) as [w' [state1|e']]; cbn.
      * split; [exact Sm|]. split; [exact Sx|]. left. rewrite Sf, Sx in *.
        repeat split; [lia|exact Sc].
      * repeat split; assumption.
Qed.

Lemma loop_budget fuel state (a : Agent W) :
  let out := loop fuel state a in
  _action_count a <= _action_count (fst out)
  /\ _action_count (fst out) <= Z.max (_action_count a) (_max_steps a)
  /\ match snd out with
     | Some (Ok result) => action_count result = _action_count (fst out)
     | _ => True
     end.
Proof.
  cbn zeta. revert state a. induction fuel as [|fuel IH]; intros state a.
  - cbn. split; [lia|]. split; [lia|exact I].
  - cbn [run_loop]. destruct (_ <? _) eqn:B.
    + apply Z.ltb_lt in B. pose proof (body_books state a) as K. cbn zeta in K.
      destruct (body state a) as [a1 [r|state']]; cbn [fst snd] in K;
        destruct K as (Km & Kx & K).
      * cbn [fst snd]. destruct K as [Kc Kr]. split; [lia|]. split; [lia|].
        destruct r; [lia|exact I].
      * specialize (IH state' a1). destruct IH as (I1 & I2 & I3).
        split; [|split; [|exact I3]]; destruct K as [(_ & _ & Kc)|(_ & Kc)]; lia.
    + cbn. split; [lia|]. split; [lia|reflexivity].
Qed.

(** X10. A run keeps to its step budget: the action counter never goes
    down and ends at [max_steps] at most (or where it started, if that is
    above), and a returned Result reports the counter as it stands at the
    end. *)
Theorem run_keeps_to_the_step_budget (a : Agent W) :
  let out := run' a in
  _action_count a <= _action_count (fst out)
  /\ _action_count (fst out) <= Z.max (_action_count a) (_max_steps a)
  /\ match snd out with
     | Some (Ok result) =>
         action_count result = _action_count (fst out)
     | _ => True
     end.
Proof.
  cbn zeta. unfold run.
  destruct (console_print _); [cbn; split; [lia|]; split; [lia|exact I]|].
  pose proof (env_same_books CurrentState a) as E.
  destruct (env CurrentState a) as [a1 [state|e]]; cbn [fst] in E;
    destruct E as (_ & _ & Ec & Em & _).
  - pose proof (save_same_books Initial a1) as V.
    destruct (_save_screenshot Initial a1) as [a2 u]; cbn [fst] in V.
    destruct V as (_ & _ & Vc & Vm & _).
    pose proof (loop_budget (S (passes_left a2)) state a2) as L. cbn zeta in L.
    destruct L as (L1 & L2 & L3). split; [lia|]. split; [lia|exact L3].
  - cbn. split; [lia|]. split; [lia|exact I].
Qed.

Lemma loop_asks fuel state (a : Agent W) :
  0 <= _consecutive_failures a < _max_consecutive_failures a ->
  Z.of_nat (inferences (fst (loop fuel state a)))
  <= Z.of_nat (inferences a) + asks_left a.
Proof.
  revert state a. induction fuel as [|fuel IH]; intros state a F.
  - cbn [run_loop fst]. unfold asks_left. destruct (_ <? _) eqn:B; [|lia].
    apply Z.ltb_lt in B.
    assert (_max_consecutive_failures a * 1
            <= _max_consecutive_failures a * (_max_steps a - _action_count a))
      by (apply Z.mul_le_mono_nonneg_l; lia).
    lia.
  - cbn [run_loop]. unfold asks_left at 1. destruct (_ <? _) eqn:B; [|cbn; lia].
    apply Z.ltb_lt in B.
    assert (M : _max_consecutive_failures a * 1
                <= _max_consecutive_failures a * (_max_steps a - _action_count a))
      by (apply Z.mul_le_mono_nonneg_l; lia).
    pose proof (body_books state a) as K. cbn zeta in K.
    destruct (body_trace state a) as (l & _ & N & _).
    destruct (body state a) as [a1 [r|state']]; cbn [fst snd] in K, N;
      destruct K as (Km & Kx & K).
    + cbn [fst]. rewrite N. lia.
    + assert (F1 : 0 <= _consecutive_failures a1 < _max_consecutive_failures a1).
      { destruct K as [(Kf & Kl & _)|(Kf & _)]; lia. }
      specialize (IH state' a1 F1). rewrite N in IH.
      assert (D : asks_left a1 + 1 <= _max_consecutive_failures a
                                     * (_max_steps a - _action_count a)
                                     - _consecutive_failures a).
      { unfold asks_left. rewrite Km, Kx.
        destruct K as [(Kf & Kl & Kc)|(Kf & Kc)]; rewrite Kf, Kc.
        - apply Z.ltb_lt in B. rewrite B. lia.
        - destruct (_ <? _); lia. }
      lia.
Qed.

(** X11. The model is asked a bounded number of times: an agent whose
    failure counter is below the threshold asks at most threshold times
    the steps it has left, that is at most three times [max_steps] for a
    new agent. *)
Theorem inference_calls_are_bounded (a : Agent W) :
  0 <= _consecutive_failures a < _max_consecutive_failures a ->
  Z.of_nat (inferences (fst (run' a)))
  <= Z.of_nat (inferences a)
     + _max_consecutive_failures a * Z.max 0 (_max_steps a - _action_count a).
Proof.
  intros F. unfold run.
  pose proof (env_same_books CurrentState a) as E.
  destruct (env_trace CurrentState a) as [_ N].
  assert (P : 0 <= _max_consecutive_failures a
                   * Z.max 0 (_max_steps a - _action_count a))
    by (apply Z.mul_nonneg_nonneg; lia).
  destruct (console_print _); [cbn [fst]; lia|].
  destruct (env CurrentState a) as [a1 [state|e]]; cbn [fst] in E, N;
    destruct E as (_ & _ & Ec & Em & _ & Ef & Ex).
  - pose proof (save_same_books Initial a1) as V.
    assert (N2 : inferences (fst (_save_screenshot Initial a1)) = inferences a1).
    { unfold _save_screenshot. run_monad. destruct (_screenshot_dir a1); reflexivity. }
    destruct (_save_screenshot Initial a1) as [a2 u]; cbn [fst] in V, N2.
    destruct V as (_ & _ & Vc & Vm & _ & Vf & Vx).
    pose proof (loop_asks (S (passes_left a2)) state a2) as L.
    assert (A : asks_left a2 <= _max_consecutive_failures a
                                * Z.max 0 (_max_steps a - _action_count a)).
    { unfold asks_left. rewrite Vc, Vm, Vf, Vx, Ec, Em, Ef, Ex.
      destruct (_ <? _) eqn:B; [|exact P]. apply Z.ltb_lt in B.
      rewrite Z.max_r by lia. lia. }
    rewrite N2, N in L. specialize (L ltac:(lia)). lia.
  - cbn [fst]. lia.
Qed.

(** ** The pointer and the screen *)

(** X20. A pointer coordinate on the grid stays on the screen, its far
    edge included: for [x] and [y] from 0 to 1000 and a viewport below
    [2 ^ 32] pixels each way, the denormalized point has [0 <= dx <= width]
    and [0 <= dy <= height]; 1000 gives the width (the height) itself,
    one past the last pixel, and anything below 1000 stays below it. *)
Theorem pointer_stays_on_the_screen (a : Agent W) (x y width height : Z) :
  screen_size (_computer a) = (width, height) ->
  0 <= width < 2 ^ 32 ->
  0 <= height < 2 ^ 32 ->
  0 <= x <= 1000 ->
  0 <= y <= 1000 ->
  exists dx dy,
    denormalized a (PList [PInt x; PInt y]) = Ok (dx, dy)
    /\ 0 <= dx <= width
    /\ 0 <= dy <= height
    /\ (x = 1000 -> dx = width)
    /\ (y = 1000 -> dy = height)
    /\ (x < 1000 -> 0 < width -> dx < width)
    /\ (y < 1000 -> 0 < height -> dy < height).
Proof.
  intros S Bw Bh X Y.
  destruct (denormalize_on_screen x width X Bw) as (dx & Dx & Rx & Ex & Lx).
  destruct (denormalize_on_screen y height Y Bh) as (dy & Dy & Ry & Ey & Ly).
  exists dx, dy. unfold denormalized, _denormalize_x, _denormalize_y.
  rewrite S. cbn [truthy py_getitem nth_error py_len List.length res_bind fst snd].
  rewrite Dx. cbn [res_bind Z.of_nat Pos.of_succ_nat Pos.succ Z.gtb Z.compare Pos.compare
                   Pos.compare_cont].
  rewrite Dy. cbn [res_bind]. repeat split; try assumption; lia.
Qed.

(** ** The exit code *)

Lemma eq_str_true (v : pyobj) (s : string) : eq_str v s = true -> v = PStr s.
Proof.
  destruct v; cbn [eq_str]; try discriminate.
  intros E. apply String.eqb_eq in E. subst. reflexivity.
Qed.

Lemma step_done state (a a1 : Agent W) st why :
  step state a = (a1, Ok (Done st why)) ->
  exists c t kvs,
    a1 = asked' state a
    /\ ollama (inferences a) = Reply c t
    /\ parse c = Ok (Some (PDict kvs))
    /\ ((assoc "action" kvs = Some (PStr "terminate")
         /\ st = dict_get "status" (PStr "success") kvs)
        \/ (assoc "action" kvs = Some (PStr "answer") /\ st = PStr "success")).
Proof.
  assert (G : forall kvs s, eq_str (dict_get "action" PNone kvs) s = true ->
                            assoc "action" kvs = Some (PStr s)).
  { intros kvs s E. apply eq_str_true in E. unfold dict_get in E.
    destruct (assoc "action" kvs); [congruence|discriminate E]. }
  open_step. fold (messages state a). fold (asked' state a).
  destruct (ollama (inferences a)) as [c t|e]; [|discriminate].
  destruct (parse c) as [[action|]|e] eqn:P; cbn; try discriminate.
  2: { destruct (console_print _); discriminate. }
  destruct action as [| | | | | |kvs]; cbn; try discriminate.
  destruct (console_print (ActionTable t (PDict kvs))); cbn; [discriminate|].
  destruct (eq_str (dict_get "action" PNone kvs) "terminate") eqn:K1.
  { cbn. intros E. inversion E; subst. exists c, t, kvs.
    split; [reflexivity|]. split; [reflexivity|]. split; [exact P|].
    left. split; [apply G; exact K1|reflexivity]. }
  destruct (eq_str (dict_get "action" PNone kvs) "answer") eqn:K2.
  { cbn. destruct (console_print _); [discriminate|].
    intros E. inversion E; subst. exists c, t, kvs.
    split; [reflexivity|]. split; [reflexivity|]. split; [exact P|].
    right. split; [apply G; exact K2|reflexivity]. }
  destruct (exec (PDict kvs) _) as [a2 [state'|e]]; [|discriminate].
  destruct (_screenshot_dir _); cbn; discriminate.
Qed.

Lemma body_success state (a a1 : Agent W) r :
  body state a = (a1, Returns (Ok r)) ->
  eq_str (status r) "success" = true ->
  exists why, step state a = (a1, Ok (Done (status r) why)).
Proof.
  unfold loop_body.
  destruct (step state a) as [a0 [[st why|state0]|[|c m]]].
  - cbn. intros E S. inversion E; subst. exists why. reflexivity.
  - discriminate.
  - cbn. intros E S. inversion E; subst. discriminate S.
  - destruct (console_print _); [discriminate|].
    cbn [_consecutive_failures _max_consecutive_failures set_consecutive_failures].
    destruct (_ >=? _).
    + cbn. intros E S. inversion E; subst. discriminate S.
    + destruct (env CurrentState _) as [a3 [state'|e']]; discriminate.
Qed.

Lemma loop_success fuel state (a a' : Agent W) r :
  loop fuel state a = (a', Some (Ok r)) ->
  eq_str (status r) "success" = true ->
  exists state0 a0 why, step state0 a0 = (a', Ok (Done (status r) why)).
Proof.
  revert state a. induction fuel as [|fuel IH]; intros state a; [discriminate|].
  cbn [run_loop]. destruct (_ <? _).
  - destruct (body state a) as [a1 [r1|state']] eqn:B.
    + intros E S. inversion E; subst.
      destruct (body_success state a a' r B S) as [why Q].
      exists state, a, why. exact Q.
    + apply IH.
  - cbn. intros E S. inversion E; subst. discriminate S.
Qed.

(** X21. The process exits with 0 only when the model itself ended the
    task: if [run] returns a Result on which [main] returns 0, the last
    thing the agent did was to ask the model, and the reply was a
    terminate action whose status is "success" or missing, or an answer
    action.  Reaching [max_steps], three failures in a row and an
    interruption never give 0. *)
Theorem exit_code_zero_means_the_model_ended_the_task
  (a a' : Agent W) (r : Result) :
  run' a = (a', Some (Ok r)) ->
  exit_code r = 0 ->
  exists state a0 c t kvs,
    a' = asked' state a0
    /\ ollama (inferences a0) = Reply c t
    /\ parse c = Ok (Some (PDict kvs))
    /\ ((assoc "action" kvs = Some (PStr "terminate")
         /\ dict_get "status" (PStr "success") kvs = PStr "success")
        \/ assoc "action" kvs = Some (PStr "answer")).
Proof.
  intros R X.
  assert (S : eq_str (status r) "success" = true).
  { unfold exit_code in X. destruct (eq_str _ _); [reflexivity|discriminate X]. }
  unfold run in R. destruct (console_print _); [discriminate R|].
  destruct (env CurrentState a) as [a1 [state|e]]; [|discriminate R].
  destruct (_save_screenshot Initial a1) as [a2 u].
  destruct (loop_success _ state a2 a' r R S) as (state0 & a0 & why & Q).
  destruct (step_done state0 a0 a' (status r) why Q) as (c & t & kvs & A & E & P & K).
  exists state0, a0, c, t, kvs. split; [exact A|]. split; [exact E|].
  split; [exact P|]. destruct K as [[K V]|[K _]]; [left|right; exact K].
  split; [exact K|]. rewrite <- V. apply eq_str_true. exact S.
Qed.

End Properties.

(** * Properties of [PlaywrightComputer] *)

Section PlaywrightProperties.

Context {P : Type} `{Page P}.
Variable sys_platform : string.
Variable time_sleep : pyobj -> option exn.
Variable console_print : printed -> option exn.

Local Abbreviation computer := (Playwright_Computer sys_platform).
Local Abbreviation call_of c := (@perform (Playwright P) computer c).

(** ** Scripts *)

Lemma play_app (a b : list step) (self : Playwright P) :
  play (a ++ b) self = pbind (play a) (fun _ => play b) self.
Proof.
  revert self. induction a as [|st a IH]; intros self; [reflexivity|].
  unfold play in *. cbn [app for_each]. unfold pbind at 1 3.
  unfold pbind at 1.
  destruct (do_step st self) as [s' [u|e]]; [apply IH|reflexivity].
Qed.

Lemma then_state_app (a b : list step) (self : Playwright P) :
  then_state (play (a ++ b)) self
  = pbind (play a) (fun _ => then_state (play b)) self.
Proof.
  unfold then_state, pbind. rewrite play_app. unfold pbind.
  destruct (play a self) as [s [u|e]]; reflexivity.
Qed.

Lemma drop_state {A} (m : PM P unit) (k : PM P A) (self : Playwright P) :
  pbind (then_state m) (fun _ => k) self = pbind m (fun _ => k) self.
Proof.
  unfold then_state, pbind, snapshot. destruct (m self) as [s [u|e]]; reflexivity.
Qed.

Lemma for_each_calls (f : string -> page_call) (l : list string)
  (self : Playwright P) :
  for_each l (fun k => PlaywrightComputer.page (f k)) self
  = play (script_calls (map f l)) self.
Proof.
  revert self. induction l as [|k l IH]; intros self; [reflexivity|].
  unfold play, script_calls in *. cbn [map for_each do_step]. unfold pbind.
  destruct (PlaywrightComputer.page (f k) self) as [s [u|e]]; [apply IH|reflexivity].
Qed.

Lemma script_calls_app (a b : list page_call) :
  script_calls (a ++ b) = (script_calls a ++ script_calls b)%list.
Proof. apply map_app. Qed.

Lemma calls_of_script_calls (l : list page_call) : calls_of (script_calls l) = l.
Proof.
  unfold script_calls. induction l as [|c l IH]; [reflexivity|].
  cbn [map calls_of]. rewrite IH. reflexivity.
Qed.

Lemma calls_of_app (a b : list step) :
  calls_of (a ++ b) = (calls_of a ++ calls_of b)%list.
Proof.
  induction a as [|[c|pos] a IH]; cbn; [reflexivity| |]; rewrite IH; reflexivity.
Qed.


Lemma pointer_kept (pos : Z * Z) (script : list step) :
  forallb is_call script = true -> pointer_after pos script = pos.
Proof.
  induction script as [|[c|pos'] script IH]; intros N; [reflexivity| |].
  - apply IH. exact N.
  - discriminate N.
Qed.

Lemma is_call_script_calls (l : list page_call) :
  forallb is_call (script_calls l) = true.
Proof. induction l as [|c l IH]; [reflexivity|exact IH]. Qed.

Lemma play_spec (script : list step) (self : Playwright P) :
  let out := play script self in
  _initial_url (fst out) = _initial_url self
  /\ _screen_size (fst out) = _screen_size self
  /\ _highlight_mouse (fst out) = _highlight_mouse self
  /\ exists done rest,
       script = (done ++ rest)%list
       /\ page_calls (fst out) = (page_calls self ++ calls_of done)%list
       /\ _last_mouse_pos (fst out) = pointer_after (_last_mouse_pos self) done
       /\ (snd out = Ok tt -> rest = []).
Proof.
  cbn zeta. revert self. induction script as [|st script IH]; intros self.
  - cbn. repeat split. exists [], []. cbn. rewrite app_nil_r. repeat split.
  - unfold play in *. cbn [for_each]. unfold pbind.
    destruct st as [c|pos]; cbn [do_step].
    + unfold PlaywrightComputer.page.
      destruct (answer c (_page self)) as [p [e|]].
      * cbn. repeat split. exists [Call c], script. cbn. repeat split.
        discriminate.
      * destruct (IH (called c p self)) as (I1 & I2 & I3 & done & rest & E & C & L & R).
        cbn [_initial_url _screen_size _highlight_mouse called] in I1, I2, I3.
        split; [exact I1|]. split; [exact I2|]. split; [exact I3|].
        exists (Call c :: done), rest. split; [cbn; rewrite E; reflexivity|].
        split; [|split; [exact L|exact R]].
        rewrite C. cbn [page_calls called calls_of]. rewrite <- app_assoc. reflexivity.
    + unfold pmodify.
      destruct (IH (set_last_mouse_pos pos self))
        as (I1 & I2 & I3 & done & rest & E & C & L & R).
      split; [exact I1|]. split; [exact I2|]. split; [exact I3|].
      exists (Point pos :: done), rest. split; [cbn; rewrite E; reflexivity|].
      split; [exact C|]. split; [exact L|exact R].
Qed.

(** What a method that plays [script] and returns the state has done. *)
Lemma played (script : list step) (self : Playwright P) :
  let out := then_state (play script) self in
  _initial_url (fst out) = _initial_url self
  /\ _screen_size (fst out) = _screen_size self
  /\ _highlight_mouse (fst out) = _highlight_mouse self
  /\ runs_through self out (calls_of script)
  /\ (forall v, snd out = Ok v ->
        _last_mouse_pos (fst out) = pointer_after (_last_mouse_pos self) script)
  /\ (forallb is_call script = true ->
      _last_mouse_pos (fst out) = _last_mouse_pos self).
Proof.
  cbn zeta. destruct (play_spec script self)
    as (I1 & I2 & I3 & done & rest & E & C & L & R).
  unfold then_state, pbind, snapshot.
  destruct (play script self) as [s [[]|e]]; cbn [fst snd] in *.
  - specialize (R eq_refl). subst rest. rewrite app_nil_r in E. subst done.
    split; [exact I1|]. split; [exact I2|]. split; [exact I3|].
    split; [|split; [intros v _; exact L|intros N; rewrite L; apply pointer_kept; exact N]].
    exists (calls_of script), []. rewrite app_nil_r. repeat split. exact C.
  - split; [exact I1|]. split; [exact I2|]. split; [exact I3|].
    split; [|split; [intros v X; discriminate X|]].
    + exists (calls_of done), (calls_of rest). rewrite E, calls_of_app.
      split; [reflexivity|]. split; [exact C|]. intros v X. discriminate X.
    + intros N. rewrite L. apply pointer_kept. rewrite E, forallb_app in N.
      apply andb_true_iff in N. apply N.
Qed.

(** ** The methods as scripts *)

Lemma pbind_cong {A B} (m m' : PM P A) (k k' : A -> PM P B) (self : Playwright P) :
  m self = m' self ->
  (forall x s, m' self = (s, Ok x) -> k x s = k' x s) ->
  pbind m k self = pbind m' k' self.
Proof.
  intros E K. unfold pbind. rewrite E.
  destruct (m' self) as [s [x|e]]; [apply K; reflexivity|reflexivity].
Qed.

Lemma then_state_cons (st : step) (rest : list step) (self : Playwright P) :
  then_state (play (st :: rest)) self
  = pbind (do_step st) (fun _ => then_state (play rest)) self.
Proof.
  unfold then_state, play. cbn [for_each]. unfold pbind.
  destruct (do_step st self) as [s [u|e]]; reflexivity.
Qed.

Lemma do_step_highlight (st : step) (self s : Playwright P) (r : res unit) :
  do_step st self = (s, r) -> _highlight_mouse s = _highlight_mouse self.
Proof.
  destruct st as [c|pos]; cbn [do_step].
  - unfold PlaywrightComputer.page. destruct (answer c (_page self)) as [p o].
    intros E. inversion E. reflexivity.
  - unfold pmodify. intros E. inversion E. reflexivity.
Qed.

Lemma play_highlight (script : list step) (self s : Playwright P) (r : res unit) :
  play script self = (s, r) -> _highlight_mouse s = _highlight_mouse self.
Proof.
  intros E. pose proof (play_spec script self) as S. cbn zeta in S.
  rewrite E in S. apply S.
Qed.

Lemma current_state_script (self : Playwright P) :
  PlaywrightComputer.current_state self
  = then_state (play (script_calls state_query)) self.
Proof.
  unfold PlaywrightComputer.current_state, script_calls, state_query.
  cbn [map]. rewrite !then_state_cons.
  apply pbind_cong; [reflexivity|intros [] s1 _]. rewrite then_state_cons.
  apply pbind_cong; [reflexivity|intros [] s2 _]. rewrite then_state_cons.
  apply pbind_cong; [reflexivity|intros [] s3 _]. reflexivity.
Qed.

Lemma show_cursor_script (x y : Z) (self : Playwright P) :
  PlaywrightComputer._show_cursor x y self
  = play (script_calls (cursor (_highlight_mouse self) x y)) self.
Proof.
  unfold PlaywrightComputer._show_cursor, cursor, play, script_calls.
  destruct (_highlight_mouse self); [|reflexivity].
  cbn [negb map for_each do_step]. unfold pbind, pret.
  destruct (PlaywrightComputer.page (Evaluate x y) self) as [s1 [[]|e]];
    [|reflexivity].
  destruct (PlaywrightComputer.page SleepHalfSecond s1) as [s2 [[]|e]]; reflexivity.
Qed.

(** A pointer method: the cursor, the mouse call [m], the position, the
    wait and the state. *)
Lemma pointer_script (x y : Z) (m : page_call) (self : Playwright P) :
  pbind (PlaywrightComputer._show_cursor x y) (fun _ =>
  pbind (PlaywrightComputer.page m) (fun _ =>
  pbind (pmodify (set_last_mouse_pos (x, y))) (fun _ =>
  pbind (PlaywrightComputer.page WaitForLoadState) (fun _ =>
  PlaywrightComputer.current_state)))) self
  = then_state (play (script_calls (cursor (_highlight_mouse self) x y)
                      ++ [Call m; Point (x, y); Call WaitForLoadState]
                      ++ script_calls state_query)) self.
Proof.
  rewrite then_state_app.
  apply pbind_cong; [apply show_cursor_script|intros [] s0 _].
  cbn [app]. rewrite then_state_cons.
  apply pbind_cong; [reflexivity|intros [] s1 _]. rewrite then_state_cons.
  apply pbind_cong; [reflexivity|intros [] s2 _]. rewrite then_state_cons.
  apply pbind_cong; [reflexivity|intros [] s3 _].
  apply current_state_script.
Qed.

Lemma chord_script (normalized : list string) (self : Playwright P) :
  normalized <> [] ->
  pbind (for_each (removelast normalized)
           (fun key => PlaywrightComputer.page (KeyboardDown key))) (fun _ =>
  pbind (plift (last_item normalized)) (fun key =>
  pbind (PlaywrightComputer.page (KeyboardPress key)) (fun _ =>
  pbind (for_each (rev (removelast normalized))
           (fun key => PlaywrightComputer.page (KeyboardUp key))) (fun _ =>
  PlaywrightComputer.current_state)))) self
  = then_state
      (play (script_calls (chord (removelast normalized)
                             (last normalized EmptyString)))) self.
Proof.
  intros N. unfold chord. rewrite !script_calls_app.
  assert (L : last_item normalized = Ok (last normalized EmptyString)).
  { destruct normalized; [contradiction|reflexivity]. }
  rewrite L. rewrite then_state_app.
  apply pbind_cong; [apply for_each_calls|intros [] s0 _].
  unfold pbind at 1, plift. unfold script_calls at 1. cbn [map app].
  rewrite then_state_cons.
  apply pbind_cong; [reflexivity|intros [] s1 _]. rewrite then_state_app.
  apply pbind_cong; [apply for_each_calls|intros [] s2 _].
  apply current_state_script.
Qed.

Lemma key_combination_script (keys : pyobj) (self : Playwright P) :
  PlaywrightComputer.key_combination keys self
  = match normalized_keys keys with
    | Ok [] => (self, Raise (Exc OtherError None))
    | Ok normalized =>
        then_state
          (play (script_calls (chord (removelast normalized)
                                 (last normalized EmptyString)))) self
    | Raise e => (self, Raise e)
    end.
Proof.
  unfold PlaywrightComputer.key_combination.
  unfold pbind at 1, plift at 1.
  destruct (normalized_keys keys) as [[|k ks]|e]; [reflexivity| |reflexivity].
  apply chord_script. discriminate.
Qed.


Lemma type_text_script (text : pyobj) (self : Playwright P) :
  PlaywrightComputer.type_text sys_platform text self
  = then_state
      (play (script_calls (chord [select_all_modifier sys_platform] "a"
                           ++ chord [] "Delete"
                           ++ [KeyboardType text; WaitForLoadState]
                           ++ state_query))) self.
Proof.
  unfold PlaywrightComputer.type_text.
  assert (K1 : forall s : Playwright P,
             (if String.eqb sys_platform "darwin"
              then PlaywrightComputer.key_combination (PList [PStr "Meta"; PStr "a"])
              else PlaywrightComputer.key_combination (PList [PStr "Control"; PStr "a"])) s
             = then_state
                 (play (script_calls (chord [select_all_modifier sys_platform] "a"))) s).
  { intros s. unfold select_all_modifier.
    destruct (String.eqb sys_platform "darwin");
      rewrite key_combination_script; reflexivity. }
  assert (K2 : forall s : Playwright P,
             PlaywrightComputer.key_combination (PList [PStr "Delete"]) s
             = then_state (play (script_calls (chord [] "Delete"))) s).
  { intros s. rewrite key_combination_script. reflexivity. }
  rewrite !script_calls_app. rewrite then_state_app, <- drop_state.
  apply pbind_cong; [apply K1|intros x s0 _].
  rewrite then_state_app, <- drop_state.
  apply pbind_cong; [apply K2|intros x' s1 _].
  unfold script_calls at 1. cbn [map app]. rewrite then_state_cons.
  apply pbind_cong; [reflexivity|intros [] s2 _]. rewrite then_state_cons.
  apply pbind_cong; [reflexivity|intros [] s3 _].
  apply current_state_script.
Qed.

Lemma scroll_script (pixels : Z) (self : Playwright P) :
  PlaywrightComputer.scroll pixels self
  = then_state (play (script_calls ([MouseWheel 0 (- pixels); WaitForLoadState]
                                    ++ state_query))) self.
Proof.
  unfold PlaywrightComputer.scroll. rewrite script_calls_app.
  unfold script_calls at 1. cbn [map app]. rewrite then_state_cons.
  apply pbind_cong; [reflexivity|intros [] s1 _]. rewrite then_state_cons.
  apply pbind_cong; [reflexivity|intros [] s2 _].
  apply current_state_script.
Qed.

Lemma drag_script (x y : Z) (self : Playwright P) :
  PlaywrightComputer.drag_to x y self
  = then_state
      (play (script_calls (cursor (_highlight_mouse self)
                             (fst (_last_mouse_pos self)) (snd (_last_mouse_pos self))
                           ++ [MouseMove (fst (_last_mouse_pos self))
                                 (snd (_last_mouse_pos self));
                               MouseDown; WaitForLoadState]
                           ++ cursor (_highlight_mouse self) x y
                           ++ [MouseMove x y; MouseUp])
             ++ [Point (x, y)] ++ script_calls state_query)) self.
Proof.
  unfold PlaywrightComputer.drag_to.
  destruct (_last_mouse_pos self) as [start_x start_y] eqn:L. cbn [fst snd].
  rewrite !script_calls_app, <- !app_assoc.
  rewrite then_state_app.
  apply pbind_cong; [apply show_cursor_script|intros [] s0 H0].
  apply play_highlight in H0.
  unfold script_calls at 1. cbn [map app]. rewrite then_state_cons.
  apply pbind_cong; [reflexivity|intros [] s1 H1].
  apply do_step_highlight in H1. rewrite then_state_cons.
  apply pbind_cong; [reflexivity|intros [] s2 H2].
  apply do_step_highlight in H2. rewrite then_state_cons.
  apply pbind_cong; [reflexivity|intros [] s3 H3].
  apply do_step_highlight in H3. rewrite then_state_app.
  replace (_highlight_mouse self) with (_highlight_mouse s3) by congruence.
  apply pbind_cong; [apply show_cursor_script|intros [] s4 _].
  unfold script_calls at 1. cbn [map app]. rewrite then_state_cons.
  apply pbind_cong; [reflexivity|intros [] s5 _]. rewrite then_state_cons.
  apply pbind_cong; [reflexivity|intros [] s6 _]. rewrite then_state_cons.
  apply pbind_cong; [reflexivity|intros [] s7 _].
  apply current_state_script.
Qed.

(** Every method of the interface plays its script and returns the
    state, or raises at once. *)
Lemma perform_script (c : call) (self : Playwright P) :
  match script_of sys_platform self c with
  | Some script => call_of c self = then_state (play script) self
  | None => exists e, call_of c self = (self, Raise e)
  end.
Proof.
  destruct c; cbn [script_of perform];
    try (apply pointer_script).
  - apply current_state_script.
  - apply drag_script.
  - apply type_text_script.
  - pose proof (key_combination_script keys self) as K.
    destruct (normalized_keys keys) as [[|k ks]|e];
      [eexists; exact K|exact K|eexists; exact K].
  - apply scroll_script.
Qed.

(** ** What the methods do *)

Lemma played_first (c : page_call) (rest : list step) (self : Playwright P) :
  exists made,
    page_calls (fst (then_state (play (Call c :: rest)) self))
    = (page_calls self ++ c :: made)%list.
Proof.
  rewrite then_state_cons. unfold pbind. cbn [do_step].
  unfold PlaywrightComputer.page.
  destruct (answer c (_page self)) as [p [e|]].
  - exists []. reflexivity.
  - destruct (played rest (called c p self)) as (_ & _ & _ & R & _).
    destruct R as (made & rest' & _ & C & _). exists made.
    rewrite C. cbn [page_calls called]. rewrite <- app_assoc. reflexivity.
Qed.


(** X13. The key map leaves its own values alone, so that normalizing a
    key name twice is normalizing it once: the names that Playwright
    knows, as [type_text] passes them, go through unchanged. *)
Theorem normalize_key_is_idempotent (k : string) :
  normalize_key (normalize_key k) = normalize_key k.
Proof.
  assert (C : key_map_is_closed = true) by (vm_compute; reflexivity).
  unfold key_map_is_closed in C. rewrite forallb_forall in C.
  destruct (key_map_get (lower k) PLAYWRIGHT_KEY_MAP) as [v|] eqn:G.
  2: { assert (N : normalize_key k = k) by (unfold normalize_key; rewrite G; reflexivity).
       rewrite !N. reflexivity. }
  assert (N : normalize_key k = v) by (unfold normalize_key; rewrite G; reflexivity).
  rewrite N.
  assert (I : In (lower k, v) PLAYWRIGHT_KEY_MAP).
  { revert G. generalize PLAYWRIGHT_KEY_MAP as m.
    induction m as [|[k' v'] m IH]; cbn [key_map_get]; [discriminate|].
    destruct (String.eqb (lower k) k') eqn:Q.
    - intros X. inversion X. subst. apply String.eqb_eq in Q. subst. left. reflexivity.
    - intros X. right. apply IH. exact X. }
  apply String.eqb_eq. apply (C (lower k, v) I).
Qed.




(** X16. No method changes the configuration of the object, and the
    state query, the keyboard methods and the scroll leave the last
    pointer position alone, whether they return or raise. *)
Theorem keyboard_and_scroll_keep_the_pointer (c : call) (self : Playwright P) :
  let out := call_of c self in
  _initial_url (fst out) = _initial_url self
  /\ _screen_size (fst out) = _screen_size self
  /\ _highlight_mouse (fst out) = _highlight_mouse self
  /\ match c with
     | CurrentState | TypeText _ | KeyCombination _ | Scroll _ =>
         _last_mouse_pos (fst out) = _last_mouse_pos self
     | _ => True
     end.
Proof.
  cbn zeta. pose proof (perform_script c self) as Q.
  destruct (script_of sys_platform self c) as [script|] eqn:S.
  - rewrite Q. destruct (played script self) as (I1 & I2 & I3 & _ & _ & K).
    split; [exact I1|]. split; [exact I2|]. split; [exact I3|].
    destruct c; try exact I; apply K; cbn [script_of] in S;
      try (destruct (normalized_keys keys) as [[|k ks]|e]; try discriminate S);
      injection S as <-;
      first [apply is_call_script_calls
            |reflexivity
            |apply (is_call_script_calls (_ :: _))].
  - destruct Q as [e Q]. rewrite Q. cbn [fst]. repeat split.
    destruct c; try exact I; reflexivity.
Qed.

Lemma chord_has_no_script (held : list string) (key : string) :
  existsb is_evaluate (chord held key) = false.
Proof.
  unfold chord. rewrite !existsb_app.
  assert (D : forall l, existsb is_evaluate (map KeyboardDown l) = false)
    by (induction l as [|k l IH]; [reflexivity|exact IH]).
  assert (U : forall l, existsb is_evaluate (map KeyboardUp l) = false)
    by (induction l as [|k l IH]; [reflexivity|exact IH]).
  rewrite D, U. reflexivity.
Qed.

Lemma script_without_highlight (c : call) (self : Playwright P) :
  _highlight_mouse self = false ->
  match script_of sys_platform self c with
  | Some script => existsb is_evaluate (calls_of script) = false
  | None => True
  end.
Proof.
  intros Hh. destruct c; cbn [script_of]; rewrite ?Hh; try reflexivity.
  destruct (normalized_keys keys) as [[|k ks]|e]; try exact I.
  rewrite calls_of_script_calls. apply chord_has_no_script.
Qed.

(** X17. With [highlight_mouse] off, no method evaluates a script in the
    page. *)
Theorem no_script_without_highlight (c : call) (self : Playwright P) :
  _highlight_mouse self = false ->
  exists made,
    page_calls (fst (call_of c self)) = (page_calls self ++ made)%list
    /\ existsb is_evaluate made = false.
Proof.
  intros Hh. pose proof (perform_script c self) as Q.
  destruct (script_of sys_platform self c) as [script|] eqn:S.
  - rewrite Q. destruct (played script self) as (_ & _ & _ & R & _).
    destruct R as (made & rest & E & C & _). exists made. split; [exact C|].
    pose proof (script_without_highlight c self Hh) as N. rewrite S in N.
    rewrite E, existsb_app in N. apply orb_false_iff in N. apply N.
  - destruct Q as [e Q]. rewrite Q. exists []. rewrite app_nil_r.
    split; reflexivity.
Qed.

(** ** The agent on a [PlaywrightComputer] *)

Local Abbreviation execute := (@_execute_action (Playwright P) computer time_sleep console_print).
Local Abbreviation coordinates := (@denormalized (Playwright P) computer).

(** X18. A key action that gives no key to press fails before the browser
    is touched: without [keys], or with an empty list, [key_combination]
    raises the [IndexError] of the empty list; with a key that is not a
    string, or with [keys] that cannot be iterated, the exception of the
    comprehension.  The call is dispatched, no call reaches the page, and
    [_execute_action] raises. *)
Theorem key_action_without_keys_fails
  (a : Agent (Playwright P)) (kvs : list (string * pyobj)) (x y : Z) (e : exn) :
  assoc "action" kvs = Some (PStr "key") ->
  coordinates a (dict_get "coordinate" (PList [PInt 0; PInt 0]) kvs) = Ok (x, y) ->
  keys_error (dict_get "keys" (PList []) kvs) = Some e ->
  let out := execute (PDict kvs) a in
  snd out = Raise e
  /\ _computer (fst out) = _computer a
  /\ trace (fst out)
     = (trace a ++ [EnvCall (KeyCombination (dict_get "keys" (PList []) kvs))])%list
  /\ (assoc "keys" kvs = None -> e = Exc OtherError None).
Proof.
  intros K D E out. subst out.
  rewrite (exec_key time_sleep console_print kvs a x y K D). unfold env.
  change (perform (KeyCombination ?k) ?s)
    with (PlaywrightComputer.key_combination k s).
  rewrite key_combination_script. cbn [_computer log].
  unfold keys_error in E.
  assert (M : assoc "keys" kvs = None -> e = Exc OtherError None).
  { intros N. unfold dict_get in E. rewrite N in E. cbn in E. congruence. }
  destruct (normalized_keys (dict_get "keys" (PList []) kvs)) as [[|k ks]|e'];
    [|discriminate E|]; inversion E; subst; cbn; repeat split; exact M.
Qed.

(** X19. Scrolling up is a negative wheel delta: a scroll action with
    [pixels] [p] makes [mouse.wheel(0, -d)] its first call on the page,
    where [d] is the denormalized amount with the sign of [p]; so a
    positive [p] (up) never gives a positive vertical delta and a
    negative [p] (down) never a negative one. *)
Theorem scroll_up_is_a_negative_wheel_delta
  (a : Agent (Playwright P)) (kvs : list (string * pyobj)) (x y p d : Z) :
  assoc "action" kvs = Some (PStr "scroll") ->
  assoc "pixels" kvs = Some (PInt p) ->
  coordinates a (dict_get "coordinate" (PList [PInt 0; PInt 0]) kvs) = Ok (x, y) ->
  0 <= snd (PlaywrightComputer.screen_size (_computer a)) ->
  scroll_pixels (PInt p) (snd (PlaywrightComputer.screen_size (_computer a))) = Ok d ->
  let out := execute (PDict kvs) a in
  (exists made,
      page_calls (_computer (fst out))
      = (page_calls (_computer a) ++ MouseWheel 0 (- d) :: made)%list)
  /\ (0 < p -> - d <= 0)
  /\ (p < 0 -> 0 <= - d).
Proof.
  intros K Px D Hh S out. subst out. split.
  - rewrite (exec_scroll time_sleep console_print kvs a x y K D). unfold dict_get. rewrite Px.
    change (screen_size (_computer a))
      with (PlaywrightComputer.screen_size (_computer a)).
    rewrite S. unfold env.
    change (perform (Scroll ?k) ?s) with (PlaywrightComputer.scroll k s).
    rewrite scroll_script. cbn [_computer log].
    destruct (played_first (MouseWheel 0 (- d))
                (Call WaitForLoadState :: script_calls state_query) (_computer a))
      as [made C].
    exists made.
    match goal with
    | |- context [then_state ?m ?s] =>
        change (then_state m s)
          with (then_state
                  (play (Call (MouseWheel 0 (- d))
                           :: Call WaitForLoadState :: script_calls state_query))
                  (_computer a)) 
    end.
    destruct (then_state _ (_computer a)) as [w r]. exact C.
  - unfold scroll_pixels in S. cbn [py_abs res_bind py_lt0] in S.
    destruct (denormalize (PInt (Z.abs p)) _) as [m|e] eqn:M; [|discriminate S].
    cbn [res_bind py_lt0] in S. inversion S; subst.
    pose proof (denormalize_not_negative (Z.abs p) _ m (Z.abs_nonneg p) Hh M) as N.
    destruct (p <? 0) eqn:L; [apply Z.ltb_lt in L|apply Z.ltb_ge in L]; lia.
Qed.

End PlaywrightProperties.


(** * The properties on the scenarios *)

(** C1: on the 1440 x 900 viewport the normalized 999 goes to 1438; the
    rounded value is 1439. *)
Lemma denormalization_does_not_round :
  _denormalize_x (stub_agent 50) (PInt 999) = Ok 1438
  /\ round_div (999 * 1440) 1000 = 1439
  /\ _denormalize_x (stub_agent 50) (PInt 999)
     <> Ok (round_div (999 * 1440) 1000).
Proof.
  split; [vm_compute; reflexivity|]. split; [reflexivity|].
  vm_compute. intros E. discriminate E.
Qed.

Lemma pointer_coordinates_witness :
  exists dx dy,
    _denormalize_x (stub_agent 50) (PInt 999) = Ok dx
    /\ _denormalize_y (stub_agent 50) (PInt 999) = Ok dy
    /\ exec_click_999 dx dy.
Proof.
  destruct (pointer_coordinates_are_truncated no_sleep rich_console (stub_agent 50)
              "left_click" 999 999 1440 900
              [("action", PStr "left_click");
               ("coordinate", PList [PInt 999; PInt 999])])
    as (dx & dy & Dx & Dy & _ & _ & _ & _ & X);
    [reflexivity|reflexivity|reflexivity|simpl; lia|simpl; lia|lia|lia|].
  exists dx, dy. split; [exact Dx|]. split; [exact Dy|].
  unfold exec_click_999. apply X. reflexivity.
Defined.


(** C3: the response [[/x]] is unparseable, and the console of rich
    cannot print it. The print of the raw response (line 239) raises in
    place of the [ValueError], the print of the error line (line 200)
    raises again inside the handler, and the exception leaves [run] on
    the first turn: no Result is returned, no failure was counted, and
    the model was asked once, not three times. *)
Lemma unprintable_response_leaves_run :
  _parse_response json_loads_fragment rich_console closing_tag = Ok None
  /\ parse_error json_loads_fragment rich_console closing_tag
     = Some markup_error
  /\ rich_console (ErrorLine markup_error) = Some markup_error
  /\ snd (stub_run [closing_tag; closing_tag; closing_tag] (stub_agent 50))
     = Some (Raise markup_error)
  /\ _consecutive_failures
       (fst (stub_run [closing_tag; closing_tag; closing_tag] (stub_agent 50)))
     = 0
  /\ inferences
       (fst (stub_run [closing_tag; closing_tag; closing_tag] (stub_agent 50)))
     = 1%nat.
Proof.
  repeat split; vm_compute; reflexivity.
Qed.

Lemma three_parse_failures_witness :
  snd (run_loop json_loads_fragment no_dumps no_sleep no_resize
         (scripted (map says ["click here"; "{}"; " "])) EmptyString rich_console 3
         stub_state (stub_agent 50))
  = Some (Ok {| status := PStr "failure"; action_count := 0;
                final_url := "https://www.google.com";
                reasoning := StrOf (Exc ValueError (Some "Failed to parse action")) |}).
Proof.
  destruct (three_parse_failures_end_the_run json_loads_fragment no_dumps
              no_sleep no_resize (scripted (map says ["click here"; "{}"; " "]))
              EmptyString rich_console stub_state (stub_agent 50) 0
              "click here" "because" "{}" "because" " " "because"
              (Exc ValueError (Some "Failed to parse action"))
              (Exc ValueError (Some "Failed to parse action"))
              (Exc ValueError (Some "Failed to parse action"))
              {| received := [CurrentState] |}
              {| received := [CurrentState; CurrentState] |}
              stub_state stub_state)
    as [L _]; [reflexivity..|].
  rewrite L. reflexivity.
Defined.






Lemma scroll_witness :
  scroll_pixels (PInt (Z.opp 500)) 900 = Ok (Z.opp 450)
  /\ scroll_pixels (PInt 500) 900 = Ok 450.
Proof.
  destruct (scroll_denormalization_is_odd 500 900) as (O & _); [lia|].
  rewrite O. split; vm_compute; reflexivity.
Defined.


(** C10: an answer whose text is [[/x]] is a parsed action of the kind
    "answer", and the console of rich cannot print it. The table of the
    action (line 472) raises, the print of the error line (line 200)
    raises again inside the handler, and the exception leaves [run]: no
    Result is returned. *)
Lemma unprintable_answer_leaves_run :
  _parse_response json_loads_fragment rich_console answer_tag_json
  = Ok (Some (PDict [("action", PStr "answer"); ("text", PStr closing_tag)]))
  /\ rich_console
       (ActionTable "because"
          (PDict [("action", PStr "answer"); ("text", PStr closing_tag)]))
     = Some markup_error
  /\ rich_console (AnswerLine (PStr closing_tag)) = Some markup_error
  /\ rich_console (ErrorLine markup_error) = Some markup_error
  /\ snd (stub_run [answer_tag_json] (stub_agent 50))
     = Some (Raise markup_error).
Proof.
  repeat split; vm_compute; reflexivity.
Qed.

Lemma answer_witness :
  snd (run_loop json_loads_fragment no_dumps no_sleep no_resize
         (scripted [says answer_json]) EmptyString rich_console 1
         stub_state (stub_agent 50))
  = Some (Ok {| status := PStr "success"; action_count := 0;
                final_url := "https://www.google.com";
                reasoning := Obj (PStr "42") |}).
Proof.
  destruct (answer_ends_the_loop json_loads_fragment no_dumps
              no_sleep no_resize (scripted [says answer_json])
              EmptyString rich_console stub_state (stub_agent 50) 0
              answer_json "because"
              [("action", PStr "answer"); ("text", PStr "42")])
    as [L _]; [reflexivity..|].
  rewrite L. reflexivity.
Defined.

Lemma interruption_witness :
  snd (run_loop json_loads_fragment no_dumps no_sleep no_resize
         (scripted [Fails KeyboardInterrupt]) EmptyString rich_console 1
         stub_state (stub_agent 50))
  = Some (Ok {| status := PStr "failure"; action_count := 0;
                final_url := "https://www.google.com";
                reasoning := Obj (PStr "User interrupted") |}).
Proof.
  destruct (interruption_ends_the_run json_loads_fragment no_dumps
              no_sleep no_resize (scripted [Fails KeyboardInterrupt])
              EmptyString rich_console stub_state (stub_agent 50) 0)
    as [L _]; [reflexivity..|].
  rewrite L. reflexivity.
Defined.

Lemma failed_inference_witness :
  _consecutive_failures
    (fst (loop_body json_loads_fragment no_dumps no_sleep no_resize
            (scripted [Fails (Exc OtherError (Some "connection refused"))])
            EmptyString rich_console stub_state (stub_agent 50)))
  = 0 + 1.
Proof.
  destruct (failed_inference_is_counted json_loads_fragment no_dumps
              no_sleep no_resize
              (scripted [Fails (Exc OtherError (Some "connection refused"))])
              EmptyString rich_console stub_state (stub_agent 50)
              (Exc OtherError (Some "connection refused"))
              {| received := [CurrentState] |} stub_state)
    as [L _]; [reflexivity..|].
  destruct L as (B & F & _); [reflexivity..|].
  rewrite B. exact F.
Defined.

Lemma terminate_status_witness :
  snd (run_loop json_loads_fragment no_dumps no_sleep no_resize
         (scripted [says give_up_json]) EmptyString rich_console 1
         stub_state (stub_agent 50))
  = Some (Ok {| status := PStr "failure"; action_count := 0;
                final_url := "https://www.google.com";
                reasoning := Obj (PStr "because") |}).
Proof.
  destruct (terminate_status_is_carried json_loads_fragment no_dumps
              no_sleep no_resize (scripted [says give_up_json]) EmptyString
              rich_console stub_state (stub_agent 50) 0 give_up_json "because"
              [("action", PStr "terminate"); ("status", PStr "failure")])
    as [L _]; [reflexivity..|].
  rewrite L. reflexivity.
Defined.

Lemma malformed_coordinate_witness :
  _execute_action no_sleep rich_console (PDict type_at_5) (stub_agent 50)
  = (stub_agent 50, Raise (Exc TypeError None)).
Proof.
  destruct (malformed_coordinate_fails_any_action json_loads_fragment no_dumps
              no_sleep no_resize (scripted []) EmptyString rich_console
              stub_state (stub_agent 50) EmptyString EmptyString
              type_at_5 (PInt 5))
    as (cls & [C|C] & X & _); [reflexivity..| |]; rewrite C in X.
  - exact X.
  - vm_compute in X. discriminate X.
Defined.

Lemma short_coordinate_witness :
  _execute_action no_sleep rich_console (PDict click_at_500) (stub_agent 50)
  = env (ClickAt 720 0) (stub_agent 50).
Proof.
  apply (short_coordinate_defaults_to_zero no_sleep rich_console (stub_agent 50)
           "left_click" click_at_500 [PInt 500] eq_refl eq_refl
           720 (ClickAt 720 0)); reflexivity.
Defined.


Lemma inference_bound_witness :
  Z.of_nat (inferences (fst (stub_run [] (stub_agent 2)))) <= 0 + 3 * Z.max 0 (2 - 0).
Proof.
  apply (inference_calls_are_bounded json_loads_fragment no_dumps no_sleep
           no_resize (scripted []) EmptyString rich_console (stub_agent 2)).
  cbn. lia.
Defined.


Lemma no_script_witness :
  exists made,
    page_calls (fst (PlaywrightComputer.click_at 720 450 browser))
    = (page_calls browser ++ made)%list
    /\ existsb is_evaluate made = false.
Proof.
  apply (no_script_without_highlight "linux" (ClickAt 720 450) browser).
  reflexivity.
Defined.

Lemma key_without_keys_witness :
  snd (@_execute_action (Playwright unit) linux no_sleep rich_console
         (PDict key_without_keys) browser_agent)
  = Raise (Exc OtherError None).
Proof.
  apply (key_action_without_keys_fails "linux" no_sleep rich_console browser_agent
           key_without_keys 0 0 (Exc OtherError None));
    reflexivity.
Defined.

Lemma scroll_up_witness :
  exists made,
    page_calls (_computer (fst (@_execute_action (Playwright unit) linux no_sleep rich_console
                                  (PDict scroll_up_500) browser_agent)))
    = (page_calls (_computer browser_agent) ++ MouseWheel 0 (- 450) :: made)%list.
Proof.
  apply (scroll_up_is_a_negative_wheel_delta "linux" no_sleep rich_console browser_agent
           scroll_up_500 0 0 500 450);
    first [reflexivity | cbn; lia].
Defined.

Lemma pointer_on_screen_witness :
  exists dx dy,
    denormalized (stub_agent 50) (PList [PInt 1000; PInt 500]) = Ok (dx, dy)
    /\ dx = 1440
    /\ 0 <= dy <= 900.
Proof.
  destruct (pointer_stays_on_the_screen (stub_agent 50) 1000 500 1440 900)
    as (dx & dy & D & _ & Ry & Ex & _);
    [first [reflexivity | lia]..|].
  exists dx, dy. split; [exact D|]. split; [apply Ex; reflexivity|exact Ry].
Defined.

Lemma exit_code_witness :
  exists state a0 c t kvs,
    fst (stub_run [terminate_json] (stub_agent 50))
    = asked no_dumps no_resize EmptyString state a0
    /\ scripted (map says [terminate_json]) (inferences a0) = Reply c t
    /\ _parse_response json_loads_fragment rich_console c = Ok (Some (PDict kvs))
    /\ ((assoc "action" kvs = Some (PStr "terminate")
         /\ dict_get "status" (PStr "success") kvs = PStr "success")
        \/ assoc "action" kvs = Some (PStr "answer")).
Proof.
  apply (exit_code_zero_means_the_model_ended_the_task json_loads_fragment
           no_dumps no_sleep no_resize (scripted (map says [terminate_json]))
           EmptyString rich_console (stub_agent 50)
           (fst (stub_run [terminate_json] (stub_agent 50)))
           {| status := PStr "success"; action_count := 0;
              final_url := "https://www.google.com";
              reasoning := Obj (PStr "because") |});
    reflexivity.
Defined.
